(** * gs-excel-transformation: the record normalisation pipeline of
    [app/src/utils.py], embedded in Rocq.

    The Python module is a chain of pandas calls.  A [DataFrame] is kept the
    way pandas keeps it: a row index and an ordered list of named columns,
    each column a list of cells.  Exceptions are values of [exn] carried by
    the [result] monad.  The pandas / numpy / datetime primitives the module
    calls are the fields of the class [Pandas]; the pipeline is written once
    over that interface. *)

From Stdlib Require Import String Ascii.
From Stdlib Require Import ZArith List Bool Lia.
From Stdlib Require Import Floats.
From Stdlib Require Import Permutation Sorted DecimalString.
Import ListNotations.
Open Scope string_scope.
Open Scope Z_scope.
Set Warnings "-inexact-float".

(** ** Exceptions and the error monad *)

Inductive exn : Type :=
| KeyError (msg : string)
| ValueError (msg : string)
| TypeError (msg : string)
| RuntimeError (msg : string).

(** [str(e)] as interpolated by an f-string. *)
Definition exn_str (e : exn) : string :=
  match e with
  | KeyError m | ValueError m | TypeError m | RuntimeError m => m
  end.

Inductive exn_class : Type := KeyErrorC | ValueErrorC | TypeErrorC | RuntimeErrorC.

Definition class_of (e : exn) : exn_class :=
  match e with
  | KeyError _ => KeyErrorC
  | ValueError _ => ValueErrorC
  | TypeError _ => TypeErrorC
  | RuntimeError _ => RuntimeErrorC
  end.

Inductive result (A : Type) : Type :=
| Ok (a : A)
| Err (e : exn).

Arguments Ok {A} a.
Arguments Err {A} e.

Definition bind {A B : Type} (r : result A) (k : A -> result B) : result B :=
  match r with
  | Ok a => k a
  | Err e => Err e
  end.

Notation "x <- r ;; k" := (bind r (fun x => k))
  (at level 61, r at next level, right associativity).

Definition is_ok {A : Type} (r : result A) : bool :=
  match r with Ok _ => true | Err _ => false end.

Fixpoint mapM {A B : Type} (f : A -> result B) (l : list A) : result (list B) :=
  match l with
  | [] => Ok []
  | a :: l' => b <- f a ;; bs <- mapM f l' ;; Ok (b :: bs)
  end.

(** ** Cells, columns, frames *)

(** A cell of a frame.  [NaN] is the missing value ([np.nan], [None], [NaT]);
    a float64 is an IEEE 754 binary64 number, one of Rocq's primitive
    floats; [VTime] is a naive timestamp, an instant on one time line. *)
Inductive cell : Type :=
| NaN
| VStr (s : string)
| VInt (z : Z)
| VFloat (x : float)
| VTime (t : Z).

Definition Series : Type := list cell.

Record DataFrame : Type := mkDF {
  index : list nat;
  cols : list (string * Series)
}.

Definition columns (df : DataFrame) : list string := map fst (cols df).

Definition cell_eqb (a b : cell) : bool :=
  match a, b with
  | NaN, NaN => true
  | VStr s, VStr t => String.eqb s t
  | VInt x, VInt y => x =? y
  | VFloat x, VFloat y => PrimFloat.eqb x y
  | VTime x, VTime y => x =? y
  | _, _ => false
  end.

Definition isna (c : cell) : bool :=
  match c with NaN => true | _ => false end.

Definition mem (s : string) (l : list string) : bool :=
  existsb (String.eqb s) l.

(** [df[c]]: the first column called [c]. *)
Fixpoint lookup (c : string) (l : list (string * Series)) : option Series :=
  match l with
  | [] => None
  | (n, s) :: l' => if String.eqb c n then Some s else lookup c l'
  end.

Definition column (df : DataFrame) (c : string) : option Series :=
  lookup c (cols df).

Definition getitem (df : DataFrame) (c : string) : result Series :=
  match column df c with
  | Some s => Ok s
  | None => Err (KeyError c)
  end.

(** [df[c] = s] with a full column: overwrite in place, or append. *)
Fixpoint set_col (c : string) (s : Series) (l : list (string * Series))
  : list (string * Series) :=
  match l with
  | [] => [(c, s)]
  | (n, s0) :: l' =>
      if String.eqb c n then (n, s) :: l' else (n, s0) :: set_col c s l'
  end.

Definition setitem (df : DataFrame) (c : string) (s : Series) : DataFrame :=
  mkDF (index df) (set_col c s (cols df)).

(** [df[c] = v] with a scalar: broadcast over the index. *)
Definition setitem_scalar (df : DataFrame) (c : string) (v : cell) : DataFrame :=
  setitem df c (repeat v (length (index df))).

(** [df[names]]: the named columns in the given order; [KeyError] on the
    first name that is not a column. *)
Definition select (df : DataFrame) (names : list string) : result DataFrame :=
  cs <- mapM (fun c => s <- getitem df c ;; Ok (c, s)) names ;;
  Ok (mkDF (index df) cs).

(** [df.drop(columns=names)]: every name must be a column. *)
Definition drop (df : DataFrame) (names : list string) : result DataFrame :=
  match filter (fun c => negb (mem c (columns df))) names with
  | [] => Ok (mkDF (index df)
                (filter (fun p => negb (mem (fst p) names)) (cols df)))
  | c :: _ => Err (KeyError c)
  end.

(** [df.insert(0, c, v)]. *)
Definition insert0 (df : DataFrame) (c : string) (v : cell) : result DataFrame :=
  if mem c (columns df)
  then Err (ValueError ("cannot insert " ++ c ++ ", already exists"))
  else Ok (mkDF (index df) ((c, repeat v (length (index df))) :: cols df)).

(** Boolean-mask selection [x[mask]] on one axis. *)
Fixpoint mask_list {A : Type} (m : list bool) (l : list A) : list A :=
  match m, l with
  | b :: m', a :: l' => if b then a :: mask_list m' l' else mask_list m' l'
  | _, _ => []
  end.

Definition mask_rows (df : DataFrame) (m : list bool) : DataFrame :=
  mkDF (mask_list m (index df))
       (map (fun p => (fst p, mask_list m (snd p))) (cols df)).

(** Positional selection [x[indexer]]. *)
Definition take {A : Type} (d : A) (ix : list nat) (l : list A) : list A :=
  map (fun i => nth i l d) ix.

Definition take_rows (df : DataFrame) (ix : list nat) : DataFrame :=
  mkDF (take 0%nat ix (index df))
       (map (fun p => (fst p, take NaN ix (snd p))) (cols df)).

Definition reset_index (df : DataFrame) : DataFrame :=
  mkDF (seq 0 (length (index df))) (cols df).

(** [s.isin(values)] against a list of strings. *)
Definition isin (values : list string) (c : cell) : bool :=
  match c with
  | VStr s => mem s values
  | _ => false
  end.

(** [df.replace(old, new)] and [df.fillna(v)], cell by cell. *)
Definition replace_cell (old new : cell) (c : cell) : cell :=
  if cell_eqb c old then new else c.

Definition fillna_cell (v : cell) (c : cell) : cell :=
  if isna c then v else c.

Definition map_cells (f : cell -> cell) (df : DataFrame) : DataFrame :=
  mkDF (index df) (map (fun p => (fst p, map f (snd p))) (cols df)).

(** [df.rename(columns=d)]: names outside the dictionary are kept. *)
Fixpoint dict_get (d : list (string * string)) (k : string) : option string :=
  match d with
  | [] => None
  | (k0, v) :: d' => if String.eqb k k0 then Some v else dict_get d' k
  end.

Definition rename (d : list (string * string)) (df : DataFrame) : DataFrame :=
  mkDF (index df)
       (map (fun p => (match dict_get d (fst p) with
                       | Some n => n
                       | None => fst p
                       end, snd p)) (cols df)).

(** ** dtypes

    The dtype of a column is the one pandas infers from its values: a column
    of integers is int64, a column of floats (missing values included) is
    float64, a column of timestamps is datetime64, anything else is
    object. *)
Inductive dtype : Type := object | float64 | int64 | datetime64.

Definition is_int (c : cell) : bool :=
  match c with VInt _ => true | _ => false end.

Definition is_float (c : cell) : bool :=
  match c with VFloat _ | NaN => true | _ => false end.

Definition is_time (c : cell) : bool :=
  match c with VTime _ | NaN => true | _ => false end.

Definition is_numeric (c : cell) : bool := is_int c || is_float c.

Definition dtype_of (s : Series) : dtype :=
  if forallb is_int s then int64
  else if forallb is_float s then float64
  else if forallb is_time s then datetime64
  else object.

(** ** Strings *)

Definition comma : ascii := ","%char.

Fixpoint remove_commas (s : string) : string :=
  match s with
  | EmptyString => EmptyString
  | String a s' =>
      if Ascii.eqb a comma then remove_commas s' else String a (remove_commas s')
  end.

Fixpoint has_comma (s : string) : bool :=
  match s with
  | EmptyString => false
  | String a s' => Ascii.eqb a comma || has_comma s'
  end.

(** A cell retains a comma when it is a string with a comma in it. *)
Definition retains_comma (c : cell) : bool :=
  match c with VStr s => has_comma s | _ => false end.

Fixpoint endswith_rev (rs rsuf : list ascii) : bool :=
  match rsuf, rs with
  | [], _ => true
  | a :: rsuf', b :: rs' => Ascii.eqb a b && endswith_rev rs' rsuf'
  | _ :: _, [] => false
  end.

(** [s.endswith(suf)]. *)
Definition endswith (s suf : string) : bool :=
  endswith_rev (rev (list_ascii_of_string s)) (rev (list_ascii_of_string suf)).

(** ** Numbers

    float64 arithmetic is that of IEEE 754 binary64, every operation
    rounded to nearest, ties to even. *)

(** An integer converted to float64. *)
Definition float_of_int (z : Z) : float :=
  SF2Prim (binary_normalize prec emax z 0 false).

(** [numpy.rint]: the nearest integer, ties to even, the sign kept. *)
Definition rint (x : float) : float :=
  match Prim2SF x with
  | S754_finite s m e =>
      if 0 <=? e then x
      else
        let d := 2 ^ (- e) in
        let q := Z.pos m / d in
        let n := match 2 * (Z.pos m mod d) ?= d with
                 | Lt => q
                 | Gt => q + 1
                 | Eq => if Z.even q then q else q + 1
                 end in
        SF2Prim (binary_normalize prec emax (if s then - n else n) 0 s)
  | _ => x
  end.

(** [numpy.round(x, n)] on a float64, for [n >= 0]: the value is scaled
    by [10**n], rounded by [rint] and scaled back, each step in float64. *)
Definition np_round (n : nat) (x : float) : float :=
  let f := float_of_int (10 ^ Z.of_nat n) in
  (rint (x * f) / f)%float.

Definition round_cell (n : nat) (c : cell) : cell :=
  match c with
  | VFloat x => VFloat (np_round n x)
  | _ => c
  end.

(** [x * k] for a float constant [k]: an integer is converted to float64
    first; a string or a timestamp cannot be multiplied by a float. *)
Definition mul_cell (k : float) (c : cell) : result cell :=
  match c with
  | VInt z => Ok (VFloat (float_of_int z * k)%float)
  | VFloat x => Ok (VFloat (x * k)%float)
  | NaN => Ok NaN
  | VStr _ => Err (TypeError "can't multiply sequence by non-int of type 'float'")
  | VTime _ => Err (TypeError "unsupported operand type(s) for *")
  end.

(** A numeric column has one dtype: integers next to floats become floats. *)
Definition upcast (s : Series) : Series :=
  if forallb is_int s then s
  else map (fun c => match c with
                     | VInt z => VFloat (float_of_int z)
                     | _ => c
                     end) s.

(** ** Constants of the module *)

Definition gallon : float := 3.785411784%float.
Definition feet_squared : float := 0.09290304%float.

Definition cols_to_rename : list (string * string) :=
  [ ("Id", "id");
    ("Robot name", "robot_name");
    ("S/N", "serial_number");
    ("Map name", "map_name");
    ("Cleaning plan", "task_name");
    ("User", "user");
    ("Task start time", "start_time");
    ("End time", "end_time");
    ("Task completion (%)", "task_completion");
    ("Actual cleaning area(㎡)", "cleaning_area");
    ("Actual cleaning area(ft²)", "cleaning_area");
    ("Total time (h)", "total_time");
    ("Water usage (L)", "water_usage");
    ("Water usage (gal)", "water_usage");
    ("Brush (%)", "brush");
    ("Filter (%)", "filter_element");
    ("Squeegee(%)", "squeegee");
    ("Planned crystallization area (㎡)", "created_at");
    ("Planned crystallization area (ft²)", "created_at");
    ("Actual crystallization area (㎡)", "updated_at");
    ("Actual crystallization area (ft²)", "updated_at");
    ("Cleaning plan area (㎡)", "area_planned");
    ("Cleaning plan area (ft²)", "area_planned");
    ("Start battery level (%)", "start_battery_level");
    ("End battery level (%)", "end_battery_level");
    ("Receive task report time", "task_report_received");
    ("Task type", "cleaning_mode");
    ("Download link", "report_link");
    ("Work efficiency (㎡/h)", "performance");
    ("Work efficiency (ft²/h)", "performance") ].

Definition report_time : string := "Receive task report time".
Definition NULL : cell := VStr "NULL".

(** ** The library interface

    What the module asks of datetime, numpy and pandas.  A parse that raises
    is [None].  [argsort] is [numpy.argsort] with pandas' default
    [kind="quicksort"]: it returns a permutation of the positions that puts
    the keys in non-decreasing order, and nothing is promised about the
    order of equal keys. *)
Class Pandas : Type := {
  (** [datetime.strptime(s, "%Y-%m-%d %H:%M:%S")] *)
  strptime : string -> option Z;
  (** [pd.to_datetime(series)], [None] in the result for [NaT] *)
  to_datetime : Series -> option (list (option Z));
  to_datetime_length :
    forall s l, to_datetime s = Some l -> length l = length s;
  argsort : list Z -> list nat;
  argsort_perm : forall l, Permutation (argsort l) (seq 0 (length l));
  argsort_sorted :
    forall l, StronglySorted Z.le (map (fun i => nth i l 0) (argsort l));
  (** [str(x)], as [astype(str)] applies it to a cell *)
  py_str : cell -> string;
  (** [float(s)], as [astype(float)] applies it to a string *)
  py_float : string -> option cell;
  py_float_is_float : forall s c, py_float s = Some c -> is_float c = true;
  (** [pd.to_numeric] on a string *)
  to_numeric : string -> option cell;
  to_numeric_is_numeric :
    forall s c, to_numeric s = Some c -> is_numeric c = true
}.

(** An uploaded file: its name, and its byte stream kept as what
    [pd.read_csv] and [pd.read_excel] make of it (a frame, or the exception
    the reader raises). *)
Record BytesIO : Type := mkFile {
  name : string;
  read_csv : result DataFrame;
  read_excel : result DataFrame
}.

(** [try: ... except Exception as e: raise RuntimeError(f"...{e}")]. *)
Definition reraise {A : Type} (r : result A) : result A :=
  match r with
  | Ok a => Ok a
  | Err e =>
      Err (RuntimeError ("An error occurred while reading the file: " ++ exn_str e))
  end.

Definition read_file (file : BytesIO) : result DataFrame :=
  reraise
    (if endswith (name file) ".csv" then read_csv file
     else if endswith (name file) ".xls" || endswith (name file) ".xlsx"
          then read_excel file
          else Err (ValueError ("Unsupported file type: " ++ name file))).

Section Pipeline.

Context {P : Pandas}.

Definition of_opt {A : Type} (e : exn) (o : option A) : result A :=
  match o with Some a => Ok a | None => Err e end.

Definition of_time (o : option Z) : cell :=
  match o with Some t => VTime t | None => NaN end.

(** [df = df[~df["S/N"].isin(exclude_values)]], under [if exclude_values:]. *)
Definition exclude (exclude_values : option (list string)) (df : DataFrame)
  : result DataFrame :=
  match exclude_values with
  | Some (v :: vs) =>
      sn <- getitem df "S/N" ;;
      Ok (mask_rows df (map (fun c => negb (isin (v :: vs) c)) sn))
  | _ => Ok df
  end.

(** [series > selected_datetime] on a datetime64 column: [NaT] compares
    false. *)
Definition gt_datetime (selected : Z) (c : cell) : bool :=
  match c with
  | VTime t => selected <? t
  | _ => false
  end.

Definition time_key (c : cell) : Z :=
  match c with VTime t => t | _ => 0 end.

(** [nargsort(k, kind="quicksort", ascending=False, na_position="last")]:
    the non-missing keys are reversed, argsorted and the indexer reversed
    again; the missing ones go last. *)
Definition nargsort_desc (k : Series) : list nat :=
  let idx := seq 0 (length k) in
  let mask := map isna k in
  let non_nans := rev (mask_list (map negb mask) k) in
  let non_nan_idx := rev (mask_list (map negb mask) idx) in
  let nan_idx := mask_list mask idx in
  let indexer := take 0%nat (argsort (map time_key non_nans)) non_nan_idx in
  rev indexer ++ nan_idx.

Definition sort_values_desc (by_ : string) (df : DataFrame) : result DataFrame :=
  k <- getitem df by_ ;;
  Ok (take_rows df (nargsort_desc k)).

(** Lines 102-130 of [process_data] and 231-259 of [process_ca_data]: the
    two texts differ in [drop_columns] only. *)
Definition filter_sort (drop_columns : list string) (file : BytesIO)
    (selected_datetime_str : string) (exclude_values : option (list string))
  : result DataFrame :=
  df <- read_file file ;;
  df <- exclude exclude_values df ;;
  df <- drop df drop_columns ;;
  df <- insert0 df "Id" NaN ;;
  selected_datetime <-
    of_opt (ValueError "time data does not match format")
           (strptime selected_datetime_str) ;;
  rt <- getitem df report_time ;;
  ts <- of_opt (ValueError "could not parse datetime") (to_datetime rt) ;;
  let df := setitem df report_time (map of_time ts) in
  rt <- getitem df report_time ;;
  let df_filtered := mask_rows df (map (gt_datetime selected_datetime) rt) in
  df_filtered <- exclude exclude_values df_filtered ;;
  df_filtered <- sort_values_desc report_time df_filtered ;;
  Ok (reset_index df_filtered).

(** [for col in column_order: if col not in df.columns: df[col] = "NULL"]. *)
Definition ensure_columns (column_order : list string) (df : DataFrame)
  : DataFrame :=
  fold_left (fun d col =>
               if mem col (columns d) then d else setitem_scalar d col NULL)
            column_order df.

(** [df.loc[:, cols] = v]. *)
Definition loc_assign (cols_ : list string) (v : cell) (df : DataFrame)
  : DataFrame :=
  fold_left (fun d c => setitem_scalar d c v) cols_ df.

(** Apply a column-wise transformation to the named columns, in order. *)
Fixpoint update_columns (f : Series -> result Series) (names : list string)
    (df : DataFrame) : result DataFrame :=
  match names with
  | [] => Ok df
  | c :: names' =>
      s <- getitem df c ;;
      s' <- f s ;;
      update_columns f names' (setitem df c s')
  end.

Definition astype_str (s : Series) : Series :=
  map (fun c => VStr (py_str c)) s.

Definition str_replace_comma (c : cell) : cell :=
  match c with
  | VStr s => VStr (remove_commas s)
  | _ => c
  end.

Definition astype_float_cell (c : cell) : result cell :=
  match c with
  | VStr s => of_opt (ValueError ("could not convert string to float: " ++ s))
                     (py_float s)
  | VInt z => Ok (VFloat (float_of_int z))
  | VFloat _ | NaN => Ok c
  | VTime _ => Err (TypeError "cannot astype a datetimelike to float64")
  end.

Definition astype_float (s : Series) : result Series :=
  mapM astype_float_cell s.

Definition to_numeric_cell (c : cell) : result cell :=
  match c with
  | VStr s => of_opt (ValueError ("Unable to parse string " ++ s)) (to_numeric s)
  | VTime _ => Err (TypeError "Invalid object type")
  | _ => Ok c
  end.

(** [pd.to_numeric(series)]. *)
Definition to_numeric_series (s : Series) : result Series :=
  l <- mapM to_numeric_cell s ;; Ok (upcast l).

(** *** The metric pipeline *)

Definition drop_columns_metric : list string :=
  [ "Total time"; "Task status"; "Plan running time (s)";
    "Uncleaned area (㎡)"; "Task start mode"; "Remarks" ].

Definition column_order_metric : list string :=
  [ "Id"; "Robot name"; "S/N"; "Map name"; "Cleaning plan"; "User";
    "Task start time"; "End time"; "Task completion (%)";
    "Actual cleaning area(㎡)"; "Total time (h)"; "Water usage (L)";
    "Brush (%)"; "Filter (%)"; "Squeegee(%)";
    "Planned crystallization area (㎡)"; "Actual crystallization area (㎡)";
    "Cleaning plan area (㎡)"; "Start battery level (%)";
    "End battery level (%)"; "Receive task report time"; "Task type";
    "Download link"; "Work efficiency (㎡/h)" ].

Definition columns_to_update_metric : list string :=
  [ "Planned crystallization area (㎡)"; "Actual crystallization area (㎡)" ].

Definition columns_with_comma_or_pct : list string :=
  [ "Work efficiency (㎡/h)"; "Actual cleaning area(㎡)";
    "Cleaning plan area (㎡)"; "Brush (%)"; "Filter (%)"; "Squeegee(%)" ].

(** The body of the cleanup loop on one column: the guard on the dtype,
    then [astype(str)], [str.replace(",", "")], the two whole-value
    replacements and [astype(float)]. *)
Definition clean_metric (s : Series) : result Series :=
  match dtype_of s with
  | object | float64 =>
      astype_float
        (map (replace_cell (VStr "100.00") (VStr "100"))
           (map (replace_cell (VStr "0.00") (VStr "0"))
              (map str_replace_comma (astype_str s))))
  | _ => Ok s
  end.

(** Lines 160-200: from [df_filtered] to the returned frame.  The
    [astype("object")] of line 174 changes no value. *)
Definition normalize_metric (adjusted_datetime : cell) (df_filtered : DataFrame)
  : result DataFrame :=
  let df_filtered := ensure_columns column_order_metric df_filtered in
  df_reorder <- select df_filtered column_order_metric ;;
  let df_test := loc_assign columns_to_update_metric adjusted_datetime df_reorder in
  let df_replaced := map_cells (replace_cell (VStr "-") (VInt 0)) df_test in
  let df_replaced := map_cells (fillna_cell NULL) df_replaced in
  update_columns clean_metric columns_with_comma_or_pct df_replaced.

Definition process_data (file : BytesIO) (selected_datetime_str : string)
    (adjusted_datetime : cell) (exclude_values : option (list string))
  : result DataFrame :=
  df_filtered <- filter_sort drop_columns_metric file selected_datetime_str
                             exclude_values ;;
  normalize_metric adjusted_datetime df_filtered.

(** *** The imperial pipeline *)

Definition drop_columns_ca : list string :=
  [ "Total time"; "Task status"; "Plan running time (s)";
    "Uncleaned area (ft²)"; "Task start mode"; "Remarks" ].

Definition column_order_ca : list string :=
  [ "Id"; "Robot name"; "S/N"; "Map name"; "Cleaning plan"; "User";
    "Task start time"; "End time"; "Task completion (%)";
    "Actual cleaning area(ft²)"; "Total time (h)"; "Water usage (gal)";
    "Brush (%)"; "Filter (%)"; "Squeegee(%)";
    "Planned crystallization area (ft²)"; "Actual crystallization area (ft²)";
    "Cleaning plan area (ft²)"; "Start battery level (%)";
    "End battery level (%)"; "Receive task report time"; "Task type";
    "Download link"; "Work efficiency (ft²/h)" ].

Definition columns_to_update_ca : list string :=
  [ "Planned crystallization area (ft²)"; "Actual crystallization area (ft²)" ].

Definition columns_with_comma : list string :=
  [ "Work efficiency (ft²/h)"; "Actual cleaning area(ft²)";
    "Cleaning plan area (ft²)" ].

Definition columns_with_pct : list string :=
  [ "Brush (%)"; "Filter (%)"; "Squeegee(%)" ].

(** Line 309-311. *)
Definition strip_commas (s : Series) : result Series :=
  Ok (map str_replace_comma (astype_str s)).

(** Line 314. *)
Definition convert_volume (s : Series) : result Series :=
  s1 <- mapM (mul_cell gallon) s ;;
  s2 <- mapM to_numeric_cell s1 ;;
  Ok (map (round_cell 4) s2).

(** Line 315. *)
Definition convert_area (s : Series) : result Series :=
  s1 <- to_numeric_series s ;;
  mapM (mul_cell feet_squared) s1.

(** Line 316: [astype(str)], then the whole-value [replace(",", "")]. *)
Definition area_to_str (s : Series) : result Series :=
  Ok (map (replace_cell (VStr ",") (VStr "")) (astype_str s)).

(** Line 317. *)
Definition round_area (s : Series) : result Series :=
  s1 <- to_numeric_series s ;; Ok (map (round_cell 3) s1).

(** Line 318. *)
Definition clean_pct (s : Series) : result Series :=
  astype_float
    (map (replace_cell (VStr "100.00") (VStr "100"))
       (map (replace_cell (VStr "0.0") (VStr "0")) s)).

(** Lines 288-318: from [df_filtered] to the returned frame.  The
    [astype("object")] of line 297 changes no value. *)
Definition normalize_ca (adjusted_datetime : cell) (df_filtered : DataFrame)
  : result DataFrame :=
  df_reorder <- select df_filtered column_order_ca ;;
  let df_test := loc_assign columns_to_update_ca adjusted_datetime df_reorder in
  let df_replaced := map_cells (replace_cell (VStr "-") (VInt 0)) df_test in
  let df_replaced := map_cells (fillna_cell NULL) df_replaced in
  df_replaced <- update_columns strip_commas columns_with_comma df_replaced ;;
  df_replaced <- update_columns convert_volume ["Water usage (gal)"] df_replaced ;;
  df_replaced <- update_columns convert_area columns_with_comma df_replaced ;;
  df_replaced <- update_columns area_to_str columns_with_comma df_replaced ;;
  df_replaced <- update_columns round_area columns_with_comma df_replaced ;;
  update_columns clean_pct columns_with_pct df_replaced.

Definition process_ca_data (file : BytesIO) (selected_datetime_str : string)
    (adjusted_datetime : cell) (exclude_values : option (list string))
  : result DataFrame :=
  df_filtered <- filter_sort drop_columns_ca file selected_datetime_str
                             exclude_values ;;
  normalize_ca adjusted_datetime df_filtered.

(** *** The schema finaliser *)

Fixpoint remove_first (c : string) (l : list string) : list string :=
  match l with
  | [] => []
  | x :: l' => if String.eqb c x then l' else x :: remove_first c l'
  end.

Fixpoint list_index (c : string) (l : list string) : nat :=
  match l with
  | [] => 0
  | x :: l' => if String.eqb c x then 0 else S (list_index c l')
  end.

Definition list_insert (i : nat) (c : string) (l : list string) : list string :=
  firstn i l ++ c :: skipn i l.

Definition addPauseTimeNullCol (df : DataFrame) : result DataFrame :=
  if mem "total_time" (columns df) && mem "water_usage" (columns df) then
    let df := setitem_scalar df "pause_time" NULL in
    let cols_ := remove_first "pause_time" (columns df) in
    let idx := S (list_index "total_time" cols_) in
    let cols_ := list_insert idx "pause_time" cols_ in
    select df cols_
  else Ok df.

Definition addTwoNullCols (df : DataFrame) : DataFrame :=
  setitem_scalar (setitem_scalar df "job_id" NULL) "vendor" NULL.

Definition process_uploaded_file (uploaded_file : BytesIO)
    (selected_datetime : string) (adjusted_datetime : cell)
    (selected_server : string) (exclude_values : option (list string))
  : result DataFrame :=
  let task_function :=
    if String.eqb selected_server "GS CA" then process_ca_data else process_data in
  df_processed <- task_function uploaded_file selected_datetime
                                adjusted_datetime exclude_values ;;
  let df_processed := rename cols_to_rename df_processed in
  df_processed <-
    (if mem selected_server ["GS SGV2"; "GS AUS"]
     then addPauseTimeNullCol df_processed
     else Ok df_processed) ;;
  let df_processed :=
    if negb (String.eqb selected_server "GS SGV1")
    then addTwoNullCols df_processed
    else df_processed in
  Ok df_processed.

End Pipeline.

(** ** Notions used in the statements *)

(** What [replace("-", 0)] followed by [fillna("NULL")] does to a cell. *)
Definition placeholder (c : cell) : cell :=
  fillna_cell NULL (replace_cell (VStr "-") (VInt 0) c).




(** Every column is as long as the index. *)
Definition well_formed (df : DataFrame) : Prop :=
  Forall (fun p => length (snd p) = length (index df)) (cols df).


Section Notions.

Context {P : Pandas}.

(** A cell of the report-time column that passed the cut-off filter. *)
Definition later_than (selected : Z) (c : cell) : Prop :=
  exists t, c = VTime t /\ selected < t.

Definition not_excluded (vs : list string) (c : cell) : bool := negb (isin vs c).



(** Lines 165-178 (and 288-301): the frame handed to the numeric cleanup.
    Every selected column is the source column with the placeholders
    replaced, except the updated ones, which hold the adjusted value. *)
Definition prepare (order upd : list string) (adjusted_datetime : cell)
    (df : DataFrame) : result DataFrame :=
  df_reorder <- select df order ;;
  let df_test := loc_assign upd adjusted_datetime df_reorder in
  let df_replaced := map_cells (replace_cell (VStr "-") (VInt 0)) df_test in
  Ok (map_cells (fillna_cell NULL) df_replaced).




(** The whole treatment of one area column in the imperial pipeline
    (lines 309-311 and 315-317). *)
Definition area_column (s : Series) : result Series :=
  s1 <- strip_commas s ;;
  s2 <- convert_area s1 ;;
  s3 <- area_to_str s2 ;;
  round_area s3.



(** The text [float] is applied to in the metric cleanup: [str] of the
    cell, commas removed, the two edge strings normalised. *)
Definition metric_text (x : cell) : string :=
  let t := remove_commas (py_str x) in
  if String.eqb t "0.00" then "0"
  else if String.eqb t "100.00" then "100" else t.

(** The cell [astype(float)] is applied to in the imperial percentage
    cleanup: the two edge strings normalised, commas left in place. *)
Definition pct_cell (x : cell) : cell :=
  replace_cell (VStr "100.00") (VStr "100")
    (replace_cell (VStr "0.0") (VStr "0") x).

(** Lines 438-449 of [process_uploaded_file], with the two tests on the
    server identity passed as booleans. *)
Definition finalize (pause two : bool) (df_processed : DataFrame)
  : result DataFrame :=
  let df_processed := rename cols_to_rename df_processed in
  df_processed <-
    (if pause then addPauseTimeNullCol df_processed else Ok df_processed) ;;
  Ok (if two then addTwoNullCols df_processed else df_processed).

Definition canonical_head : list string :=
  [ "id"; "robot_name"; "serial_number"; "map_name"; "task_name"; "user";
    "start_time"; "end_time"; "task_completion"; "cleaning_area"; "total_time" ].

Definition canonical_tail : list string :=
  [ "water_usage"; "brush"; "filter_element"; "squeegee"; "created_at";
    "updated_at"; "area_planned"; "start_battery_level"; "end_battery_level";
    "task_report_received"; "cleaning_mode"; "report_link"; "performance" ].

(** The canonical schema, with [pause_time] and the two trailing columns
    where they are asked for. *)
Definition schema (pause two : bool) : list string :=
  (canonical_head ++ (if pause then ["pause_time"] else []) ++ canonical_tail
     ++ (if two then ["job_id"; "vendor"] else []))%list.

End Notions.

(** The report-time column of a returned frame: timestamps [ts], each
    later than the cut-off read by [strptime], in non-increasing order. *)
Definition report_times (P : Pandas) (selected_datetime_str : string)
    (rt : option Series) : Prop :=
  exists selected ts,
    strptime selected_datetime_str = Some selected
    /\ rt = Some (map VTime ts)
    /\ Forall (fun t => selected < t) ts
    /\ StronglySorted (fun a b => b <= a) ts.

(** ** A reference library

    An executable instance of the interface, for running the pipeline on
    concrete frames: zero-padded [YYYY-MM-DD HH:MM:SS] timestamps counted in
    seconds, decimal numerals read as the nearest float64, floats printed
    with the shortest digits that read back, and numpy's sort. *)
Module Ref.

Definition digit_of (a : ascii) : option Z :=
  let n := Z.of_nat (nat_of_ascii a) in
  if (48 <=? n) && (n <=? 57) then Some (n - 48) else None.

Fixpoint digits_val (acc : Z) (l : list ascii) : option Z :=
  match l with
  | [] => Some acc
  | a :: l' =>
      match digit_of a with
      | Some d => digits_val (10 * acc + d) l'
      | None => None
      end
  end.

(** A non-empty run of digits. *)
Definition nat_of_digits (l : list ascii) : option Z :=
  match l with
  | [] => None
  | _ => digits_val 0 l
  end.

Definition is_leap (y : Z) : bool :=
  ((y mod 4 =? 0) && negb (y mod 100 =? 0)) || (y mod 400 =? 0).

Definition days_in_month (y m : Z) : Z :=
  if m =? 2 then (if is_leap y then 29 else 28)
  else if (m =? 4) || (m =? 6) || (m =? 9) || (m =? 11) then 30 else 31.

Definition days_from_civil (y m d : Z) : Z :=
  let y := if m <=? 2 then y - 1 else y in
  let era := y / 400 in
  let yoe := y - era * 400 in
  let mp := (m + 9) mod 12 in
  let doy := (153 * mp + 2) / 5 + d - 1 in
  let doe := yoe * 365 + yoe / 4 - yoe / 100 + doy in
  era * 146097 + doe - 719468.

Definition civil_from_days (z : Z) : Z * Z * Z :=
  let z := z + 719468 in
  let era := z / 146097 in
  let doe := z - era * 146097 in
  let yoe := (doe - doe / 1460 + doe / 36524 - doe / 146096) / 365 in
  let doy := doe - (365 * yoe + yoe / 4 - yoe / 100) in
  let mp := (5 * doy + 2) / 153 in
  let d := doy - (153 * mp + 2) / 5 + 1 in
  let m := if mp <? 10 then mp + 3 else mp - 9 in
  let y := yoe + era * 400 + (if m <=? 2 then 1 else 0) in
  (y, m, d).

Definition dash : ascii := "-"%char.
Definition colon : ascii := ":"%char.
Definition space : ascii := " "%char.
Definition dot : ascii := "."%char.

(** Seconds since 1970-01-01 00:00:00 of a zero-padded
    [YYYY-MM-DD HH:MM:SS]. *)
Definition parse_datetime (s : string) : option Z :=
  match list_ascii_of_string s with
  | [y1; y2; y3; y4; s1; m1; m2; s2; d1; d2; s3; h1; h2; s4; n1; n2; s5; c1; c2] =>
      if Ascii.eqb s1 dash && Ascii.eqb s2 dash && Ascii.eqb s3 space
         && Ascii.eqb s4 colon && Ascii.eqb s5 colon
      then
        match digits_val 0 [y1; y2; y3; y4], digits_val 0 [m1; m2],
              digits_val 0 [d1; d2], digits_val 0 [h1; h2],
              digits_val 0 [n1; n2], digits_val 0 [c1; c2] with
        | Some y, Some m, Some d, Some h, Some n, Some c =>
            if (1 <=? y) && (1 <=? m) && (m <=? 12) && (1 <=? d)
               && (d <=? days_in_month y m) && (h <=? 23) && (n <=? 59)
               && (c <=? 59)
            then Some (days_from_civil y m d * 86400 + h * 3600 + n * 60 + c)
            else None
        | _, _, _, _, _, _ => None
        end
      else None
  | _ => None
  end.

Definition to_datetime_cell (c : cell) : option (option Z) :=
  match c with
  | VTime t => Some (Some t)
  | NaN => Some None
  | VStr s => option_map Some (parse_datetime s)
  | _ => None
  end.

Fixpoint to_datetime_series (s : Series) : option (list (option Z)) :=
  match s with
  | [] => Some []
  | c :: s' =>
      match to_datetime_cell c, to_datetime_series s' with
      | Some t, Some l => Some (t :: l)
      | _, _ => None
      end
  end.

Definition str_of_Z (z : Z) : string := NilZero.string_of_int (Z.to_int z).

Definition pad2 (z : Z) : string :=
  if z <? 10 then "0" ++ str_of_Z z else str_of_Z z.

Definition pad4 (z : Z) : string :=
  if z <? 10 then "000" ++ str_of_Z z
  else if z <? 100 then "00" ++ str_of_Z z
  else if z <? 1000 then "0" ++ str_of_Z z
  else str_of_Z z.

Definition str_of_time (t : Z) : string :=
  let days := t / 86400 in
  let secs := t mod 86400 in
  let '(y, m, d) := civil_from_days days in
  pad4 y ++ "-" ++ pad2 m ++ "-" ++ pad2 d ++ " " ++ pad2 (secs / 3600)
    ++ ":" ++ pad2 (secs mod 3600 / 60) ++ ":" ++ pad2 (secs mod 60).

Definition signed (neg : bool) (z : Z) : Z := if neg then - z else z.

(** The float64 nearest to [m * 10^e], for [m >= 0]: what a correctly
    rounding reader makes of a decimal numeral.  A quotient is cut well
    below the last bit kept, with a sticky bit for what is cut off. *)
Definition float_of_decimal (neg : bool) (m e : Z) : float :=
  if m =? 0 then (if neg then (-0)%float else 0%float)
  else if 0 <=? e
  then SF2Prim (binary_normalize prec emax (signed neg (m * 10 ^ e)) 0 neg)
  else
    let d := 10 ^ (- e) in
    let s := Z.max 0 (64 + Z.log2 d - Z.log2 m) in
    let n := m * 2 ^ s in
    let sticky := if n mod d =? 0 then 0 else 1 in
    SF2Prim (binary_normalize prec emax (signed neg (2 * (n / d) + sticky))
                              (- s - 1) neg).

(** [floor (log10 (n / d))] for positive [n] and [d]: an estimate from
    the binary logarithms, put right by at most a few steps. *)
Fixpoint adjust_up (fuel : nat) (n d k : Z) : Z :=
  match fuel with
  | O => k
  | S fuel' =>
      if (if 0 <=? k + 1 then d * 10 ^ (k + 1) <=? n
          else d <=? n * 10 ^ (- (k + 1)))
      then adjust_up fuel' n d (k + 1) else k
  end.

Fixpoint adjust_down (fuel : nat) (n d k : Z) : Z :=
  match fuel with
  | O => k
  | S fuel' =>
      if (if 0 <=? k then n <? d * 10 ^ k else n * 10 ^ (- k) <? d)
      then adjust_down fuel' n d (k - 1) else k
  end.

Definition ilog10 (n d : Z) : Z :=
  let est := (Z.log2 n - Z.log2 d) * 30103 / 100000 in
  adjust_up 4 n d (adjust_down 4 n d est).

(** The decimals with [p] significant digits next to [n / d]: [c * 10^k]
    below it and [(c + 1) * 10^k] above, and on which side of their
    midpoint [n / d] lies. *)
Definition candidates (n d : Z) (p : Z) : Z * Z * comparison :=
  let k := ilog10 n d - (p - 1) in
  let n' := if k <? 0 then n * 10 ^ (- k) else n in
  let d' := if k <? 0 then d else d * 10 ^ k in
  (n' / d', k, 2 * (n' mod d') ?= d').

Fixpoint strip_zeros (fuel : nat) (c k : Z) : Z * Z :=
  match fuel with
  | O => (c, k)
  | S fuel' => if (c mod 10 =? 0) && negb (c =? 0)
               then strip_zeros fuel' (c / 10) (k + 1) else (c, k)
  end.

(** The shortest decimal [c * 10^k] that reads back as the positive
    float [x = n / d], the nearer to [x] when two do; 17 digits always
    read back. *)
Fixpoint shortest (fuel : nat) (p : Z) (x : float) (n d : Z) : Z * Z :=
  let '(lo, k, half) := candidates n d p in
  let ok_lo := PrimFloat.eqb (float_of_decimal false lo k) x in
  let ok_hi := PrimFloat.eqb (float_of_decimal false (lo + 1) k) x in
  let nearest := match half with
                 | Lt => lo
                 | Gt => lo + 1
                 | Eq => if Z.even lo then lo else lo + 1
                 end in
  match fuel with
  | O => (nearest, k)
  | S fuel' =>
      if ok_lo && ok_hi then (nearest, k)
      else if ok_lo then (lo, k)
      else if ok_hi then (lo + 1, k)
      else shortest fuel' (p + 1) x n d
  end.

Fixpoint zeros (n : nat) : string :=
  match n with O => "" | S n' => "0" ++ zeros n' end.

(** [repr] of a float64: the shortest digits that read back, in
    positional notation when the decimal point falls within
    [-4 < decpt <= 16] ([100.0], [9.290304]), in exponent notation
    otherwise ([1e+16], [1.5e-07]). *)
Definition str_of_float (x : float) : string :=
  match Prim2SF x with
  | S754_zero s => if s then "-0.0" else "0.0"
  | S754_infinity s => if s then "-inf" else "inf"
  | S754_nan => "nan"
  | S754_finite s m e =>
      let n := if 0 <=? e then Z.pos m * 2 ^ e else Z.pos m in
      let d := if 0 <=? e then 1 else 2 ^ (- e) in
      let '(c, k) := shortest 16 1 (abs x) n d in
      let '(c, k) := strip_zeros 17 c k in
      let ds := str_of_Z c in
      let nd := Z.of_nat (String.length ds) in
      let decpt := nd + k in
      (if s then "-" else "") ++
      (if (-4 <? decpt) && (decpt <=? 16) then
         if decpt <=? 0 then "0." ++ zeros (Z.to_nat (- decpt)) ++ ds
         else if nd <=? decpt then ds ++ zeros (Z.to_nat (decpt - nd)) ++ ".0"
         else substring 0 (Z.to_nat decpt) ds ++ "."
                ++ substring (Z.to_nat decpt) (Z.to_nat (nd - decpt)) ds
       else
         substring 0 1 ds
           ++ (if 1 <? nd then "." ++ substring 1 (Z.to_nat (nd - 1)) ds else "")
           ++ "e" ++ (if decpt - 1 <? 0 then "-" else "+")
           ++ pad2 (Z.abs (decpt - 1)))
  end.

Definition str_of_cell (c : cell) : string :=
  match c with
  | NaN => "nan"
  | VStr s => s
  | VInt z => str_of_Z z
  | VFloat x => str_of_float x
  | VTime t => str_of_time t
  end.

Fixpoint split_dot (l : list ascii) : list ascii * option (list ascii) :=
  match l with
  | [] => ([], None)
  | a :: l' =>
      if Ascii.eqb a dot then ([], Some l')
      else let '(i, f) := split_dot l' in (a :: i, f)
  end.

Fixpoint split_exp (l : list ascii) : list ascii * option (list ascii) :=
  match l with
  | [] => ([], None)
  | a :: l' =>
      if Ascii.eqb a "e"%char || Ascii.eqb a "E"%char then ([], Some l')
      else let '(m, x) := split_exp l' in (a :: m, x)
  end.

Definition strip_sign (l : list ascii) : bool * list ascii :=
  match l with
  | a :: l' =>
      if Ascii.eqb a dash then (true, l')
      else if Ascii.eqb a "+"%char then (false, l')
      else (false, l)
  | [] => (false, [])
  end.

(** The exponent of a numeral: none, or [e[+-]digits]. *)
Definition parse_exp (x : option (list ascii)) : option Z :=
  match x with
  | None => Some 0
  | Some l =>
      let '(neg, ds) := strip_sign l in
      option_map (signed neg) (nat_of_digits ds)
  end.

(** A numeral [[+-]digits] is an integer; with a fraction
    [[+-]digits.digits] (one side may be empty) or an exponent it is the
    float64 nearest to its value. *)
Definition parse_number (s : string) : option cell :=
  let '(neg, body) := strip_sign (list_ascii_of_string s) in
  let '(mant, x) := split_exp body in
  match split_dot mant, x with
  | (i, None), None =>
      option_map (fun z => VInt (signed neg z)) (nat_of_digits i)
  | (i, f), _ =>
      let f := match f with Some f => f | None => [] end in
      match nat_of_digits (i ++ f), parse_exp x with
      | Some m, Some e =>
          Some (VFloat (float_of_decimal neg m (e - Z.of_nat (length f))))
      | _, _ => None
      end
  end.

Definition special (s : string) : option cell :=
  if String.eqb s "nan" then Some NaN
  else if String.eqb s "inf" then Some (VFloat infinity)
  else if String.eqb s "-inf" then Some (VFloat neg_infinity)
  else None.

Definition float_of_string (s : string) : option cell :=
  match special s with
  | Some c => Some c
  | None =>
      match parse_number s with
      | Some (VInt z) => Some (VFloat (float_of_int z))
      | r => r
      end
  end.

Definition numeric_of_string (s : string) : option cell :=
  if String.eqb s "" then Some NaN
  else match special s with
       | Some c => Some c
       | None => parse_number s
       end.

End Ref.

(** ** numpy's argsort

    [numpy.argsort(v, kind="quicksort")] is an introsort on an array of
    positions [tosort], compared by the keys they point at
    ([npysort/quicksort.cpp], [aquicksort_]): a segment of more than 17
    entries is partitioned around the median of its first, middle and
    last entry; a shorter one is sorted by insertion; a segment taken
    from the stack when the depth allowance [2 * floor(log2 n)] is used
    up is sorted by heapsort ([aheapsort_]).  A segment [tosort[pl..pr]]
    is passed as the list of its entries, positions counted from [pl]. *)
Module NpSort.

Local Open Scope nat_scope.
Local Open Scope list_scope.

(** [a[i] = x] on an array kept as a list. *)
Fixpoint upd {A : Type} (i : nat) (x : A) (l : list A) {struct l} : list A :=
  match l with
  | [] => []
  | a :: l' =>
      match i with
      | O => x :: l'
      | S i' => a :: upd i' x l'
      end
  end.

(** [INTP_SWAP(a[i], a[j])]. *)
Definition swap (i j : nat) (t : list nat) : list nat :=
  upd j (nth i t 0) (upd i (nth j t 0) t).

Section Sort.

(** [v[i]], the key at position [i] of the array that is argsorted. *)
Variable key : nat -> Z.

(** The insertion sort of a short segment: [vi] is moved left past the
    entries with a greater key. *)
Fixpoint shift (t : list nat) (vi : nat) (pj : nat) : list nat :=
  match pj with
  | O => upd 0 vi t
  | S pk =>
      if Z.ltb (key vi) (key (nth pk t 0))
      then shift (upd pj (nth pk t 0) t) vi pk
      else upd pj vi t
  end.

Fixpoint insertion_from (fuel : nat) (t : list nat) (pi : nat) : list nat :=
  match fuel with
  | O => t
  | S fuel' =>
      if pi <? length t
      then insertion_from fuel' (shift t (nth pi t 0) pi) (S pi)
      else t
  end.

Definition insertion (t : list nat) : list nat :=
  insertion_from (length t) t 1.

(** The two scans of the partition loop. *)
Fixpoint scan_up (fuel : nat) (t : list nat) (vp : Z) (pi : nat) : nat :=
  match fuel with
  | O => pi
  | S fuel' =>
      if Z.ltb (key (nth pi t 0)) vp then scan_up fuel' t vp (S pi) else pi
  end.

Fixpoint scan_down (fuel : nat) (t : list nat) (vp : Z) (pj : nat) : nat :=
  match fuel with
  | O => pj
  | S fuel' =>
      if Z.ltb vp (key (nth pj t 0)) then scan_down fuel' t vp (pred pj) else pj
  end.

Fixpoint hoare (fuel : nat) (t : list nat) (vp : Z) (pi pj : nat)
  : list nat * nat :=
  match fuel with
  | O => (t, pi)
  | S fuel' =>
      let pi := scan_up (length t) t vp (S pi) in
      let pj := scan_down (length t) t vp (pred pj) in
      if pj <=? pi then (t, pi)
      else hoare fuel' (swap pi pj t) vp pi pj
  end.

(** [if (v[a[i]] < v[a[j]]) INTP_SWAP(a[i], a[j])]. *)
Definition swap_if_less (i j : nat) (t : list nat) : list nat :=
  if Z.ltb (key (nth i t 0)) (key (nth j t 0)) then swap i j t else t.

(** One partition of a segment [t] of more than two entries: median of
    three, the pivot parked next to the right end, the two scans, the
    pivot put in place.  Returns the segment and the pivot's position. *)
Definition partition (t : list nat) : list nat * nat :=
  let pr := length t - 1 in
  let pm := pr / 2 in
  let t := swap_if_less pm 0 t in
  let t := swap_if_less pr pm t in
  let t := swap_if_less pm 0 t in
  let vp := key (nth pm t 0) in
  let t := swap pm (pr - 1) t in
  let '(t, pi) := hoare (length t) t vp 0 (pr - 1) in
  (swap pi (pr - 1) t, pi).

(** Heapsort, on the array indexed from 1. *)
Definition get1 (t : list nat) (j : nat) : nat := nth (j - 1) t 0.
Definition set1 (j : nat) (x : nat) (t : list nat) : list nat := upd (j - 1) x t.

Fixpoint sift (fuel : nat) (t : list nat) (tmp : nat) (i j n : nat) : list nat :=
  match fuel with
  | O => set1 i tmp t
  | S fuel' =>
      if j <=? n then
        let j := if (j <? n) && Z.ltb (key (get1 t j)) (key (get1 t (j + 1)))
                 then j + 1 else j in
        if Z.ltb (key tmp) (key (get1 t j))
        then sift fuel' (set1 i (get1 t j) t) tmp j (j + j) n
        else set1 i tmp t
      else set1 i tmp t
  end.

Fixpoint build (t : list nat) (l n : nat) : list nat :=
  match l with
  | O => t
  | S l' => build (sift n t (get1 t l) l (l + l) n) l' n
  end.

Fixpoint extract (t : list nat) (n : nat) : list nat :=
  match n with
  | S (S _ as n') =>
      let tmp := get1 t n in
      let t := set1 n (get1 t 1) t in
      extract (sift n t tmp 1 2 n') n'
  | _ => t
  end.

Definition aheapsort (t : list nat) : list nat :=
  let n := length t in
  extract (build t (n / 2) n) n.

(** The introsort loop on one segment.  [top] tells a segment popped
    from the stack, for which the depth limit is checked, from the
    smaller part the loop goes on with. *)
Fixpoint sort_segment (fuel : nat) (top : bool) (cdepth : Z) (t : list nat)
  : list nat :=
  match fuel with
  | O => insertion t
  | S fuel' =>
      if top && (cdepth <? 0)%Z then aheapsort t
      else if 16 <? length t - 1 then
        let '(t', pi) := partition t in
        let left := firstn pi t' in
        let right := skipn (S pi) t' in
        let small_left := pi <? (length t - 1) - pi in
        sort_segment fuel' (negb small_left) (cdepth - 1) left
          ++ nth pi t' 0
          :: sort_segment fuel' small_left (cdepth - 1) right
      else insertion t
  end.

Definition aquicksort (t : list nat) : list nat :=
  sort_segment (length t) true (2 * Z.log2 (Z.of_nat (length t))) t.


End Sort.

(** [numpy.argsort(v, kind="quicksort")]. *)
Definition argsort (v : list Z) : list nat :=
  aquicksort (fun i => nth i v 0%Z) (seq 0 (length v)).

End NpSort.

(** ** The reference library meets the interface *)

Module RefFacts.
Import Ref.

Lemma to_datetime_series_length (s : Series) :
  forall l, to_datetime_series s = Some l -> length l = length s.
Proof.
  induction s as [|c s IH]; simpl; intros l H.
  - now inversion H.
  - destruct (to_datetime_cell c); [|discriminate].
    destruct (to_datetime_series s); [|discriminate].
    inversion H; subst; simpl. f_equal. now apply IH.
Qed.

Lemma parse_number_is_numeric (s : string) (c : cell) :
  parse_number s = Some c -> is_numeric c = true.
Proof.
  unfold parse_number.
  destruct (strip_sign (list_ascii_of_string s)) as [neg body].
  destruct (split_exp body) as [mant x].
  destruct (split_dot mant) as [i f].
  assert (K : match nat_of_digits (i ++ match f with Some f0 => f0 | None => [] end),
                    parse_exp x with
              | Some m, Some e =>
                  Some (VFloat (float_of_decimal neg m
                                  (e - Z.of_nat (length match f with
                                                        | Some f0 => f0
                                                        | None => []
                                                        end))))
              | _, _ => None
              end = Some c -> is_numeric c = true).
  { destruct (nat_of_digits _); [|discriminate].
    destruct (parse_exp x); [|discriminate].
    intros H; inversion H; reflexivity. }
  destruct f as [f|]; [exact K|].
  destruct x as [x|]; [exact K|].
  destruct (nat_of_digits i); simpl; intros H; inversion H; reflexivity.
Qed.

Lemma special_is_float (s : string) (c : cell) :
  special s = Some c -> is_float c = true.
Proof.
  unfold special.
  destruct (String.eqb s "nan"); [intros H; inversion H; reflexivity|].
  destruct (String.eqb s "inf"); [intros H; inversion H; reflexivity|].
  destruct (String.eqb s "-inf"); [intros H; inversion H; reflexivity|].
  discriminate.
Qed.

Lemma float_of_string_is_float (s : string) (c : cell) :
  float_of_string s = Some c -> is_float c = true.
Proof.
  unfold float_of_string.
  destruct (special s) as [c0|] eqn:Es.
  - intros H; inversion H; subst. now apply (special_is_float s).
  - destruct (parse_number s) as [c0|] eqn:E; [|discriminate].
    apply parse_number_is_numeric in E.
    destruct c0; intros H; inversion H; subst; try reflexivity; discriminate.
Qed.

Lemma numeric_of_string_is_numeric (s : string) (c : cell) :
  numeric_of_string s = Some c -> is_numeric c = true.
Proof.
  unfold numeric_of_string.
  destruct (String.eqb s "").
  - intros H; inversion H; reflexivity.
  - destruct (special s) as [c0|] eqn:Es.
    + intros H; inversion H; subst.
      apply (special_is_float s) in Es. unfold is_numeric.
      now rewrite Es, orb_true_r.
    + apply parse_number_is_numeric.
Qed.

End RefFacts.

(** ** numpy's argsort sorts

    The introsort returns a permutation of its segment, in non-decreasing
    order of the keys. *)
Module NpSortFacts.
Import NpSort.

Local Open Scope nat_scope.
Local Open Scope list_scope.

(** *** Arrays as lists *)

Lemma length_upd {A : Type} (l : list A) :
  forall i x, length (upd i x l) = length l.
Proof. induction l; intros [|i] x; simpl; auto. Qed.

Lemma nth_upd {A : Type} (d : A) (l : list A) :
  forall i k x,
    nth k (upd i x l) d = if (k =? i) && (i <? length l) then x else nth k l d.
Proof.
  induction l as [|a l IH]; intros i k x.
  - simpl. rewrite andb_false_r. reflexivity.
  - destruct i as [|i], k as [|k]; simpl; try reflexivity.
    rewrite IH. reflexivity.
Qed.

Lemma nth_upd_same {A : Type} (d : A) (l : list A) (i : nat) (x : A) :
  i < length l -> nth i (upd i x l) d = x.
Proof.
  intros H. rewrite nth_upd, Nat.eqb_refl.
  destruct (Nat.ltb_spec i (length l)); [reflexivity | lia].
Qed.

Lemma nth_upd_other {A : Type} (d : A) (l : list A) (i k : nat) (x : A) :
  k <> i -> nth k (upd i x l) d = nth k l d.
Proof.
  intros H. rewrite nth_upd.
  destruct (Nat.eqb_spec k i); [contradiction | reflexivity].
Qed.

Lemma upd_nth {A : Type} (d : A) (l : list A) :
  forall i, upd i (nth i l d) l = l.
Proof. induction l; intros [|i]; simpl; auto. now rewrite IHl. Qed.

Lemma upd_perm_cons {A : Type} (d : A) (l : list A) :
  forall i x, i < length l -> Permutation (nth i l d :: upd i x l) (x :: l).
Proof.
  induction l as [|a l IH]; intros [|i] x H; simpl in *; try lia.
  - apply perm_swap.
  - rewrite perm_swap. rewrite (IH i x) by lia. apply perm_swap.
Qed.

Lemma length_swap (i j : nat) (t : list nat) : length (swap i j t) = length t.
Proof. unfold swap. now rewrite !length_upd. Qed.

Lemma nth_swap (i j k : nat) (t : list nat) :
  i < length t -> j < length t ->
  nth k (swap i j t) 0 =
  if k =? j then nth i t 0 else if k =? i then nth j t 0 else nth k t 0.
Proof.
  intros Hi Hj. unfold swap. rewrite !nth_upd, length_upd.
  destruct (Nat.eqb_spec k j), (Nat.eqb_spec k i),
    (Nat.ltb_spec j (length t)), (Nat.ltb_spec i (length t));
    simpl; try reflexivity; lia.
Qed.

Lemma Permutation_swap (i j : nat) (t : list nat) :
  i < length t -> j < length t -> Permutation (swap i j t) t.
Proof.
  intros Hi Hj. unfold swap.
  destruct (Nat.eq_dec i j) as [->|Hne].
  - rewrite upd_nth. now rewrite upd_nth.
  - apply (Permutation_cons_inv (a := nth j t 0)).
    assert (E : nth j (upd i (nth j t 0) t) 0 = nth j t 0)
      by (apply nth_upd_other; auto).
    rewrite <- E at 1.
    etransitivity; [apply upd_perm_cons; now rewrite length_upd|].
    apply upd_perm_cons; exact Hi.
Qed.

(** Moving a hole: the entry at [pk] goes to [pj], the pending value to
    [pk]. *)
Lemma Permutation_hole (t : list nat) (pk pj x : nat) :
  pk < length t -> pj < length t -> pk <> pj ->
  Permutation (upd pk x (upd pj (nth pk t 0) t)) (upd pj x t).
Proof.
  intros Hk Hj Hne.
  assert (E : upd pk x (upd pj (nth pk t 0) t) = swap pk pj (upd pj x t)).
  { apply (nth_ext _ _ 0 0).
    - now rewrite length_swap, !length_upd.
    - intros k _. rewrite nth_swap by (now rewrite length_upd).
      rewrite !nth_upd, !length_upd.
      destruct (Nat.eqb_spec k pj), (Nat.eqb_spec k pk),
        (Nat.eqb_spec pk pj), (Nat.eqb_spec pj pk),
        (Nat.ltb_spec pj (length t)), (Nat.ltb_spec pk (length t));
        simpl; try reflexivity; try lia.
      all: try (rewrite Nat.eqb_refl; simpl).
      all: try reflexivity; subst; try lia. }
  rewrite E. apply Permutation_swap; now rewrite length_upd.
Qed.

Lemma split_nth {A : Type} (d : A) (l : list A) :
  forall i, i < length l -> l = firstn i l ++ nth i l d :: skipn (S i) l.
Proof.
  induction l as [|a l IH]; intros [|i] H; simpl in *; try lia.
  - reflexivity.
  - f_equal. apply IH. lia.
Qed.

Section Proofs.

Variable key : nat -> Z.

Definition le_key (a b : nat) : Prop := (key a <= key b)%Z.

(** Sortedness by positions, below [n]. *)
Definition sorted_upto (n : nat) (t : list nat) : Prop :=
  forall i j, i < j -> j < n -> Z.le (key (nth i t 0)) (key (nth j t 0)).

Lemma sorted_upto_StronglySorted (t : list nat) :
  sorted_upto (length t) t -> StronglySorted le_key t.
Proof.
  induction t as [|a t IH]; intros H; constructor.
  - apply IH. intros i j Hij Hj. apply (H (S i) (S j)); simpl; lia.
  - apply Forall_forall. intros b Hb.
    destruct (In_nth _ _ 0 Hb) as [j [Hj <-]].
    apply (H 0 (S j)); simpl; lia.
Qed.

Ltac upd_cases :=
  rewrite ?nth_upd, ?length_upd;
  repeat match goal with
         | |- context [Nat.eqb ?a ?b] => destruct (Nat.eqb_spec a b)
         | |- context [Nat.ltb ?a ?b] => destruct (Nat.ltb_spec a b)
         end; simpl; try lia.

(** *** Insertion sort *)

Lemma shift_spec (pi : nat) :
  forall pj t vi,
    pj <= pi -> pi < length t ->
    (forall a b, a < b -> b < pj -> Z.le (key (nth a t 0)) (key (nth b t 0))) ->
    (forall a b, pj < a -> a < b -> b <= pi ->
       Z.le (key (nth a t 0)) (key (nth b t 0))) ->
    (forall a b, a < pj -> pj < b -> b <= pi ->
       Z.le (key (nth a t 0)) (key (nth b t 0))) ->
    (forall b, pj < b -> b <= pi -> Z.lt (key vi) (key (nth b t 0))) ->
    length (shift key t vi pj) = length t
    /\ sorted_upto (S pi) (shift key t vi pj)
    /\ Permutation (shift key t vi pj) (upd pj vi t).
Proof.
  induction pj as [|pk IH]; intros t vi Hle Hlen H1 H2 H3 H4.
  - simpl. split; [apply length_upd|]. split; [|reflexivity].
    intros i j Hij Hj. upd_cases.
    + apply Z.lt_le_incl, H4; lia.
    + apply H2; lia.
  - simpl. destruct (Z.ltb_spec (key vi) (key (nth pk t 0))) as [Hlt|Hge].
    + destruct (IH (upd (S pk) (nth pk t 0) t) vi) as [L [S P]];
        try (rewrite length_upd); try lia.
      * intros a b Hab Hb. upd_cases. apply H1; lia.
      * intros a b Ha Hab Hb. upd_cases.
        -- apply H3; lia.
        -- apply H2; lia.
      * intros a b Ha Hb Hbi. upd_cases.
        -- destruct (Nat.eq_dec (S a) (S pk)); [lia|]. apply H1; lia.
        -- apply H3; lia.
      * intros b Hb Hbi. upd_cases. apply H4; lia.
      * split; [now rewrite L, length_upd|]. split; [exact S|].
        rewrite P. apply Permutation_hole; lia.
    + split; [apply length_upd|]. split; [|reflexivity].
      intros i j Hij Hj. upd_cases.
      * apply Z.lt_le_incl, H4; lia.
      * destruct (Nat.eq_dec i pk) as [->|Hne]; [exact Hge|].
        transitivity (key (nth pk t 0)); [apply H1; lia | exact Hge].
      * destruct (Nat.lt_ge_cases j (S pk)).
        -- apply H1; lia.
        -- destruct (Nat.lt_ge_cases i (S pk)); [apply H3; lia | apply H2; lia].
Qed.

Lemma insertion_from_spec :
  forall fuel t pi,
    sorted_upto pi t -> length t - pi <= fuel ->
    length (insertion_from key fuel t pi) = length t
    /\ sorted_upto (length t) (insertion_from key fuel t pi)
    /\ Permutation (insertion_from key fuel t pi) t.
Proof.
  induction fuel as [|fuel IH]; intros t pi Hs Hf; simpl.
  - split; [reflexivity|]. split; [|reflexivity].
    intros i j Hij Hj. apply Hs; lia.
  - destruct (Nat.ltb_spec pi (length t)) as [Hlt|Hge].
    + destruct (shift_spec pi pi t (nth pi t 0)) as [L [S P]];
        try lia; try (intros; lia).
      * intros a b Hab Hb. apply Hs; lia.
      * rewrite upd_nth in P.
        destruct (IH (shift key t (nth pi t 0) pi) (Datatypes.S pi)) as [L' [S' P']].
        -- exact S.
        -- rewrite L. lia.
        -- rewrite L in *. split; [exact L'|]. split; [exact S'|].
           now rewrite P'.
    + split; [reflexivity|]. split; [|reflexivity].
      intros i j Hij Hj. apply Hs; lia.
Qed.

Lemma insertion_spec (t : list nat) :
  Permutation (insertion key t) t /\ StronglySorted le_key (insertion key t).
Proof.
  unfold insertion.
  destruct (insertion_from_spec (length t) t 1) as [L [S P]].
  - intros i j Hij Hj. lia.
  - lia.
  - split; [exact P|]. apply sorted_upto_StronglySorted. now rewrite L.
Qed.

(** *** The partition *)

Lemma scan_up_spec (t : list nat) (vp : Z) :
  forall fuel i b,
    i <= b -> Z.le vp (key (nth b t 0)) -> b - i < fuel ->
    i <= scan_up key fuel t vp i /\ scan_up key fuel t vp i <= b
    /\ Z.le vp (key (nth (scan_up key fuel t vp i) t 0))
    /\ forall k, i <= k -> k < scan_up key fuel t vp i ->
         Z.lt (key (nth k t 0)) vp.
Proof.
  induction fuel as [|fuel IH]; intros i b Hib Hb Hf; [lia|]. simpl.
  destruct (Z.ltb_spec (key (nth i t 0)) vp) as [Hlt|Hge].
  - assert (i <> b) by (intros ->; lia).
    destruct (IH (S i) b) as [A [B [C D]]]; try lia.
    repeat split; try lia; auto.
    intros k Hk1 Hk2. destruct (Nat.eq_dec k i) as [->|]; [exact Hlt|].
    apply D; lia.
  - repeat split; try lia; auto; intros; lia.
Qed.

Lemma scan_down_spec (t : list nat) (vp : Z) :
  forall fuel j b,
    b <= j -> Z.le (key (nth b t 0)) vp -> j - b < fuel ->
    b <= scan_down key fuel t vp j /\ scan_down key fuel t vp j <= j
    /\ Z.le (key (nth (scan_down key fuel t vp j) t 0)) vp
    /\ forall k, scan_down key fuel t vp j < k -> k <= j ->
         Z.lt vp (key (nth k t 0)).
Proof.
  induction fuel as [|fuel IH]; intros j b Hbj Hb Hf; [lia|]. simpl.
  destruct (Z.ltb_spec vp (key (nth j t 0))) as [Hlt|Hge].
  - assert (j <> b) by (intros ->; lia).
    destruct (IH (pred j) b) as [A [B [C D]]]; try lia.
    repeat split; try lia; auto.
    intros k Hk1 Hk2. destruct (Nat.eq_dec k j) as [->|]; [exact Hlt|].
    apply D; lia.
  - repeat split; try lia; auto; intros; lia.
Qed.

Lemma hoare_spec (vp : Z) :
  forall fuel t pi pj,
    pi < pj -> pj + 1 < length t ->
    (forall i, i <= pi -> Z.le (key (nth i t 0)) vp) ->
    (forall j, pj <= j -> j < length t -> Z.le vp (key (nth j t 0))) ->
    pj - pi <= fuel ->
    forall t' pi', hoare key fuel t vp pi pj = (t', pi') ->
      Permutation t' t /\ length t' = length t
      /\ pi < pi' /\ pi' <= pj
      /\ (forall i, i < pi' -> Z.le (key (nth i t' 0)) vp)
      /\ (forall j, pi' <= j -> j < length t -> Z.le vp (key (nth j t' 0)))
      /\ (forall j, pj <= j -> nth j t' 0 = nth j t 0).
Proof.
  induction fuel as [|fuel IH]; intros t pi pj Hij Hj Hl Hr Hf t' pi' H; [lia|].
  simpl in H.
  destruct (scan_up_spec t vp (length t) (S pi) pj) as [U1 [U2 [U3 U4]]];
    try lia; [apply Hr; lia|].
  destruct (scan_down_spec t vp (length t) (pred pj) pi) as [D1 [D2 [D3 D4]]];
    try lia; [apply Hl; lia|].
  set (pi1 := scan_up key (length t) t vp (S pi)) in *.
  set (pj1 := scan_down key (length t) t vp (pred pj)) in *.
  destruct (Nat.leb_spec pj1 pi1) as [Hc|Hc].
  - inversion H; subst t' pi'. repeat split; try lia; auto.
    + intros i Hi. destruct (Nat.le_gt_cases i pi); [now apply Hl|].
      apply Z.lt_le_incl, U4; lia.
    + intros j Hj1 Hj2. destruct (Nat.eq_dec j pi1) as [->|]; [exact U3|].
      destruct (Nat.lt_ge_cases j pj); [|now apply Hr].
      apply Z.lt_le_incl, D4; lia.
  - destruct (IH (swap pi1 pj1 t) pi1 pj1) with (t' := t') (pi' := pi')
      as [P [L [A [B [C [D E]]]]]]; try rewrite length_swap; try lia; auto.
    + intros i Hi. rewrite nth_swap by lia.
      destruct (Nat.eqb_spec i pj1); [lia|].
      destruct (Nat.eqb_spec i pi1); [exact D3|].
      destruct (Nat.le_gt_cases i pi); [now apply Hl|].
      apply Z.lt_le_incl, U4; lia.
    + intros j Hj1 Hj2. rewrite nth_swap by lia.
      destruct (Nat.eqb_spec j pj1); [exact U3|].
      destruct (Nat.eqb_spec j pi1); [lia|].
      destruct (Nat.lt_ge_cases j pj); [|now apply Hr].
      apply Z.lt_le_incl, D4; lia.
    + rewrite length_swap in *.
      repeat split; try lia; auto.
      * rewrite P. apply Permutation_swap; lia.
      * intros j Hj'. rewrite E by lia. rewrite nth_swap by lia.
        destruct (Nat.eqb_spec j pj1); [lia|].
        destruct (Nat.eqb_spec j pi1); [lia | reflexivity].
Qed.

Lemma swap_if_less_spec (i j : nat) (t : list nat) :
  i < length t -> j < length t -> i <> j ->
  Permutation (swap_if_less key i j t) t
  /\ length (swap_if_less key i j t) = length t
  /\ (forall k, k <> i -> k <> j -> nth k (swap_if_less key i j t) 0 = nth k t 0)
  /\ Z.le (key (nth j (swap_if_less key i j t) 0))
          (key (nth i (swap_if_less key i j t) 0))
  /\ ((nth i (swap_if_less key i j t) 0 = nth i t 0
       /\ nth j (swap_if_less key i j t) 0 = nth j t 0)
      \/ (nth i (swap_if_less key i j t) 0 = nth j t 0
          /\ nth j (swap_if_less key i j t) 0 = nth i t 0)).
Proof.
  intros Hi Hj Hne. unfold swap_if_less.
  destruct (Z.ltb_spec (key (nth i t 0)) (key (nth j t 0))) as [Hlt|Hge].
  - split; [now apply Permutation_swap|]. split; [apply length_swap|].
    assert (Ei : nth i (swap i j t) 0 = nth j t 0).
    { rewrite nth_swap by lia. destruct (Nat.eqb_spec i j); [lia|].
      now rewrite Nat.eqb_refl. }
    assert (Ej : nth j (swap i j t) 0 = nth i t 0).
    { rewrite nth_swap by lia. now rewrite Nat.eqb_refl. }
    split; [|split; [rewrite Ei, Ej; lia | right; auto]].
    intros k Hk1 Hk2. rewrite nth_swap by lia.
    destruct (Nat.eqb_spec k j); [lia|]. destruct (Nat.eqb_spec k i); [lia|].
    reflexivity.
  - repeat split; auto.
Qed.

Lemma partition_spec (t : list nat) :
  3 <= length t ->
  forall t' pi, partition key t = (t', pi) ->
    Permutation t' t /\ pi < length t'
    /\ (forall i, i < pi -> Z.le (key (nth i t' 0)) (key (nth pi t' 0)))
    /\ (forall j, pi < j -> j < length t' ->
          Z.le (key (nth pi t' 0)) (key (nth j t' 0))).
Proof.
  intros Hlen t' pi H. unfold partition in H.
  set (pr := length t - 1) in *. set (pm := pr / 2) in *.
  assert (Hpm : 0 < pm /\ pm < pr).
  { subst pm. split.
    - apply Nat.div_str_pos. lia.
    - apply Nat.div_lt; lia. }
  destruct (swap_if_less_spec pm 0 t) as [P1 [L1 [O1 [K1 S1]]]]; try lia.
  set (t1 := swap_if_less key pm 0 t) in *.
  destruct (swap_if_less_spec pr pm t1) as [P2 [L2 [O2 [K2 S2]]]]; try lia.
  set (t2 := swap_if_less key pr pm t1) in *.
  destruct (swap_if_less_spec pm 0 t2) as [P3 [L3 [O3 [K3 S3]]]]; try lia.
  set (t3 := swap_if_less key pm 0 t2) in *.
  assert (M : Z.le (key (nth 0 t3 0)) (key (nth pm t3 0))
              /\ Z.le (key (nth pm t3 0)) (key (nth pr t3 0))).
  { split; [exact K3|].
    rewrite (O3 pr) by lia.
    assert (E0 : nth 0 t2 0 = nth 0 t1 0) by (apply O2; lia).
    destruct S3 as [[A B]|[A B]]; rewrite A.
    - exact K2.
    - rewrite E0.
      destruct S2 as [[C D]|[C D]]; rewrite C, ?D in *; lia. }
  destruct M as [M1 M2].
  set (vp := key (nth pm t3 0)) in *.
  set (t4 := swap pm (pr - 1) t3) in *.
  assert (L4 : length t4 = length t) by (subst t4; rewrite length_swap; lia).
  assert (N4 : forall k, nth k t4 0 =
                 if k =? pr - 1 then nth pm t3 0
                 else if k =? pm then nth (pr - 1) t3 0 else nth k t3 0).
  { intros k. subst t4. apply nth_swap; lia. }
  destruct (hoare key (length t4) t4 vp 0 (pr - 1)) as [t5 pi5] eqn:E5.
  inversion H; subst t' pi; clear H.
  destruct (hoare_spec vp (length t4) t4 0 (pr - 1)) with (t' := t5) (pi' := pi5)
    as [P5 [L5 [A5 [B5 [C5 [D5 E5']]]]]]; try lia; auto.
  - intros i Hi. assert (i = 0) by lia. subst i. rewrite N4.
    destruct (Nat.eqb_spec 0 (pr - 1)); [lia|].
    destruct (Nat.eqb_spec 0 pm); [lia | exact M1].
  - intros j Hj1 Hj2. rewrite N4.
    destruct (Nat.eqb_spec j (pr - 1)); [subst vp; lia|].
    assert (j = pr) by lia. subst j.
    destruct (Nat.eqb_spec pr pm); [lia | exact M2].
  - assert (Ep : nth (pr - 1) t5 0 = nth pm t3 0).
    { rewrite E5' by lia. rewrite N4. now rewrite Nat.eqb_refl. }
    assert (Epi : nth pi5 (swap pi5 (pr - 1) t5) 0 = nth pm t3 0).
    { rewrite nth_swap by lia.
      destruct (Nat.eqb_spec pi5 (pr - 1)) as [->|]; [exact Ep|].
      now rewrite Nat.eqb_refl. }
    rewrite length_swap, Epi. fold vp.
    split.
    { rewrite Permutation_swap by lia. rewrite P5. subst t4.
      rewrite Permutation_swap by lia. now rewrite P3, P2, P1. }
    split; [lia|]. split.
    + intros i Hi. rewrite nth_swap by lia.
      destruct (Nat.eqb_spec i (pr - 1)); [lia|].
      destruct (Nat.eqb_spec i pi5); [lia|]. now apply C5.
    + intros j Hj1 Hj2. rewrite nth_swap by lia.
      destruct (Nat.eqb_spec j (pr - 1)); [apply D5; lia|].
      destruct (Nat.eqb_spec j pi5); [lia|]. apply D5; lia.
Qed.

(** *** Heapsort *)

Lemma get1_set1 (i k x : nat) (t : list nat) :
  1 <= i -> i <= length t -> 1 <= k ->
  get1 (set1 i x t) k = if k =? i then x else get1 t k.
Proof.
  intros Hi Hl Hk. unfold get1, set1. rewrite nth_upd.
  destruct (Nat.eqb_spec (k - 1) (i - 1)), (Nat.eqb_spec k i),
    (Nat.ltb_spec (i - 1) (length t)); simpl; try reflexivity; lia.
Qed.

Lemma length_set1 (i x : nat) (t : list nat) : length (set1 i x t) = length t.
Proof. apply length_upd. Qed.

(** Every entry from [l] on is at least its children, up to [n]. *)
Definition heap (l n : nat) (t : list nat) : Prop :=
  forall p c, l <= p -> c = p + p \/ c = S (p + p) -> c <= n ->
    Z.le (key (get1 t c)) (key (get1 t p)).

Lemma heap_root (n : nat) (t : list nat) :
  heap 1 n t -> forall c, 1 <= c -> c <= n -> Z.le (key (get1 t c)) (key (get1 t 1)).
Proof.
  intros H c. induction c as [c IH] using lt_wf_ind. intros H1 Hn.
  destruct (Nat.eq_dec c 1) as [->|Hne]; [lia|].
  assert (Hp : c = c / 2 + c / 2 \/ c = S (c / 2 + c / 2)).
  { pose proof (Nat.div_mod_eq c 2) as E.
    pose proof (Nat.mod_upper_bound c 2) as B. lia. }
  assert (1 <= c / 2) by (apply Nat.div_le_lower_bound; lia).
  transitivity (key (get1 t (c / 2))).
  - apply H; auto.
  - apply IH; lia.
Qed.

Lemma sift_spec (l n tmp : nat) :
  forall fuel t i,
    1 <= l -> l <= i -> i <= n -> n <= length t -> n - i < fuel ->
    heap (S l) n t ->
    (i = l \/ (heap l n t /\ Z.le (key tmp) (key (get1 t i)))) ->
    length (sift key fuel t tmp i (i + i) n) = length t
    /\ heap l n (sift key fuel t tmp i (i + i) n)
    /\ (forall k, 1 <= k -> k < i \/ n < k ->
          get1 (sift key fuel t tmp i (i + i) n) k = get1 t k)
    /\ Permutation (sift key fuel t tmp i (i + i) n) (set1 i tmp t)
    /\ (forall Q : nat -> Prop,
          Q tmp -> (forall k, i <= k -> k <= n -> Q (get1 t k)) ->
          forall k, i <= k -> k <= n ->
            Q (get1 (sift key fuel t tmp i (i + i) n) k)).
Proof.
  induction fuel as [|fuel IH]; intros t i Hl Hli Hin Hn Hf Hh Hd; [lia|].
  (* what storing [tmp] at [i] gives, when the children of [i] allow it *)
  assert (Stop :
    (forall c, c = i + i \/ c = S (i + i) -> c <= n ->
       Z.le (key (get1 t c)) (key tmp)) ->
    length (set1 i tmp t) = length t
    /\ heap l n (set1 i tmp t)
    /\ (forall k, 1 <= k -> k < i \/ n < k -> get1 (set1 i tmp t) k = get1 t k)
    /\ Permutation (set1 i tmp t) (set1 i tmp t)
    /\ (forall Q : nat -> Prop,
          Q tmp -> (forall k, i <= k -> k <= n -> Q (get1 t k)) ->
          forall k, i <= k -> k <= n -> Q (get1 (set1 i tmp t) k))).
  { intros Hc. split; [apply length_set1|]. split; [|split; [|split]].
    - intros p c Hp Hpc Hcn.
      rewrite !get1_set1 by lia.
      destruct (Nat.eqb_spec c i) as [->|Hci], (Nat.eqb_spec p i) as [->|Hpi];
        try lia.
      + destruct Hd as [->|[Hh' Ht]]; [lia|].
        transitivity (key (get1 t i)); [exact Ht | now apply Hh'].
      + apply Hc; auto.
      + destruct (Nat.eq_dec p l) as [->|Hpl].
        * destruct Hd as [->|[Hh' _]]; [lia | now apply Hh'].
        * apply Hh; auto; lia.
    - intros k Hk1 Hk. rewrite get1_set1 by lia.
      destruct (Nat.eqb_spec k i); [lia | reflexivity].
    - reflexivity.
    - intros Q HQ HQt k Hk1 Hk2. rewrite get1_set1 by lia.
      destruct (Nat.eqb_spec k i); auto. }
  cbn [sift].
  destruct (Nat.leb_spec (i + i) n) as [Hjn|Hjn]; [|apply Stop; intros; lia].
  set (j := if (i + i <? n) &&
               Z.ltb (key (get1 t (i + i))) (key (get1 t (i + i + 1)))
            then i + i + 1 else i + i).
  assert (Hj : (j = i + i \/ j = S (i + i)) /\ j <= n
               /\ forall c, c = i + i \/ c = S (i + i) -> c <= n ->
                    Z.le (key (get1 t c)) (key (get1 t j))).
  { subst j. destruct (Nat.ltb_spec (i + i) n) as [H1|H1]; simpl.
    - destruct (Z.ltb_spec (key (get1 t (i + i))) (key (get1 t (i + i + 1))))
        as [H2|H2].
      + split; [lia|]. split; [lia|].
        intros c [->| ->] _; replace (S (i + i)) with (i + i + 1) by lia; lia.
      + split; [lia|]. split; [lia|].
        intros c [->| ->] _; replace (S (i + i)) with (i + i + 1) by lia; lia.
    - split; [lia|]. split; [lia|]. intros c [->| ->] Hc; lia. }
  destruct Hj as [Hj1 [Hj2 Hj3]].
  destruct (Z.ltb_spec (key tmp) (key (get1 t j))) as [Hlt|Hge].
  - set (t1 := set1 i (get1 t j) t).
    assert (G1 : forall k, 1 <= k -> get1 t1 k = if k =? i then get1 t j else get1 t k).
    { intros k Hk. subst t1. apply get1_set1; lia. }
    assert (Hi_heap : i <> l -> heap l n t).
    { intros Hne. destruct Hd as [->|[Hh' _]]; [lia | exact Hh']. }
    assert (Hh1 : heap l n t1).
    { intros p c Hp Hpc Hcn. rewrite !G1 by lia.
      destruct (Nat.eqb_spec c i) as [->|Hci], (Nat.eqb_spec p i) as [->|Hpi];
        try lia.
      - transitivity (key (get1 t i)).
        + apply (Hi_heap ltac:(lia)); auto.
        + apply (Hi_heap ltac:(lia)); auto.
      - apply Hj3; auto.
      - destruct (Nat.eq_dec p l) as [->|Hpl].
        + apply (Hi_heap ltac:(lia)); auto.
        + apply Hh; auto; lia. }
    destruct (IH t1 j) as [L [H' [F [P Qp]]]]; try lia.
    + subst t1. rewrite length_set1. lia.
    + intros p c Hp Hpc Hcn. apply Hh1; auto; lia.
    + right. split; [exact Hh1|]. rewrite G1 by lia.
      destruct (Nat.eqb_spec j i); [lia|]. lia.
    + assert (L1 : length t1 = length t) by (subst t1; apply length_set1).
      split; [now rewrite L|]. split; [exact H'|]. split; [|split].
      * intros k Hk1 Hk. rewrite F by lia. rewrite G1 by lia.
        destruct (Nat.eqb_spec k i); [lia | reflexivity].
      * rewrite P. subst t1. unfold set1, get1.
        apply Permutation_hole; lia.
      * intros Q HQ HQt k Hk1 Hk2.
        destruct (Nat.lt_ge_cases k j) as [Hkj|Hkj].
        -- rewrite F by lia. rewrite G1 by lia.
           destruct (Nat.eqb_spec k i); apply HQt; lia.
        -- apply Qp; auto. intros k' Hk1' Hk2'. rewrite G1 by lia.
           destruct (Nat.eqb_spec k' i); apply HQt; lia.
  - apply Stop. intros c Hc Hcn. transitivity (key (get1 t j)); auto.
Qed.

Lemma build_spec (n : nat) :
  forall l t,
    l <= n -> n <= length t -> heap (S l) n t ->
    length (build key t l n) = length t
    /\ heap 1 n (build key t l n)
    /\ Permutation (build key t l n) t.
Proof.
  induction l as [|l IH]; intros t Hl Hn Hh; simpl.
  - repeat split; auto.
  - destruct (sift_spec (S l) n (get1 t (S l)) n t (S l))
      as [L [H' [_ [P _]]]]; try lia; auto.
    replace (S l + S l) with (S (l + S l)) in * by lia.
    destruct (IH (sift key n t (get1 t (S l)) (S l) (S (l + S l)) n))
      as [L' [H'' P']]; try lia; auto.
    split; [now rewrite L'|]. split; [exact H''|].
    rewrite P', P. unfold set1, get1. now rewrite upd_nth.
Qed.

Lemma extract_step (t : list nat) (m : nat) :
  extract key t (S (S m))
  = extract key (sift key (S (S m)) (set1 (S (S m)) (get1 t 1) t)
                      (get1 t (S (S m))) 1 2 (S m)) (S m).
Proof. reflexivity. Qed.

Lemma extract_spec :
  forall n t,
    n <= length t -> heap 1 n t ->
    (forall a b, n < a -> a < b -> b <= length t ->
       Z.le (key (get1 t a)) (key (get1 t b))) ->
    (forall a b, 1 <= a -> a <= n -> n < b -> b <= length t ->
       Z.le (key (get1 t a)) (key (get1 t b))) ->
    length (extract key t n) = length t
    /\ (forall a b, 1 <= a -> a < b -> b <= length t ->
          Z.le (key (get1 (extract key t n) a)) (key (get1 (extract key t n) b)))
    /\ Permutation (extract key t n) t.
Proof.
  induction n as [n IH] using lt_wf_ind. intros t Hn Hh Hs Hc.
  destruct n as [|[|m]].
  - simpl. repeat split; auto; intros a b Ha Hab Hb; apply Hs; lia.
  - simpl. repeat split; auto; intros a b Ha Hab Hb;
      destruct (Nat.eq_dec a 1) as [->|]; [apply Hc; lia | apply Hs; lia].
  - rewrite extract_step.
    set (n := S (S m)) in *. set (n' := S m) in *.
    set (tmp := get1 t n). set (t1 := set1 n (get1 t 1) t).
    assert (L1 : length t1 = length t) by apply length_set1.
    assert (G1 : forall k, 1 <= k ->
                   get1 t1 k = if k =? n then get1 t 1 else get1 t k).
    { intros k Hk. subst t1. apply get1_set1; lia. }
    assert (Hroot : forall c, 1 <= c -> c <= n ->
                      Z.le (key (get1 t c)) (key (get1 t 1)))
      by (now apply heap_root).
    destruct (sift_spec 1 n' tmp n t1 1) as [L [H' [F [P Qp]]]]; try lia.
    + intros p c Hp Hpc Hcn. rewrite !G1 by lia.
      destruct (Nat.eqb_spec c n), (Nat.eqb_spec p n); try lia.
      apply Hh; auto; lia.
    + change (1 + 1) with 2 in *.
      set (t2 := sift key n t1 tmp 1 2 n') in *.
      assert (P2 : Permutation t2 t).
      { rewrite P. subst t1 tmp. unfold set1, get1.
        replace (1 - 1) with 0 by lia.
        apply (Permutation_swap (n - 1) 0 t); lia. }
      assert (U : forall k, n' < k -> get1 t2 k = get1 t1 k)
        by (intros k Hk; apply F; lia).
      destruct (IH n' ltac:(lia) t2) as [L' [S' P']]; try lia; auto.
      * intros a b Ha Hab Hb. rewrite !U by lia. rewrite !G1 by lia.
        destruct (Nat.eqb_spec b n); [lia|].
        destruct (Nat.eqb_spec a n).
        -- apply Hc; lia.
        -- apply Hs; lia.
      * intros a b Ha1 Ha2 Hb1 Hb2. rewrite (U b) by lia. rewrite G1 by lia.
        destruct (Nat.eqb_spec b n).
        -- apply (Qp (fun x => Z.le (key x) (key (get1 t 1)))); try lia.
           ++ apply Hroot; lia.
           ++ intros k Hk1 Hk2. rewrite G1 by lia.
              destruct (Nat.eqb_spec k n); [lia|]. apply Hroot; lia.
        -- apply (Qp (fun x => Z.le (key x) (key (get1 t b)))); try lia.
           ++ apply Hc; lia.
           ++ intros k Hk1 Hk2. rewrite G1 by lia.
              destruct (Nat.eqb_spec k n); [lia|]. apply Hc; lia.
      * rewrite L, L1 in *. split; [exact L'|]. split; [exact S'|].
        now rewrite P'.
Qed.

Lemma aheapsort_spec (t : list nat) :
  Permutation (aheapsort key t) t /\ StronglySorted le_key (aheapsort key t).
Proof.
  unfold aheapsort.
  destruct (build_spec (length t) (length t / 2) t) as [L [H P]]; try lia.
  - pose proof (Nat.div_mod_eq (length t) 2) as E. lia.
  - intros p c Hp Hpc Hc.
    pose proof (Nat.div_mod_eq (length t) 2) as E.
    pose proof (Nat.mod_upper_bound (length t) 2) as B. lia.
  - destruct (extract_spec (length t) (build key t (length t / 2) (length t)))
      as [L' [S' P']]; try lia; auto; try (intros; lia).
    split; [now rewrite P'|].
    apply sorted_upto_StronglySorted. intros i j Hij Hj.
    rewrite L' in Hj.
    assert (K := S' (S i) (S j) ltac:(lia) ltac:(lia) ltac:(lia)).
    unfold get1 in K.
    replace (S i - 1) with i in K by lia.
    replace (S j - 1) with j in K by lia. exact K.
Qed.

(** *** The introsort *)

Lemma sorted_app (l1 l2 : list nat) :
  StronglySorted le_key l1 -> StronglySorted le_key l2 ->
  (forall a b, In a l1 -> In b l2 -> le_key a b) ->
  StronglySorted le_key (l1 ++ l2).
Proof.
  induction 1 as [|a l1 Hs IH Ha]; simpl; intros H2 H; [exact H2|].
  constructor.
  - apply IH; [exact H2 | intros; apply H; auto].
  - apply Forall_app. split; [exact Ha|].
    apply Forall_forall. intros b Hb. apply H; auto.
Qed.

Lemma sort_segment_spec :
  forall fuel top cdepth t,
    Permutation (sort_segment key fuel top cdepth t) t
    /\ StronglySorted le_key (sort_segment key fuel top cdepth t).
Proof.
  induction fuel as [|fuel IH]; intros top cdepth t; cbn [sort_segment].
  - apply insertion_spec.
  - destruct (top && (cdepth <? 0)%Z); [apply aheapsort_spec|].
    destruct (Nat.ltb_spec 16 (length t - 1)) as [Hbig|Hsmall];
      [|apply insertion_spec].
    destruct (partition key t) as [t' pi] eqn:E.
    destruct (partition_spec t ltac:(lia) t' pi E) as [P [Hpi [Hl Hr]]].
    set (small_left := pi <? length t - 1 - pi).
    destruct (IH (negb small_left) (cdepth - 1)%Z (firstn pi t')) as [PL SL].
    destruct (IH small_left (cdepth - 1)%Z (skipn (S pi) t')) as [PR SR].
    split.
    + rewrite PL, PR, <- (split_nth 0 t' pi Hpi). exact P.
    + apply sorted_app; [exact SL | |].
      * constructor; [exact SR|].
        rewrite PR. apply Forall_forall. intros b Hb.
        destruct (In_nth _ _ 0 Hb) as [k [Hk <-]].
        rewrite nth_skipn. rewrite length_skipn in Hk.
        apply Hr; lia.
      * intros a b Ha Hb.
        assert (Hap : le_key a (nth pi t' 0)).
        { apply (Permutation_in _ PL) in Ha.
          destruct (In_nth _ _ 0 Ha) as [k [Hk <-]].
          rewrite length_firstn in Hk.
          rewrite nth_firstn.
          destruct (Nat.ltb_spec k pi); [|lia]. apply Hl; lia. }
        destruct Hb as [<-|Hb]; [exact Hap|].
        apply (Permutation_in _ PR) in Hb.
        destruct (In_nth _ _ 0 Hb) as [k [Hk <-]].
        rewrite nth_skipn. rewrite length_skipn in Hk.
        unfold le_key in *. transitivity (key (nth pi t' 0)); [exact Hap|].
        apply Hr; lia.
Qed.

Lemma aquicksort_spec (t : list nat) :
  Permutation (aquicksort key t) t /\ StronglySorted le_key (aquicksort key t).
Proof. apply sort_segment_spec. Qed.

Lemma le_key_map (l : list nat) :
  StronglySorted le_key l -> StronglySorted Z.le (map key l).
Proof.
  induction 1 as [|a l Hs IH Ha]; simpl; constructor; [exact IH|].
  apply Forall_map. exact Ha.
Qed.

End Proofs.

Lemma numpy_argsort_perm (v : list Z) :
  Permutation (argsort v) (seq 0 (length v)).
Proof. apply aquicksort_spec. Qed.

Lemma numpy_argsort_sorted (v : list Z) :
  StronglySorted Z.le (map (fun i => nth i v 0%Z) (argsort v)).
Proof.
  apply (le_key_map (fun i => nth i v 0%Z)), aquicksort_spec.
Qed.

End NpSortFacts.

(** The reference library: numpy's sort, Python's [str] and [float]. *)
Definition numpy_pandas : Pandas := {|
  strptime := Ref.parse_datetime;
  to_datetime := Ref.to_datetime_series;
  to_datetime_length := RefFacts.to_datetime_series_length;
  argsort := NpSort.argsort;
  argsort_perm := NpSortFacts.numpy_argsort_perm;
  argsort_sorted := NpSortFacts.numpy_argsort_sorted;
  py_str := Ref.str_of_cell;
  py_float := Ref.float_of_string;
  py_float_is_float := RefFacts.float_of_string_is_float;
  to_numeric := Ref.numeric_of_string;
  to_numeric_is_numeric := RefFacts.numeric_of_string_is_numeric
|}.

(** ** Sample exports *)

Module Sample.

Definition strs (l : list string) : Series := map VStr l.

(** A metric export of four tasks: two reported at the same second, one
    reported before the cut-off used below. *)
Definition metric_export : DataFrame :=
  mkDF (seq 0 4)
    [ ("Robot name", strs ["R-A"; "R-B"; "R-C"; "R-D"]);
      ("S/N", strs ["SN1"; "SN2"; "SN3"; "SN4"]);
      ("Map name", strs ["L1"; "L1"; "L2"; "L2"]);
      ("Cleaning plan", strs ["P"; "P"; "P"; "P"]);
      ("User", [NaN; VStr "ops"; VStr "ops"; VStr "ops"]);
      ("Task start time", strs ["2024-03-01 09:00:00"; "2024-03-02 09:00:00";
                                "2024-03-02 09:00:00"; "2024-02-01 09:00:00"]);
      ("End time", strs ["2024-03-01 10:00:00"; "2024-03-02 10:00:00";
                         "2024-03-02 10:00:00"; "2024-02-01 10:00:00"]);
      ("Total time", strs ["1h"; "1h"; "1h"; "1h"]);
      ("Task status", strs ["done"; "done"; "done"; "done"]);
      ("Task completion (%)", [VInt 100; VInt 90; VInt 80; VInt 70]);
      ("Actual cleaning area(㎡)", strs ["1,234.5"; "200.25"; "-"; "10"]);
      ("Plan running time (s)", [VInt 3600; VInt 3600; VInt 3600; VInt 3600]);
      ("Total time (h)", [VFloat 1%float; VFloat 1%float; VFloat 1%float; VFloat 1%float]);
      ("Water usage (L)", [VFloat 12.5%float; VFloat 3%float; VFloat 4%float; VFloat 5%float]);
      ("Brush (%)", strs ["100.00"; "0.00"; "55.5"; "7"]);
      ("Filter (%)", [VInt 10; VInt 20; VInt 30; VInt 40]);
      ("Squeegee(%)", [VFloat 0.5%float; VFloat 2%float; VFloat 3%float; VFloat 4%float]);
      ("Planned crystallization area (㎡)", strs ["x"; "-"; "y"; "z"]);
      ("Actual crystallization area (㎡)", [NaN; VInt 3; NaN; NaN]);
      ("Cleaning plan area (㎡)", strs ["2,000"; "300"; "400"; "500"]);
      ("Uncleaned area (㎡)", [VInt 0; VInt 0; VInt 0; VInt 0]);
      ("Start battery level (%)", [VInt 90; VInt 90; VInt 90; VInt 90]);
      ("End battery level (%)", [VInt 50; VInt 50; VInt 50; VInt 50]);
      ("Receive task report time",
       strs ["2024-03-01 10:00:05"; "2024-03-02 10:00:05";
             "2024-03-02 10:00:05"; "2024-02-01 10:00:05"]);
      ("Task type", strs ["scrub"; "scrub"; "scrub"; "scrub"]);
      ("Task start mode", strs ["auto"; "auto"; "auto"; "auto"]);
      ("Remarks", [NaN; NaN; NaN; NaN]);
      ("Download link", strs ["u1"; "u2"; "u3"; "u4"]);
      ("Work efficiency (㎡/h)", strs ["1,234.5"; "200.25"; "0.00"; "10"]) ].

Definition metric_file : BytesIO :=
  mkFile "tasks.csv" (Ok metric_export)
         (Err (ValueError "Excel file format cannot be determined")).

Definition cutoff : string := "2024-02-15 00:00:00".
Definition adjusted : cell := VStr "2024-03-03 08:00:00".

(** An imperial export of three tasks. *)
Definition ca_export : DataFrame :=
  mkDF (seq 0 3)
    [ ("Robot name", strs ["R-A"; "R-B"; "R-C"]);
      ("S/N", strs ["SN1"; "SN2"; "SN3"]);
      ("Map name", strs ["L1"; "L1"; "L2"]);
      ("Cleaning plan", strs ["P"; "P"; "P"]);
      ("User", strs ["ops"; "ops"; "ops"]);
      ("Task start time", strs ["2024-03-01 09:00:00"; "2024-03-02 09:00:00";
                                "2024-03-03 09:00:00"]);
      ("End time", strs ["2024-03-01 10:00:00"; "2024-03-02 10:00:00";
                         "2024-03-03 10:00:00"]);
      ("Total time", strs ["1h"; "1h"; "1h"]);
      ("Task status", strs ["done"; "done"; "done"]);
      ("Task completion (%)", [VInt 100; VInt 90; VInt 80]);
      ("Actual cleaning area(ft²)", strs ["100"; "1,000.5"; "-"]);
      ("Plan running time (s)", [VInt 3600; VInt 3600; VInt 3600]);
      ("Total time (h)", [VFloat 1%float; VFloat 1%float; VFloat 1%float]);
      ("Water usage (gal)", [VInt 10; VInt 3; VInt 0]);
      ("Brush (%)", strs ["100.00"; "0.0"; "55.5"]);
      ("Filter (%)", [VInt 10; VInt 20; VInt 30]);
      ("Squeegee(%)", [VFloat 0.5%float; VFloat 2%float; VFloat 3%float]);
      ("Planned crystallization area (ft²)", strs ["x"; "-"; "y"]);
      ("Actual crystallization area (ft²)", [NaN; VInt 3; NaN]);
      ("Cleaning plan area (ft²)", [VInt 100; VInt 200; VInt 300]);
      ("Uncleaned area (ft²)", [VInt 0; VInt 0; VInt 0]);
      ("Start battery level (%)", [VInt 90; VInt 90; VInt 90]);
      ("End battery level (%)", [VInt 50; VInt 50; VInt 50]);
      ("Receive task report time",
       strs ["2024-03-03 10:00:05"; "2024-03-02 10:00:05";
             "2024-03-01 10:00:05"]);
      ("Task type", strs ["scrub"; "scrub"; "scrub"]);
      ("Task start mode", strs ["auto"; "auto"; "auto"]);
      ("Remarks", [NaN; NaN; NaN]);
      ("Download link", strs ["u1"; "u2"; "u3"]);
      ("Work efficiency (ft²/h)", [VFloat 100%float; VFloat 250.5%float; VFloat 0%float]) ].

Definition no_excel : result DataFrame :=
  Err (ValueError "Excel file format cannot be determined").


(** The same exports without the "Download link" column. *)
Definition without (c : string) (df : DataFrame) : DataFrame :=
  mkDF (index df) (filter (fun p => negb (String.eqb (fst p) c)) (cols df)).

Definition metric_file_no_link : BytesIO :=
  mkFile "tasks.csv" (Ok (without "Download link" metric_export)) no_excel.

Definition ca_file_no_link : BytesIO :=
  mkFile "tasks_ca.csv" (Ok (without "Download link" ca_export)) no_excel.

(** The metric export without the "Brush (%)" column. *)
Definition metric_file_no_brush : BytesIO :=
  mkFile "tasks.csv" (Ok (without "Brush (%)" metric_export)) no_excel.

(** The same exports with a thousands separator in a brush percentage. *)
Definition metric_file_brush : BytesIO :=
  mkFile "tasks.csv"
         (Ok (setitem metric_export "Brush (%)"
                      (strs ["1,000"; "0.00"; "55.5"; "7"]))) no_excel.

Definition ca_file_brush : BytesIO :=
  mkFile "tasks_ca.csv"
         (Ok (setitem ca_export "Brush (%)" (strs ["1,000"; "0.0"; "55.5"])))
         no_excel.

(** A metric export whose filter percentages are whole numbers is the
    sample itself: "Filter (%)" is an int64 column. *)





(** A file that is neither CSV nor Excel, and a CSV the reader rejects. *)
Definition text_file : BytesIO :=
  mkFile "report.txt" (Ok metric_export) (Ok metric_export).

Definition broken_csv : BytesIO :=
  mkFile "broken.csv"
         (Err (ValueError "Error tokenizing data. C error: Expected 29 fields"))
         no_excel.

End Sample.

(** ** Runs of the pipeline on the samples *)

Module Runs.
Import Sample.

Definition unwrap (r : result DataFrame) : DataFrame :=
  match r with
  | Ok d => d
  | Err _ => mkDF [] []
  end.

(** The metric pipeline on the sample exports. *)
Definition metric_out : DataFrame :=
  Eval vm_compute in
    unwrap (process_data (P := numpy_pandas) metric_file cutoff adjusted None).





Definition metric_filtered : DataFrame :=
  Eval vm_compute in
    unwrap (filter_sort (P := numpy_pandas) drop_columns_metric
                             metric_file cutoff None).

Definition sgv2_out : DataFrame :=
  Eval vm_compute in
    unwrap (process_uploaded_file (P := numpy_pandas) metric_file cutoff
                                       adjusted "GS SGV2" None).



End Runs.

(** * Properties *)

(** ** Frames *)

Lemma mem_true_iff (c : string) (l : list string) : mem c l = true <-> In c l.
Proof.
  unfold mem. rewrite existsb_exists. split.
  - intros [x [Hx E]]. apply String.eqb_eq in E. now subst.
  - intros H. exists c. split; [exact H | apply String.eqb_refl].
Qed.

Lemma mem_false_iff (c : string) (l : list string) : mem c l = false <-> ~ In c l.
Proof.
  rewrite <- mem_true_iff. destruct (mem c l); split; intros; congruence.
Qed.

Lemma lookup_some_in (c : string) (l : list (string * Series)) (s : Series) :
  lookup c l = Some s -> In c (map fst l).
Proof.
  induction l as [|[n s0] l IH]; simpl; [discriminate|].
  destruct (String.eqb_spec c n); auto.
Qed.

Lemma lookup_in (c : string) (l : list (string * Series)) :
  In c (map fst l) -> exists s, lookup c l = Some s.
Proof.
  induction l as [|[n s0] l IH]; simpl; [tauto|].
  destruct (String.eqb_spec c n); [eauto|].
  intros [E|H]; [congruence | auto].
Qed.

Lemma lookup_none (c : string) (l : list (string * Series)) :
  ~ In c (map fst l) -> lookup c l = None.
Proof.
  intros H. destruct (lookup c l) eqn:E; [|reflexivity].
  apply lookup_some_in in E. contradiction.
Qed.

Lemma lookup_set_col_same (c : string) (s : Series) (l : list (string * Series)) :
  lookup c (set_col c s l) = Some s.
Proof.
  induction l as [|[n s0] l IH]; simpl.
  - now rewrite String.eqb_refl.
  - destruct (String.eqb_spec c n) as [E|E]; simpl.
    + now rewrite E, String.eqb_refl.
    + apply String.eqb_neq in E. now rewrite E.
Qed.

Lemma lookup_set_col_other (c c' : string) (s : Series) (l : list (string * Series)) :
  c <> c' -> lookup c (set_col c' s l) = lookup c l.
Proof.
  intros Hne. induction l as [|[n s0] l IH]; simpl.
  - apply String.eqb_neq in Hne. now rewrite Hne.
  - destruct (String.eqb_spec c' n) as [E|E]; simpl.
    + subst n. apply String.eqb_neq in Hne. now rewrite Hne.
    + destruct (String.eqb c n); [reflexivity | exact IH].
Qed.

Lemma names_set_col (c : string) (s : Series) (l : list (string * Series)) :
  map fst (set_col c s l) =
  if mem c (map fst l) then map fst l else (map fst l ++ [c])%list.
Proof.
  induction l as [|[n s0] l IH]; simpl; [reflexivity|].
  unfold mem in *. simpl.
  destruct (String.eqb c n); simpl; [reflexivity|].
  rewrite IH. now destruct (existsb (String.eqb c) (map fst l)).
Qed.

Lemma names_set_col_in (c : string) (s : Series) (l : list (string * Series)) :
  In c (map fst l) -> map fst (set_col c s l) = map fst l.
Proof.
  intros H. rewrite names_set_col. apply mem_true_iff in H. now rewrite H.
Qed.

Lemma lookup_map_snd (f : Series -> Series) (c : string) (l : list (string * Series)) :
  lookup c (map (fun p => (fst p, f (snd p))) l) = option_map f (lookup c l).
Proof.
  induction l as [|[n s0] l IH]; simpl; [reflexivity|].
  now destruct (String.eqb c n).
Qed.

Lemma names_map_snd (f : Series -> Series) (l : list (string * Series)) :
  map fst (map (fun p => (fst p, f (snd p))) l) = map fst l.
Proof. rewrite map_map. reflexivity. Qed.

Lemma bind_ok {A B : Type} (r : result A) (k : A -> result B) (b : B) :
  bind r k = Ok b -> exists a, r = Ok a /\ k a = Ok b.
Proof. destruct r; simpl; [eauto | discriminate]. Qed.

Lemma bind_ok_eq {A B : Type} (r : result A) (k : A -> result B) (a : A) (b : B) :
  r = Ok a -> bind r k = Ok b -> k a = Ok b.
Proof. intros -> H. exact H. Qed.

Lemma mapM_ok_Forall2 {A B : Type} (f : A -> result B) (l : list A) :
  forall l', mapM f l = Ok l' -> Forall2 (fun a b => f a = Ok b) l l'.
Proof.
  induction l as [|a l IH]; simpl; intros l' H.
  - inversion H. constructor.
  - apply bind_ok in H. destruct H as [b [Hb H]].
    apply bind_ok in H. destruct H as [bs [Hbs H]].
    inversion H; subst. constructor; auto.
Qed.

Lemma select_cols (df : DataFrame) (names : list string) :
  forall cs, mapM (fun c => s <- getitem df c ;; Ok (c, s)) names = Ok cs ->
  map fst cs = names
  /\ forall c, In c names ->
       lookup c cs = column df c /\ exists s, column df c = Some s.
Proof.
  induction names as [|n names IH]; simpl; intros cs H.
  - inversion H; subst. split; [reflexivity | intros c []].
  - apply bind_ok in H. destruct H as [[n' s] [Hn H]].
    apply bind_ok in H. destruct H as [cs' [Hcs H]].
    inversion H; subst; clear H.
    apply bind_ok in Hn. destruct Hn as [s' [Hs' E]]. inversion E; subst.
    destruct (IH _ Hcs) as [IH1 IH2]. simpl. split; [now rewrite IH1|].
    unfold getitem in Hs'. destruct (column df n') eqn:El; inversion Hs'; subst.
    intros c [<-|Hin].
    + rewrite String.eqb_refl. split; [now rewrite El | eauto].
    + destruct (String.eqb_spec c n') as [->|Hne].
      * split; [now rewrite El | eauto].
      * now apply IH2.
Qed.

(** [df[names]] has exactly the named columns, each the column of [df]. *)
Lemma select_ok (df d : DataFrame) (names : list string) :
  select df names = Ok d ->
  columns d = names /\ index d = index df
  /\ forall c, In c names ->
       column d c = column df c /\ exists s, column df c = Some s.
Proof.
  unfold select. intros H. apply bind_ok in H. destruct H as [cs [Hcs H]].
  inversion H; subst; clear H. unfold columns; simpl.
  destruct (select_cols _ _ _ Hcs) as [H1 H2]. auto.
Qed.

Lemma select_missing (df : DataFrame) (names : list string) (c : string) :
  In c names -> ~ In c (columns df) -> is_ok (select df names) = false.
Proof.
  intros Hin Hnot. destruct (select df names) as [d|e] eqn:E; [|reflexivity].
  apply select_ok in E. destruct E as [_ [_ E]].
  destruct (E c Hin) as [_ [s Hs]].
  apply lookup_some_in in Hs. contradiction.
Qed.

(** Column-wise updates keep the columns and touch only the named ones. *)
Lemma update_columns_ok {P : Pandas} (f : Series -> result Series) (names : list string) :
  forall df d, update_columns f names df = Ok d ->
  columns d = columns df /\ index d = index df
  /\ (forall c, ~ In c names -> column d c = column df c)
  /\ (forall c, In c names -> In c (columns df)).
Proof.
  induction names as [|n names IH]; simpl; intros df d H.
  - inversion H; subst. repeat split; auto. intros c [].
  - apply bind_ok in H. destruct H as [s [Hs H]].
    apply bind_ok in H. destruct H as [s' [Hs' H]].
    apply IH in H. destruct H as [H1 [H2 [H3 H4]]].
    unfold getitem in Hs. destruct (column df n) eqn:En; inversion Hs; subst.
    assert (Hn : In n (columns df)) by (eapply lookup_some_in; exact En).
    unfold columns, column in *. simpl in *.
    rewrite names_set_col_in in * by exact Hn.
    repeat split; auto.
    + intros c Hc. rewrite H3 by tauto.
      apply lookup_set_col_other. intros ->. tauto.
    + intros c [<-|Hc]; auto.
Qed.

Lemma update_columns_one {P : Pandas} (f : Series -> result Series) (names : list string) :
  forall df d c, NoDup names -> In c names ->
  update_columns f names df = Ok d ->
  exists s s', column df c = Some s /\ f s = Ok s' /\ column d c = Some s'.
Proof.
  induction names as [|n names IH]; simpl; intros df d c Hnd Hin H; [tauto|].
  inversion Hnd as [|? ? Hn Hnd']; subst.
  apply bind_ok in H. destruct H as [s [Hs H]].
  apply bind_ok in H. destruct H as [s' [Hs' H]].
  unfold getitem in Hs. destruct (column df n) eqn:En; inversion Hs; subst.
  destruct Hin as [<-|Hin].
  - exists s, s'. repeat split; auto.
    apply update_columns_ok in H. destruct H as [_ [_ [H3 _]]].
    rewrite H3 by exact Hn. unfold column; simpl. apply lookup_set_col_same.
  - destruct (IH _ _ _ Hnd' Hin H) as [s1 [s1' [E1 [E2 E3]]]].
    exists s1, s1'. repeat split; auto.
    rewrite <- E1. unfold column; simpl. symmetry.
    apply lookup_set_col_other. intros ->. contradiction.
Qed.

(** ** Masks and indexers *)

Lemma mask_list_self {A : Type} (f : A -> bool) (l : list A) :
  mask_list (map f l) l = filter f l.
Proof.
  induction l as [|a l IH]; simpl; [reflexivity|].
  destruct (f a); now rewrite IH.
Qed.

Lemma mask_list_Forall {A : Type} (Q : A -> Prop) (l : list A) :
  Forall Q l -> forall m, Forall Q (mask_list m l).
Proof.
  induction 1 as [|a l Ha _ IH]; intros [|b m]; simpl; try constructor.
  destruct b; [constructor|]; auto.
Qed.

Lemma mask_list_In {A : Type} (x : A) (m : list bool) :
  forall l, In x (mask_list m l) -> In x l.
Proof.
  induction m as [|b m IH]; intros [|a l]; simpl; try tauto.
  destruct b; simpl; intuition.
Qed.




Lemma StronglySorted_app {A : Type} (R : A -> A -> Prop) (l1 l2 : list A) :
  StronglySorted R l1 -> StronglySorted R l2 ->
  (forall a b, In a l1 -> In b l2 -> R a b) ->
  StronglySorted R (l1 ++ l2).
Proof.
  induction 1 as [|a l1 Hs IH Ha]; simpl; intros H2 H; [exact H2|].
  constructor.
  - apply IH; [exact H2 | intros; apply H; auto].
  - apply Forall_app. split; [exact Ha|].
    apply Forall_forall. intros b Hb. apply H; auto.
Qed.

Lemma StronglySorted_rev {A : Type} (R : A -> A -> Prop) (l : list A) :
  StronglySorted R l -> StronglySorted (fun a b => R b a) (rev l).
Proof.
  induction 1 as [|a l Hs IH Ha]; simpl; [constructor|].
  apply StronglySorted_app; [exact IH | repeat constructor |].
  intros x y Hx [<-|[]]. apply in_rev in Hx.
  rewrite Forall_forall in Ha. now apply Ha.
Qed.

Lemma nth_rev_seq (n a : nat) :
  (a < n)%nat -> nth a (rev (seq 0 n)) 0%nat = (n - 1 - a)%nat.
Proof.
  intros H. rewrite rev_nth by (rewrite length_seq; exact H).
  rewrite length_seq, seq_nth by lia. lia.
Qed.

Section FilterSort.

Context {P : Pandas}.

Lemma gt_datetime_later (selected : Z) (c : cell) :
  gt_datetime selected c = true -> later_than selected c.
Proof.
  destruct c; simpl; try discriminate. intros H. exists t. split; auto. lia.
Qed.

Lemma later_not_na (selected : Z) (k : Series) :
  Forall (later_than selected) k -> map isna k = repeat false (length k).
Proof.
  induction 1 as [|c k [t [-> _]] _ IH]; simpl; [reflexivity | now rewrite IH].
Qed.

Lemma mask_list_repeat_true {A : Type} (l : list A) :
  mask_list (repeat true (length l)) l = l.
Proof. induction l; simpl; [reflexivity | now f_equal]. Qed.

Lemma mask_list_repeat_false {A : Type} (l : list A) :
  forall n, mask_list (repeat false n) l = [].
Proof. induction l; intros [|n]; simpl; auto. Qed.

Lemma map_negb_repeat_false (n : nat) :
  map negb (repeat false n) = repeat true n.
Proof. induction n; simpl; [reflexivity | now f_equal]. Qed.

(** Without missing keys the indexer is the reversed argsort of the
    reversed keys. *)
Lemma nargsort_desc_no_na (selected : Z) (k : Series) :
  Forall (later_than selected) k ->
  nargsort_desc k =
  rev (take 0%nat (argsort (map time_key (rev k))) (rev (seq 0 (length k)))).
Proof.
  intros H. unfold nargsort_desc.
  rewrite (later_not_na _ _ H), map_negb_repeat_false, mask_list_repeat_false.
  rewrite mask_list_repeat_true.
  replace (repeat true (length k)) with (repeat true (length (seq 0 (length k))))
    by now rewrite length_seq.
  rewrite mask_list_repeat_true. now rewrite app_nil_r.
Qed.

Lemma argsort_in_range (l : list Z) :
  Forall (fun a => (a < length l)%nat) (argsort l).
Proof.
  apply Forall_forall. intros a Ha.
  apply (Permutation_in _ (argsort_perm l)) in Ha.
  apply in_seq in Ha. lia.
Qed.

(** The report-time column after [sort_values]: its keys read backwards are
    the keys the argsort put in order. *)
Lemma take_nargsort_desc (selected : Z) (k : Series) :
  Forall (later_than selected) k ->
  take NaN (nargsort_desc k) k =
  rev (map (fun a => nth a (rev k) NaN) (argsort (map time_key (rev k)))).
Proof.
  intros H. rewrite (nargsort_desc_no_na _ _ H). unfold take.
  rewrite map_rev, map_map. f_equal.
  apply map_ext_Forall.
  eapply Forall_impl; [|apply argsort_in_range].
  intros a Ha. rewrite length_map, length_rev in Ha.
  rewrite nth_rev_seq by exact Ha.
  rewrite rev_nth by exact Ha. f_equal. lia.
Qed.

Lemma sorted_later (selected : Z) (k : Series) :
  Forall (later_than selected) k ->
  Forall (later_than selected) (take NaN (nargsort_desc k) k)
  /\ StronglySorted (fun a b => time_key b <= time_key a)
                    (take NaN (nargsort_desc k) k).
Proof.
  intros H. rewrite (take_nargsort_desc _ _ H). split.
  - apply Forall_rev, Forall_map.
    eapply Forall_impl; [|apply argsort_in_range].
    intros a Ha. rewrite length_map in Ha.
    assert (Hr : Forall (later_than selected) (rev k)) by now apply Forall_rev.
    rewrite Forall_forall in Hr. apply Hr, nth_In, Ha.
  - apply StronglySorted_rev.
    pose proof (argsort_sorted (map time_key (rev k))) as Hs.
    remember (argsort (map time_key (rev k))) as A eqn:EA. clear EA.
    induction A as [|a A IH]; simpl; [constructor|].
    inversion Hs as [|? ? Hs' Ha]; subst. constructor; [now apply IH|].
    rewrite Forall_map. rewrite Forall_map in Ha.
    eapply Forall_impl; [|exact Ha]. intros b Hb. simpl in Hb.
    change 0 with (time_key NaN) in Hb. now rewrite !map_nth in Hb.
Qed.

End FilterSort.

(** ** The filter and sort stage *)

Lemma column_mask_rows (df : DataFrame) (m : list bool) (c : string) :
  column (mask_rows df m) c = option_map (mask_list m) (column df c).
Proof. unfold column, mask_rows; simpl. apply lookup_map_snd. Qed.

Lemma column_take_rows (df : DataFrame) (ix : list nat) (c : string) :
  column (take_rows df ix) c = option_map (take NaN ix) (column df c).
Proof. unfold column, take_rows; simpl. apply lookup_map_snd. Qed.

Lemma column_map_cells (f : cell -> cell) (df : DataFrame) (c : string) :
  column (map_cells f df) c = option_map (map f) (column df c).
Proof. unfold column, map_cells; simpl. apply lookup_map_snd. Qed.

Lemma column_reset_index (df : DataFrame) (c : string) :
  column (reset_index df) c = column df c.
Proof. reflexivity. Qed.

Lemma column_setitem_same (df : DataFrame) (c : string) (s : Series) :
  column (setitem df c s) c = Some s.
Proof. apply lookup_set_col_same. Qed.

Lemma column_setitem_other (df : DataFrame) (c c' : string) (s : Series) :
  c <> c' -> column (setitem df c' s) c = column df c.
Proof. apply lookup_set_col_other. Qed.




Ltac invert_bind H :=
  repeat (let a := fresh "x" in
          let E := fresh "E" in
          match type of H with
          | bind _ _ = Ok _ => apply bind_ok in H; destruct H as [a [E H]]
          end).

Section FilterSortStage.

Context {P : Pandas}.

Lemma exclude_cases (exclude_values : option (list string)) (df d : DataFrame) :
  exclude exclude_values df = Ok d ->
  (d = df /\ (exclude_values = None \/ exclude_values = Some []))
  \/ exists vs sn, exclude_values = Some vs /\ vs <> []
       /\ column df "S/N" = Some sn
       /\ d = mask_rows df (map (not_excluded vs) sn).
Proof.
  unfold exclude. destruct exclude_values as [[|v vs]|].
  - intros H; inversion H; auto.
  - intros H. apply bind_ok in H. destruct H as [sn [Hsn H]].
    inversion H; subst. right. exists (v :: vs), sn.
    unfold getitem in Hsn. destruct (column df "S/N"); inversion Hsn; subst.
    repeat split; auto. discriminate.
  - intros H; inversion H; auto.
Qed.

Lemma exclude_column_Forall (Q : cell -> Prop) (exclude_values : option (list string))
    (df d : DataFrame) (c : string) (s : Series) :
  exclude exclude_values df = Ok d -> column df c = Some s -> Forall Q s ->
  exists s', column d c = Some s' /\ Forall Q s'.
Proof.
  intros H Hc HQ. apply exclude_cases in H.
  destruct H as [[-> _]|[vs [sn [_ [_ [_ ->]]]]]]; [eauto|].
  rewrite column_mask_rows, Hc. simpl. eexists; split; [reflexivity|].
  now apply mask_list_Forall.
Qed.


(** What [filter_sort] leaves in the report-time column: timestamps later
    than the cut-off, in non-increasing order. *)
Lemma filter_sort_report_time (drop_columns : list string) (file : BytesIO)
    (selected_datetime_str : string) (exclude_values : option (list string))
    (d : DataFrame) :
  filter_sort drop_columns file selected_datetime_str exclude_values = Ok d ->
  exists selected rt,
    strptime selected_datetime_str = Some selected
    /\ column d report_time = Some rt
    /\ Forall (later_than selected) rt
    /\ StronglySorted (fun a b => time_key b <= time_key a) rt.
Proof.
  unfold filter_sort. intros H. invert_bind H.
  inversion H; subst; clear H.
  destruct (strptime selected_datetime_str) as [selected|]; [|discriminate].
  inversion E3; subst; clear E3.
  unfold getitem in E6. rewrite column_setitem_same in E6.
  inversion E6; subst; clear E6.
  assert (Hf : exists s, column (mask_rows (setitem x2 report_time (map of_time x5))
                                   (map (gt_datetime x3) (map of_time x5)))
                            report_time = Some s
                         /\ Forall (later_than x3) s).
  { rewrite column_mask_rows, column_setitem_same. simpl.
    eexists; split; [reflexivity|]. rewrite mask_list_self.
    apply Forall_forall. intros c Hc. apply filter_In in Hc.
    apply gt_datetime_later, Hc. }
  destruct Hf as [s [Hs Hl]].
  destruct (exclude_column_Forall (later_than x3) _ _ _ _ _ E7 Hs Hl)
    as [s' [Hs' Hl']].
  unfold sort_values_desc in E8. apply bind_ok in E8.
  destruct E8 as [k [Hk E8]]. inversion E8; subst; clear E8.
  unfold getitem in Hk. rewrite Hs' in Hk. inversion Hk; subst k.
  exists x3, (take NaN (nargsort_desc s') s'). split; [reflexivity|].
  split.
  - now rewrite column_reset_index, column_take_rows, Hs'.
  - now apply sorted_later.
Qed.

End FilterSortStage.

(** ** The normalisation stage *)

Lemma ensure_columns_spec (order : list string) :
  forall df c,
    index (ensure_columns order df) = index df
    /\ column (ensure_columns order df) c =
       match column df c with
       | Some s => Some s
       | None => if mem c order
                 then Some (repeat NULL (length (index df)))
                 else None
       end.
Proof.
  unfold ensure_columns.
  induction order as [|n order IH]; simpl; intros df c.
  - split; [reflexivity | now destruct (column df c)].
  - destruct (mem n (columns df)) eqn:En.
    + destruct (IH df c) as [IH1 IH2]. split; [exact IH1|].
      rewrite IH2. destruct (column df c) eqn:Ec; [reflexivity|].
      unfold mem at 2. simpl. fold (mem c order).
      destruct (String.eqb_spec c n) as [->|Hne]; [|reflexivity].
      apply mem_true_iff, lookup_in in En. destruct En as [s Hs].
      unfold column in Ec. congruence.
    + destruct (IH (setitem_scalar df n NULL) c) as [IH1 IH2].
      split; [exact IH1|]. rewrite IH2. unfold setitem_scalar at 1 2.
      unfold mem at 2. simpl. fold (mem c order).
      destruct (String.eqb_spec c n) as [->|Hne].
      * rewrite column_setitem_same.
        apply mem_false_iff in En. unfold column. now rewrite (lookup_none _ _ En).
      * rewrite column_setitem_other by exact Hne. reflexivity.
Qed.

Lemma loc_assign_spec (names : list string) (v : cell) :
  forall df c,
    index (loc_assign names v df) = index df
    /\ column (loc_assign names v df) c =
       if mem c names then Some (repeat v (length (index df))) else column df c.
Proof.
  unfold loc_assign.
  induction names as [|n names IH]; simpl; intros df c; [auto|].
  destruct (IH (setitem_scalar df n v) c) as [IH1 IH2].
  split; [exact IH1|]. rewrite IH2. unfold mem. simpl. fold (mem c names).
  destruct (mem c names); simpl.
  - now rewrite orb_true_r.
  - rewrite orb_false_r. unfold setitem_scalar.
    destruct (String.eqb_spec c n) as [->|Hne].
    + apply column_setitem_same.
    + now apply column_setitem_other.
Qed.

Lemma loc_assign_columns (names : list string) (v : cell) :
  forall df, (forall c, In c names -> In c (columns df)) ->
  columns (loc_assign names v df) = columns df.
Proof.
  unfold loc_assign.
  induction names as [|n names IH]; simpl; intros df H; [reflexivity|].
  assert (E : columns (setitem_scalar df n v) = columns df).
  { unfold columns, setitem_scalar; simpl. apply names_set_col_in, H. now left. }
  rewrite IH; [exact E|]. intros c Hc. rewrite E. apply H. now right.
Qed.

Lemma columns_map_cells (f : cell -> cell) (df : DataFrame) :
  columns (map_cells f df) = columns df.
Proof. unfold columns, map_cells; simpl. apply names_map_snd. Qed.

Lemma prepare_spec (order upd : list string) (adjusted_datetime : cell)
    (df d : DataFrame) :
  (forall c, In c upd -> In c order) ->
  prepare order upd adjusted_datetime df = Ok d ->
  columns d = order /\ index d = index df
  /\ forall c, In c order ->
       exists s, column df c = Some s
         /\ column d c =
            Some (map placeholder
                    (if mem c upd
                     then repeat adjusted_datetime (length (index df))
                     else s)).
Proof.
  intros Hupd H. unfold prepare in H. apply bind_ok in H.
  destruct H as [df_reorder [Hsel H]]. inversion H; subst; clear H.
  apply select_ok in Hsel. destruct Hsel as [Hc [Hi Hcol]].
  rewrite !columns_map_cells.
  rewrite loc_assign_columns by (intros c Hin; rewrite Hc; auto).
  split; [exact Hc|]. split.
  - simpl. rewrite <- Hi. apply loc_assign_spec. exact "".
  - intros c Hin. destruct (Hcol c Hin) as [E [s Hs]].
    exists s. split; [exact Hs|].
    rewrite !column_map_cells.
    destruct (loc_assign_spec upd adjusted_datetime df_reorder c) as [_ ->].
    rewrite Hi, E, Hs.
    destruct (mem c upd); simpl; now rewrite map_map.
Qed.

Lemma normalize_metric_prepare {P : Pandas} (adjusted_datetime : cell)
    (df_filtered : DataFrame) :
  normalize_metric adjusted_datetime df_filtered =
  (df_replaced <- prepare column_order_metric columns_to_update_metric
                          adjusted_datetime
                          (ensure_columns column_order_metric df_filtered) ;;
   update_columns clean_metric columns_with_comma_or_pct df_replaced).
Proof.
  unfold normalize_metric, prepare.
  now destruct (select _ column_order_metric).
Qed.

Lemma normalize_ca_prepare {P : Pandas} (adjusted_datetime : cell)
    (df_filtered : DataFrame) :
  normalize_ca adjusted_datetime df_filtered =
  (df_replaced <- prepare column_order_ca columns_to_update_ca
                          adjusted_datetime df_filtered ;;
   df_replaced <- update_columns strip_commas columns_with_comma df_replaced ;;
   df_replaced <- update_columns convert_volume ["Water usage (gal)"] df_replaced ;;
   df_replaced <- update_columns convert_area columns_with_comma df_replaced ;;
   df_replaced <- update_columns area_to_str columns_with_comma df_replaced ;;
   df_replaced <- update_columns round_area columns_with_comma df_replaced ;;
   update_columns clean_pct columns_with_pct df_replaced).
Proof.
  unfold normalize_ca, prepare.
  now destruct (select _ column_order_ca).
Qed.

Lemma incl_by_mem (l l' : list string) :
  forallb (fun c => mem c l') l = true -> forall c, In c l -> In c l'.
Proof.
  rewrite forallb_forall. intros H c Hc. apply mem_true_iff. now apply H.
Qed.

Ltac in_list := apply mem_true_iff; reflexivity.
Ltac not_in_list := apply mem_false_iff; reflexivity.

Section Untouched.

Context {P : Pandas}.

(** Columns outside the update and cleanup lists leave the metric pipeline
    as they entered it, placeholders apart. *)
Lemma normalize_metric_untouched (adjusted_datetime : cell)
    (df_filtered out : DataFrame) (c : string) (s : Series) :
  normalize_metric adjusted_datetime df_filtered = Ok out ->
  In c column_order_metric ->
  mem c columns_to_update_metric = false ->
  mem c columns_with_comma_or_pct = false ->
  column df_filtered c = Some s ->
  column out c = Some (map placeholder s).
Proof.
  rewrite normalize_metric_prepare. intros H Hin Hupd Hclean Hs.
  apply bind_ok in H. destruct H as [d [Hd H]].
  apply prepare_spec in Hd; [|now apply incl_by_mem].
  destruct Hd as [_ [_ Hcol]]. destruct (Hcol c Hin) as [s0 [Hs0 Hc]].
  destruct (ensure_columns_spec column_order_metric df_filtered c) as [_ E].
  rewrite Hs in E. rewrite E in Hs0. inversion Hs0; subst s0.
  rewrite Hupd in Hc.
  apply update_columns_ok in H. destruct H as [_ [_ [H _]]].
  rewrite H; [exact Hc | now apply mem_false_iff].
Qed.

Lemma normalize_ca_untouched (adjusted_datetime : cell)
    (df_filtered out : DataFrame) (c : string) (s : Series) :
  normalize_ca adjusted_datetime df_filtered = Ok out ->
  In c column_order_ca ->
  mem c columns_to_update_ca = false ->
  mem c columns_with_comma = false ->
  mem c columns_with_pct = false ->
  c <> "Water usage (gal)" ->
  column df_filtered c = Some s ->
  column out c = Some (map placeholder s).
Proof.
  rewrite normalize_ca_prepare. intros H Hin Hupd Hcomma Hpct Hw Hs.
  apply bind_ok in H. destruct H as [d [Hd H]].
  apply prepare_spec in Hd; [|now apply incl_by_mem].
  destruct Hd as [_ [_ Hcol]]. destruct (Hcol c Hin) as [s0 [Hs0 Hc]].
  rewrite Hs in Hs0. inversion Hs0; subst s0. rewrite Hupd in Hc.
  apply mem_false_iff in Hcomma, Hpct.
  invert_bind H.
  repeat match goal with
         | E : update_columns _ _ _ = Ok _ |- _ =>
             apply update_columns_ok in E; destruct E as [_ [_ [E _]]]
         end.
  rewrite H by exact Hpct. rewrite E3 by exact Hcomma.
  rewrite E2 by exact Hcomma. rewrite E1 by exact Hcomma.
  rewrite E0 by (simpl; intuition congruence).
  rewrite E by exact Hcomma. exact Hc.
Qed.

Lemma placeholder_later (selected : Z) (rt : Series) :
  Forall (later_than selected) rt -> map placeholder rt = rt.
Proof.
  induction 1 as [|c rt [t [-> _]] _ IH]; simpl; [reflexivity | now rewrite IH].
Qed.

End Untouched.

(** ** C2 and C3: the report-time column *)

Lemma later_times (selected : Z) (rt : Series) :
  Forall (later_than selected) rt ->
  exists ts, rt = map VTime ts /\ map time_key rt = ts.
Proof.
  induction 1 as [|c rt [t [-> _]] _ [ts [-> E]]].
  - now exists [].
  - exists (t :: ts). simpl. now rewrite E.
Qed.

Lemma StronglySorted_map_inv {A B : Type} (R : B -> B -> Prop) (f : A -> B)
    (l : list A) :
  StronglySorted (fun a b => R (f a) (f b)) l -> StronglySorted R (map f l).
Proof.
  induction 1 as [|a l _ IH Ha]; simpl; constructor; [exact IH|].
  now rewrite Forall_map.
Qed.

Section ReportTime.

Context {P : Pandas}.

Lemma report_times_intro (selected_datetime_str : string) (selected : Z)
    (rt : Series) :
  strptime selected_datetime_str = Some selected ->
  Forall (later_than selected) rt ->
  StronglySorted (fun a b => time_key b <= time_key a) rt ->
  report_times P selected_datetime_str (Some rt).
Proof.
  intros Hsel Hl Hs. destruct (later_times _ _ Hl) as [ts [-> Ets]].
  exists selected, ts. repeat split; auto.
  - rewrite Forall_map in Hl. eapply Forall_impl; [|exact Hl].
    intros t [t' [E Ht]]. now inversion E; subst.
  - rewrite <- Ets. now apply StronglySorted_map_inv.
Qed.

Lemma process_report_times (file : BytesIO) (selected_datetime_str : string)
    (adjusted_datetime : cell) (exclude_values : option (list string))
    (out : DataFrame) :
  process_data file selected_datetime_str adjusted_datetime exclude_values = Ok out
  \/ process_ca_data file selected_datetime_str adjusted_datetime exclude_values
     = Ok out ->
  report_times P selected_datetime_str (column out report_time).
Proof.
  intros [H|H].
  - unfold process_data in H. apply bind_ok in H.
    destruct H as [df_filtered [Hf Hn]].
    apply filter_sort_report_time in Hf.
    destruct Hf as [selected [rt [Hsel [Hrt [Hl Hs]]]]].
    rewrite (normalize_metric_untouched _ _ _ report_time rt Hn);
      auto; try reflexivity; try in_list.
    rewrite (placeholder_later _ _ Hl).
    now apply (report_times_intro _ selected).
  - unfold process_ca_data in H. apply bind_ok in H.
    destruct H as [df_filtered [Hf Hn]].
    apply filter_sort_report_time in Hf.
    destruct Hf as [selected [rt [Hsel [Hrt [Hl Hs]]]]].
    rewrite (normalize_ca_untouched _ _ _ report_time rt Hn);
      auto; try reflexivity; try in_list; try discriminate.
    rewrite (placeholder_later _ _ Hl).
    now apply (report_times_intro _ selected).
Qed.

End ReportTime.

(** ** The shape of the returned frames *)

Section Shape.

Context {P : Pandas}.

(** [process_data] returns the columns of [column_order], the two
    crystallisation columns filled with the adjusted value. *)
Lemma process_data_shape (file : BytesIO) (selected_datetime_str : string)
    (adjusted_datetime : cell) (exclude_values : option (list string))
    (out : DataFrame) :
  process_data file selected_datetime_str adjusted_datetime exclude_values = Ok out ->
  columns out = column_order_metric
  /\ forall c, In c columns_to_update_metric ->
       column out c =
       Some (map placeholder (repeat adjusted_datetime (length (index out)))).
Proof.
  unfold process_data. intros H. apply bind_ok in H.
  destruct H as [df_filtered [_ H]].
  rewrite normalize_metric_prepare in H. apply bind_ok in H.
  destruct H as [d [Hd H]].
  apply prepare_spec in Hd; [|now apply incl_by_mem].
  destruct Hd as [Hc [Hi Hcol]].
  apply update_columns_ok in H. destruct H as [H1 [H2 [H3 _]]].
  split; [congruence|].
  intros c Hin.
  assert (Hm : mem c columns_to_update_metric = true) by now apply mem_true_iff.
  destruct (Hcol c) as [s [_ E]].
  { clear Hm. revert c Hin. now apply incl_by_mem. }
  rewrite Hm in E. rewrite H3, E, H2, Hi; [reflexivity|].
  destruct Hin as [<-|[<-|[]]]; not_in_list.
Qed.

Lemma process_ca_data_shape (file : BytesIO) (selected_datetime_str : string)
    (adjusted_datetime : cell) (exclude_values : option (list string))
    (out : DataFrame) :
  process_ca_data file selected_datetime_str adjusted_datetime exclude_values
  = Ok out ->
  columns out = column_order_ca
  /\ forall c, In c columns_to_update_ca ->
       column out c =
       Some (map placeholder (repeat adjusted_datetime (length (index out)))).
Proof.
  unfold process_ca_data. intros H. apply bind_ok in H.
  destruct H as [df_filtered [_ H]].
  rewrite normalize_ca_prepare in H. apply bind_ok in H.
  destruct H as [d [Hd H]].
  apply prepare_spec in Hd; [|now apply incl_by_mem].
  destruct Hd as [Hc [Hi Hcol]].
  invert_bind H.
  repeat match goal with
         | E : update_columns _ _ _ = Ok _ |- _ =>
             apply update_columns_ok in E; destruct E as [? [? [? _]]]
         end.
  split; [congruence|].
  intros c Hin.
  assert (Hm : mem c columns_to_update_ca = true) by now apply mem_true_iff.
  destruct (Hcol c) as [s [_ Ec]].
  { clear Hm. revert c Hin. now apply incl_by_mem. }
  rewrite Hm in Ec.
  assert (Hidx : index out = index df_filtered) by congruence.
  rewrite Hidx.
  repeat match goal with
         | E : forall c, ~ In c _ -> column _ c = column _ c |- _ =>
             rewrite E by (destruct Hin as [<-|[<-|[]]]; not_in_list); clear E
         end.
  exact Ec.
Qed.

End Shape.

(** ** The schema finaliser *)

Lemma process_uploaded_file_finalize {P : Pandas} (uploaded_file : BytesIO)
    (selected_datetime : string) (adjusted_datetime : cell)
    (selected_server : string) (exclude_values : option (list string)) :
  process_uploaded_file uploaded_file selected_datetime adjusted_datetime
                        selected_server exclude_values =
  (df_processed <-
     (if String.eqb selected_server "GS CA" then process_ca_data else process_data)
       uploaded_file selected_datetime adjusted_datetime exclude_values ;;
   finalize (mem selected_server ["GS SGV2"; "GS AUS"])
            (negb (String.eqb selected_server "GS SGV1")) df_processed).
Proof. reflexivity. Qed.

Ltac explicit_columns df Hc :=
  let idx := fresh "idx" in
  let cs := fresh "cs" in
  destruct df as [idx cs]; unfold columns in Hc; simpl in Hc;
  repeat (let n := fresh "n" in
          let s := fresh "s" in
          destruct cs as [|[n s] cs]; [simpl in Hc; discriminate Hc|];
          simpl in Hc; injection Hc as -> Hc);
  destruct cs; [clear Hc | simpl in Hc; discriminate Hc].

Lemma finalize_metric (pause two : bool) (df final : DataFrame) :
  columns df = column_order_metric ->
  finalize pause two df = Ok final ->
  columns final = schema pause two
  /\ index final = index df
  /\ column final "created_at" = column df "Planned crystallization area (㎡)"
  /\ column final "updated_at" = column df "Actual crystallization area (㎡)"
  /\ column final "task_report_received" = column df report_time
  /\ column final "serial_number" = column df "S/N"
  /\ (pause = true ->
      column final "pause_time" = Some (repeat NULL (length (index df)))).
Proof.
  intros Hc H. unfold column_order_metric in Hc. explicit_columns df Hc.
  destruct pause, two; vm_compute in H; injection H as <-;
    repeat split; try discriminate; intros; vm_compute; reflexivity.
Qed.

Lemma finalize_ca (pause two : bool) (df final : DataFrame) :
  columns df = column_order_ca ->
  finalize pause two df = Ok final ->
  columns final = schema pause two
  /\ index final = index df
  /\ column final "created_at" = column df "Planned crystallization area (ft²)"
  /\ column final "updated_at" = column df "Actual crystallization area (ft²)"
  /\ column final "task_report_received" = column df report_time
  /\ column final "serial_number" = column df "S/N"
  /\ (pause = true ->
      column final "pause_time" = Some (repeat NULL (length (index df)))).
Proof.
  intros Hc H. unfold column_order_ca in Hc. explicit_columns df Hc.
  destruct pause, two; vm_compute in H; injection H as <-;
    repeat split; try discriminate; intros; vm_compute; reflexivity.
Qed.

Lemma placeholder_fixed (v : cell) :
  v <> VStr "-" -> isna v = false -> placeholder v = v.
Proof.
  intros Hd Hn. unfold placeholder, replace_cell, fillna_cell.
  destruct v as [|s| | |]; simpl in *; try reflexivity; try discriminate.
  destruct (String.eqb_spec s "-") as [->|_]; [congruence | reflexivity].
Qed.

Lemma map_repeat {A B : Type} (f : A -> B) (a : A) (n : nat) :
  map f (repeat a n) = repeat (f a) n.
Proof. induction n; simpl; [reflexivity | now f_equal]. Qed.

Lemma uploaded_report_times {P : Pandas} (uploaded_file : BytesIO)
    (selected_datetime : string) (adjusted_datetime : cell)
    (selected_server : string) (exclude_values : option (list string))
    (out : DataFrame) :
  process_uploaded_file uploaded_file selected_datetime adjusted_datetime
                        selected_server exclude_values = Ok out ->
  report_times P selected_datetime (column out "task_report_received").
Proof.
  intros H. rewrite process_uploaded_file_finalize in H.
  apply bind_ok in H. destruct H as [df [Hp Hf]].
  destruct (String.eqb selected_server "GS CA").
  - pose proof (process_report_times _ _ _ _ _ (or_intror Hp)) as K.
    apply process_ca_data_shape in Hp. destruct Hp as [Hc _].
    apply finalize_ca in Hf; [|exact Hc].
    destruct Hf as [_ [_ [_ [_ [E _]]]]]. now rewrite E.
  - pose proof (process_report_times _ _ _ _ _ (or_introl Hp)) as K.
    apply process_data_shape in Hp. destruct Hp as [Hc _].
    apply finalize_metric in Hf; [|exact Hc].
    destruct Hf as [_ [_ [_ [_ [E _]]]]]. now rewrite E.
Qed.

(** C2.  In every frame returned by [process_data] or [process_ca_data],
    each value of the "Receive task report time" column is a timestamp
    strictly later than the cut-off that [strptime] reads from the
    caller's "YYYY-MM-DD HH:MM:SS" string, and so is each value of
    [task_report_received] in a frame returned by [process_uploaded_file]:
    rows at or before the cut-off are not in the output. *)
Theorem report_time_after_cutoff {P : Pandas} (file : BytesIO)
    (selected_datetime_str : string) (adjusted_datetime : cell)
    (exclude_values : option (list string)) (out : DataFrame) :
  (process_data file selected_datetime_str adjusted_datetime exclude_values
   = Ok out
   \/ process_ca_data file selected_datetime_str adjusted_datetime
                      exclude_values = Ok out ->
   exists selected ts,
     strptime selected_datetime_str = Some selected
     /\ column out report_time = Some (map VTime ts)
     /\ Forall (fun t => selected < t) ts)
  /\ (forall selected_server,
        process_uploaded_file file selected_datetime_str adjusted_datetime
                              selected_server exclude_values = Ok out ->
        exists selected ts,
          strptime selected_datetime_str = Some selected
          /\ column out "task_report_received" = Some (map VTime ts)
          /\ Forall (fun t => selected < t) ts).
Proof.
  split.
  - intros H. apply process_report_times in H.
    destruct H as [selected [ts [H1 [H2 [H3 _]]]]]. eauto.
  - intros selected_server H. apply uploaded_report_times in H.
    destruct H as [selected [ts [H1 [H2 [H3 _]]]]]. eauto.
Qed.

Lemma report_time_after_cutoff_witness :
  process_data (P := numpy_pandas) Sample.metric_file Sample.cutoff
               Sample.adjusted None = Ok Runs.metric_out
  /\ exists selected ts,
       strptime (Pandas := numpy_pandas) Sample.cutoff = Some selected
       /\ column Runs.metric_out report_time = Some (map VTime ts)
       /\ Forall (fun t => selected < t) ts.
Proof.
  assert (H : process_data (P := numpy_pandas) Sample.metric_file Sample.cutoff
                Sample.adjusted None = Ok Runs.metric_out)
    by (vm_compute; reflexivity).
  split; [exact H|].
  apply (proj1 (@report_time_after_cutoff numpy_pandas Sample.metric_file
                  Sample.cutoff Sample.adjusted None Runs.metric_out)).
  left. exact H.
Defined.




(** ** C4: the crystallisation columns *)

(** C4.  For every server identity, in every frame returned by
    [process_uploaded_file] the columns [created_at] and [updated_at] hold
    the caller's adjusted timestamp in every row, whatever the source
    cells were.  The adjusted value is a timestamp: it is neither missing
    nor the placeholder "-". *)
Theorem created_updated_are_adjusted {P : Pandas} (uploaded_file : BytesIO)
    (selected_datetime : string) (adjusted_datetime : cell)
    (selected_server : string) (exclude_values : option (list string))
    (out : DataFrame) :
  adjusted_datetime <> VStr "-" ->
  isna adjusted_datetime = false ->
  process_uploaded_file uploaded_file selected_datetime adjusted_datetime
                        selected_server exclude_values = Ok out ->
  column out "created_at"
  = Some (repeat adjusted_datetime (length (index out)))
  /\ column out "updated_at"
     = Some (repeat adjusted_datetime (length (index out))).
Proof.
  intros Hd Hn H. rewrite process_uploaded_file_finalize in H.
  apply bind_ok in H. destruct H as [df [Hp Hf]].
  destruct (String.eqb selected_server "GS CA").
  - apply process_ca_data_shape in Hp. destruct Hp as [Hc Hu].
    apply finalize_ca in Hf; [|exact Hc].
    destruct Hf as [_ [Hi [H1 [H2 _]]]].
    rewrite H1, H2, Hi, !Hu by (simpl; auto).
    now rewrite map_repeat, placeholder_fixed.
  - apply process_data_shape in Hp. destruct Hp as [Hc Hu].
    apply finalize_metric in Hf; [|exact Hc].
    destruct Hf as [_ [Hi [H1 [H2 _]]]].
    rewrite H1, H2, Hi, !Hu by (simpl; auto).
    now rewrite map_repeat, placeholder_fixed.
Qed.

(** ** C9 and C10: the pause-time column *)

(** C9.  For the server identities "GS SGV2" and "GS AUS" the frame
    returned by [process_uploaded_file] has the canonical columns with
    [pause_time] immediately after [total_time], and [pause_time] is
    "NULL" in every row; for any other server identity the frame has no
    [pause_time] column. *)
Theorem pause_time_column {P : Pandas} (uploaded_file : BytesIO)
    (selected_datetime : string) (adjusted_datetime : cell)
    (selected_server : string) (exclude_values : option (list string))
    (out : DataFrame) :
  process_uploaded_file uploaded_file selected_datetime adjusted_datetime
                        selected_server exclude_values = Ok out ->
  (selected_server = "GS SGV2" \/ selected_server = "GS AUS" ->
   columns out = schema true true
   /\ (exists pre post,
         columns out = (pre ++ "total_time" :: "pause_time" :: post)%list
         /\ ~ In "total_time" pre /\ ~ In "pause_time" post)
   /\ column out "pause_time" = Some (repeat NULL (length (index out))))
  /\ (selected_server <> "GS SGV2" /\ selected_server <> "GS AUS" ->
      ~ In "pause_time" (columns out)).
Proof.
  intros H. rewrite process_uploaded_file_finalize in H.
  apply bind_ok in H. destruct H as [df [Hp Hf]].
  split.
  - intros Hs.
    assert (E1 : String.eqb selected_server "GS CA" = false)
      by (destruct Hs as [-> | ->]; reflexivity).
    assert (E2 : mem selected_server ["GS SGV2"; "GS AUS"] = true)
      by (destruct Hs as [-> | ->]; reflexivity).
    assert (E3 : negb (String.eqb selected_server "GS SGV1") = true)
      by (destruct Hs as [-> | ->]; reflexivity).
    rewrite E1 in Hp. rewrite E2, E3 in Hf.
    apply process_data_shape in Hp. destruct Hp as [Hc _].
    apply finalize_metric in Hf; [|exact Hc].
    destruct Hf as [Hcols [Hi [_ [_ [_ [_ Hpause]]]]]].
    split; [exact Hcols|]. split.
    + exists (removelast canonical_head), (canonical_tail ++ ["job_id"; "vendor"])%list.
      rewrite Hcols. repeat split.
      * apply mem_false_iff. reflexivity.
      * apply mem_false_iff. reflexivity.
    + rewrite Hi. now apply Hpause.
  - intros [Hs1 Hs2].
    assert (E2 : mem selected_server ["GS SGV2"; "GS AUS"] = false).
    { unfold mem; simpl.
      destruct (String.eqb_spec selected_server "GS SGV2"); [contradiction|].
      destruct (String.eqb_spec selected_server "GS AUS"); [contradiction|].
      reflexivity. }
    rewrite E2 in Hf.
    assert (Hcols : columns out
                    = schema false (negb (String.eqb selected_server "GS SGV1"))).
    { destruct (String.eqb selected_server "GS CA").
      - apply process_ca_data_shape in Hp. destruct Hp as [Hc _].
        apply finalize_ca in Hf; [|exact Hc]. tauto.
      - apply process_data_shape in Hp. destruct Hp as [Hc _].
        apply finalize_metric in Hf; [|exact Hc]. tauto. }
    rewrite Hcols. apply mem_false_iff.
    now destruct (String.eqb selected_server "GS SGV1").
Qed.

(** C10.  When [total_time] or [water_usage] is not a column of its
    argument, [addPauseTimeNullCol] returns the argument as it is: no
    [pause_time] column is inserted and nothing is raised. *)
Theorem addPauseTimeNullCol_without_anchor (df : DataFrame) :
  ~ In "total_time" (columns df) \/ ~ In "water_usage" (columns df) ->
  addPauseTimeNullCol df = Ok df.
Proof.
  intros H. unfold addPauseTimeNullCol.
  destruct H as [H|H]; apply mem_false_iff in H; rewrite H.
  - reflexivity.
  - now rewrite andb_false_r.
Qed.

(** ** C8: the exclusion list *)


Lemma well_formed_column (df : DataFrame) (c : string) (s : Series) :
  well_formed df -> column df c = Some s -> length s = length (index df).
Proof.
  unfold well_formed, column. generalize (length (index df)). intros n H.
  induction H as [|p l Hp _ IH]; simpl; [discriminate|].
  destruct p as [n0 s0]. destruct (String.eqb c n0); [|exact IH].
  intros E; injection E as <-. exact Hp.
Qed.


Lemma well_formed_setitem (df : DataFrame) (c : string) (s : Series) :
  well_formed df -> length s = length (index df) ->
  well_formed (setitem df c s).
Proof.
  unfold well_formed, setitem; simpl. generalize (length (index df)).
  intros n H Hs. induction H as [|p l Hp Hl IH]; simpl.
  - repeat constructor. exact Hs.
  - destruct p as [n0 s0]. destruct (String.eqb c n0); constructor; auto.
Qed.


Section Exclusion.

Context {P : Pandas}.











End Exclusion.






(** ** The numeric columns *)

Section Numeric.

Context {P : Pandas}.

Lemma NoDup_columns_with_comma : NoDup columns_with_comma.
Proof.
  unfold columns_with_comma.
  repeat (constructor; [apply mem_false_iff; reflexivity|]). constructor.
Qed.

Lemma NoDup_columns_with_pct : NoDup columns_with_pct.
Proof.
  unfold columns_with_pct.
  repeat (constructor; [apply mem_false_iff; reflexivity|]). constructor.
Qed.

Lemma NoDup_columns_with_comma_or_pct : NoDup columns_with_comma_or_pct.
Proof.
  unfold columns_with_comma_or_pct.
  repeat (constructor; [apply mem_false_iff; reflexivity|]). constructor.
Qed.

(** In the metric pipeline each cleanup column is [clean_metric] of the
    source column with the placeholders replaced; a column the source
    lacks enters as a column of "NULL". *)
Lemma normalize_metric_cleaned (adjusted_datetime : cell)
    (df_filtered out : DataFrame) (c : string) :
  normalize_metric adjusted_datetime df_filtered = Ok out ->
  In c columns_with_comma_or_pct ->
  exists s s',
    column out c = Some s'
    /\ clean_metric (map placeholder s) = Ok s'
    /\ s = match column df_filtered c with
           | Some s0 => s0
           | None => repeat NULL (length (index df_filtered))
           end.
Proof.
  rewrite normalize_metric_prepare. intros H Hin.
  apply bind_ok in H. destruct H as [d [Hd H]].
  apply prepare_spec in Hd; [|now apply incl_by_mem].
  destruct Hd as [_ [_ Hcol]].
  assert (Ho : In c column_order_metric).
  { revert c Hin. now apply incl_by_mem. }
  destruct (Hcol c Ho) as [s0 [Hs0 Hc]].
  assert (Hu : mem c columns_to_update_metric = false).
  { unfold columns_with_comma_or_pct in Hin. simpl in Hin.
    repeat (destruct Hin as [<-|Hin]; [reflexivity|]). contradiction. }
  rewrite Hu in Hc.
  destruct (update_columns_one clean_metric _ _ _ c
              NoDup_columns_with_comma_or_pct Hin H) as [s1 [s' [E1 [E2 E3]]]].
  rewrite Hc in E1. inversion E1; subst s1.
  exists s0, s'. repeat split; auto.
  destruct (ensure_columns_spec column_order_metric df_filtered c) as [_ E].
  rewrite E in Hs0. destruct (column df_filtered c); [congruence|].
  apply mem_true_iff in Ho. rewrite Ho in Hs0. congruence.
Qed.

(** The three stages of the imperial cleanup, column by column. *)
Lemma normalize_ca_columns (adjusted_datetime : cell)
    (df_filtered out : DataFrame) :
  normalize_ca adjusted_datetime df_filtered = Ok out ->
  (forall c, In c columns_with_comma ->
     exists s s', column df_filtered c = Some s /\ column out c = Some s'
                  /\ area_column (map placeholder s) = Ok s')
  /\ (exists s s', column df_filtered "Water usage (gal)" = Some s
                   /\ column out "Water usage (gal)" = Some s'
                   /\ convert_volume (map placeholder s) = Ok s')
  /\ (forall c, In c columns_with_pct ->
        exists s s', column df_filtered c = Some s /\ column out c = Some s'
                     /\ clean_pct (map placeholder s) = Ok s').
Proof.
  rewrite normalize_ca_prepare. intros H.
  apply bind_ok in H. destruct H as [d [Hd H]].
  apply prepare_spec in Hd; [|now apply incl_by_mem].
  destruct Hd as [_ [_ Hcol]].
  invert_bind H.
  rename E into Hstrip, E0 into Hvol, E1 into Harea, E2 into Hstr,
    E3 into Hround, H into Hpct.
  pose proof (update_columns_ok _ _ _ _ Hstrip) as [_ [_ [Kstrip _]]].
  pose proof (update_columns_ok _ _ _ _ Hvol) as [_ [_ [Kvol _]]].
  pose proof (update_columns_ok _ _ _ _ Harea) as [_ [_ [Karea _]]].
  pose proof (update_columns_ok _ _ _ _ Hstr) as [_ [_ [Kstr _]]].
  pose proof (update_columns_ok _ _ _ _ Hround) as [_ [_ [Kround _]]].
  pose proof (update_columns_ok _ _ _ _ Hpct) as [_ [_ [Kpct _]]].
  split; [|split].
  - intros c Hin.
    assert (Ho : In c column_order_ca) by (revert c Hin; now apply incl_by_mem).
    assert (Hu : mem c columns_to_update_ca = false).
    { simpl in Hin. repeat (destruct Hin as [<-|Hin]; [reflexivity|]).
      contradiction. }
    assert (Hw : ~ In c ["Water usage (gal)"]).
    { simpl in Hin. repeat (destruct Hin as [<-|Hin]; [not_in_list|]).
      contradiction. }
    assert (Hp : ~ In c columns_with_pct).
    { simpl in Hin. repeat (destruct Hin as [<-|Hin]; [not_in_list|]).
      contradiction. }
    destruct (Hcol c Ho) as [s [Hs Hc]]. rewrite Hu in Hc.
    destruct (update_columns_one _ _ _ _ c NoDup_columns_with_comma Hin Hstrip)
      as [a1 [b1 [A1 [B1 C1]]]].
    destruct (update_columns_one _ _ _ _ c NoDup_columns_with_comma Hin Harea)
      as [a2 [b2 [A2 [B2 C2]]]].
    destruct (update_columns_one _ _ _ _ c NoDup_columns_with_comma Hin Hstr)
      as [a3 [b3 [A3 [B3 C3]]]].
    destruct (update_columns_one _ _ _ _ c NoDup_columns_with_comma Hin Hround)
      as [a4 [b4 [A4 [B4 C4]]]].
    rewrite Hc in A1. inversion A1; subst a1.
    rewrite (Kvol c Hw), C1 in A2. inversion A2; subst a2.
    rewrite C2 in A3. inversion A3; subst a3.
    rewrite C3 in A4. inversion A4; subst a4.
    exists s, b4. repeat split; auto.
    + now rewrite (Kpct c Hp).
    + unfold area_column. rewrite B1. cbn [bind]. rewrite B2. cbn [bind].
      rewrite B3. cbn [bind]. exact B4.
  - assert (Ho : In "Water usage (gal)" column_order_ca) by in_list.
    destruct (Hcol _ Ho) as [s [Hs Hc]].
    change (mem "Water usage (gal)" columns_to_update_ca) with false in Hc.
    assert (Hin : In "Water usage (gal)" ["Water usage (gal)"]) by now left.
    assert (Hnd : NoDup ["Water usage (gal)"]) by (repeat constructor; simpl; tauto).
    destruct (update_columns_one _ _ _ _ _ Hnd Hin Hvol) as [a [b [A [B C]]]].
    rewrite Kstrip, Hc in A by not_in_list. inversion A; subst a.
    exists s, b. repeat split; auto.
    rewrite Kpct, Kround, Kstr, Karea by not_in_list. exact C.
  - intros c Hin.
    assert (Ho : In c column_order_ca) by (revert c Hin; now apply incl_by_mem).
    assert (Hu : mem c columns_to_update_ca = false).
    { simpl in Hin. repeat (destruct Hin as [<-|Hin]; [reflexivity|]).
      contradiction. }
    assert (Hw : ~ In c ["Water usage (gal)"]).
    { simpl in Hin. repeat (destruct Hin as [<-|Hin]; [not_in_list|]).
      contradiction. }
    assert (Hp : ~ In c columns_with_comma).
    { simpl in Hin. repeat (destruct Hin as [<-|Hin]; [not_in_list|]).
      contradiction. }
    destruct (Hcol c Ho) as [s [Hs Hc]]. rewrite Hu in Hc.
    destruct (update_columns_one _ _ _ _ c NoDup_columns_with_pct Hin Hpct)
      as [a [b [A [B C]]]].
    rewrite Kround, Kstr, Karea, Kvol, Kstrip, Hc in A by assumption.
    inversion A; subst a. exists s, b. auto.
Qed.

End Numeric.





Section Conversions.

Context {P : Pandas}.




End Conversions.

(** ** C5: the imperial conversions *)



(** ** C6: the numeric cleanup *)

Section Cleanup.

Context {P : Pandas}.

Lemma metric_chain (s : Series) :
  map (replace_cell (VStr "100.00") (VStr "100"))
      (map (replace_cell (VStr "0.00") (VStr "0"))
           (map str_replace_comma (astype_str s)))
  = map (fun x => VStr (metric_text x)) s.
Proof.
  unfold astype_str. rewrite !map_map. apply map_ext. intros x.
  unfold metric_text, replace_cell; simpl.
  destruct (String.eqb (remove_commas (py_str x)) "0.00"); simpl; [reflexivity|].
  now destruct (String.eqb (remove_commas (py_str x)) "100.00").
Qed.

Lemma astype_float_cell_is_float (c y : cell) :
  astype_float_cell c = Ok y -> is_float y = true.
Proof.
  destruct c as [|s|z|q|t]; simpl; intros H; inversion H; try reflexivity.
  destruct (py_float s) as [c|] eqn:E; inversion H; subst.
  now apply (py_float_is_float s).
Qed.

Lemma float_no_comma (s : Series) :
  Forall (fun y => is_float y = true) s ->
  Forall (fun y => retains_comma y = false) s.
Proof.
  intros H. eapply Forall_impl; [|exact H]. now intros [].
Qed.

Lemma numeric_no_comma (s : Series) :
  Forall (fun y => is_numeric y = true) s ->
  Forall (fun y => retains_comma y = false) s.
Proof.
  intros H. eapply Forall_impl; [|exact H]. now intros [].
Qed.

Lemma clean_metric_spec (s s' : Series) :
  clean_metric s = Ok s' ->
  match dtype_of s with
  | object | float64 =>
      Forall2 (fun x y => py_float (metric_text x) = Some y) s s'
      /\ Forall (fun y => is_float y = true) s'
  | int64 | datetime64 => s' = s
  end.
Proof.
  unfold clean_metric. rewrite metric_chain.
  assert (K : astype_float (map (fun x => VStr (metric_text x)) s) = Ok s' ->
              Forall2 (fun x y => py_float (metric_text x) = Some y) s s'
              /\ Forall (fun y => is_float y = true) s').
  { unfold astype_float. intros H. apply mapM_ok_Forall2 in H.
    remember (map (fun x => VStr (metric_text x)) s) as l eqn:El.
    revert s El. induction H as [|c y l l' Hc _ IH]; intros [|x s] El;
      simpl in El; inversion El; subst.
    - split; constructor.
    - destruct (IH s eq_refl) as [IH1 IH2]. split; constructor; auto.
      + simpl in Hc. destruct (py_float (metric_text x)); inversion Hc.
        reflexivity.
      + now apply (astype_float_cell_is_float (VStr (metric_text x))). }
  destruct (dtype_of s); auto; intros H; now inversion H.
Qed.

Lemma dtype_no_comma (s : Series) :
  dtype_of s = int64 \/ dtype_of s = datetime64 ->
  Forall (fun y => retains_comma y = false) s.
Proof.
  unfold dtype_of. intros H.
  destruct (forallb is_int s) eqn:E1.
  - rewrite forallb_forall in E1. apply Forall_forall. intros y Hy.
    apply E1 in Hy. now destruct y.
  - destruct (forallb is_float s); [destruct H; discriminate|].
    destruct (forallb is_time s) eqn:E3; [|destruct H; discriminate].
    rewrite forallb_forall in E3. apply Forall_forall. intros y Hy.
    apply E3 in Hy. now destruct y.
Qed.

Lemma clean_metric_no_comma (s s' : Series) :
  clean_metric s = Ok s' -> Forall (fun y => retains_comma y = false) s'.
Proof.
  intros H. pose proof (clean_metric_spec s s' H) as K.
  destruct (dtype_of s) eqn:E.
  - now apply float_no_comma.
  - now apply float_no_comma.
  - subst s'. apply dtype_no_comma. now left.
  - subst s'. apply dtype_no_comma. now right.
Qed.

Lemma clean_pct_spec (s s' : Series) :
  clean_pct s = Ok s' ->
  Forall2 (fun x y => astype_float_cell (pct_cell x) = Ok y) s s'
  /\ Forall (fun y => is_float y = true) s'.
Proof.
  unfold clean_pct, astype_float. rewrite map_map. intros H.
  apply mapM_ok_Forall2 in H.
  remember (map _ s) as l eqn:El.
  revert s El. induction H as [|c y l l' Hc _ IH]; intros [|x s] El;
    simpl in El; inversion El; subst.
  - split; constructor.
  - destruct (IH s eq_refl) as [IH1 IH2]. split; constructor; auto.
    now apply (astype_float_cell_is_float _ _ Hc).
Qed.

Lemma to_numeric_cell_str (c y : cell) :
  (exists t, c = VStr t) -> to_numeric_cell c = Ok y -> is_numeric y = true.
Proof.
  intros [t ->]. simpl. destruct (to_numeric t) as [c|] eqn:E; intros H;
    inversion H; subst. now apply (to_numeric_is_numeric t).
Qed.

Lemma upcast_numeric (s : Series) :
  Forall (fun y => is_numeric y = true) s ->
  Forall (fun y => is_numeric y = true) (upcast s).
Proof.
  intros H. unfold upcast. destruct (forallb is_int s); [exact H|].
  rewrite Forall_map. eapply Forall_impl; [|exact H]. now intros [].
Qed.

Lemma area_column_numeric (s s' : Series) :
  area_column s = Ok s' -> Forall (fun y => is_numeric y = true) s'.
Proof.
  unfold area_column, strip_commas. cbn [bind]. intros H.
  apply bind_ok in H. destruct H as [s2 [_ H]].
  unfold area_to_str in H. cbn [bind] in H. unfold round_area in H.
  apply bind_ok in H. destruct H as [s3 [H3 H]]. inversion H; subst; clear H.
  unfold to_numeric_series in H3. apply bind_ok in H3.
  destruct H3 as [l [Hl H3]]. inversion H3; subst; clear H3.
  rewrite Forall_map.
  assert (K : Forall (fun y => is_numeric y = true) l).
  { apply mapM_ok_Forall2 in Hl. unfold astype_str in Hl.
    rewrite map_map in Hl.
    remember (map _ s2) as l0 eqn:El.
    revert s2 El. induction Hl as [|c y l0 l Hc _ IH]; intros [|x s2] El;
      simpl in El; inversion El; subst; constructor.
    - revert Hc. unfold replace_cell. simpl.
      destruct (String.eqb (py_str x) ","); apply to_numeric_cell_str; eauto.
    - now apply (IH s2). }
  apply upcast_numeric in K.
  eapply Forall_impl; [|exact K]. now intros [].
Qed.

End Cleanup.

(** C6, as stated, fails.  In the imperial pipeline the percentage columns
    are not stripped of commas: a brush value "1,000" makes
    [process_ca_data] raise, where [process_data] returns 1000.  In the
    metric pipeline a column of whole numbers is left as it is by the
    guard on the dtype: the int64 column "Filter (%)" is returned as
    integers, not coerced to floating point. *)
Lemma cleanup_not_uniform :
  process_ca_data (P := numpy_pandas) Sample.ca_file_brush Sample.cutoff
                  Sample.adjusted None
  = Err (ValueError "could not convert string to float: 1,000")
  /\ (d <- process_data (P := numpy_pandas) Sample.metric_file_brush
                        Sample.cutoff Sample.adjusted None ;;
      getitem d "Brush (%)")
     = Ok [VFloat 0%float; VFloat 55.5%float; VFloat 1000%float]
  /\ column Sample.metric_export "Filter (%)"
     = Some [VInt 10; VInt 20; VInt 30; VInt 40]
  /\ column Runs.metric_out "Filter (%)" = Some [VInt 20; VInt 30; VInt 10].
Proof. repeat split; vm_compute; reflexivity. Qed.

(** C6, amended.  Metric pipeline: each of the six cleanup columns whose
    dtype, placeholders replaced, is object or float64 becomes a float
    column, each value being [float] of its [str] with the commas removed
    and "0.00", "100.00" normalised to "0", "100"; a cleanup column of
    another dtype (int64) is returned unchanged.  Imperial pipeline: the
    three columns of [columns_with_comma] have their commas stripped and
    are converted to numbers (times 0.09290304, 3 decimals); the three
    percentage columns have "0.0" and "100.00" normalised to "0" and "100"
    and are coerced to float, commas not being stripped.  In both, no
    value of these columns in a returned frame retains a comma. *)
Theorem numeric_cleanup {P : Pandas} (file : BytesIO)
    (selected_datetime_str : string) (adjusted_datetime : cell)
    (exclude_values : option (list string)) :
  (forall df_filtered out c,
     filter_sort drop_columns_metric file selected_datetime_str exclude_values
     = Ok df_filtered ->
     process_data file selected_datetime_str adjusted_datetime exclude_values
     = Ok out ->
     In c columns_with_comma_or_pct ->
     exists s s',
       s = map placeholder
             match column df_filtered c with
             | Some s0 => s0
             | None => repeat NULL (length (index df_filtered))
             end
       /\ column out c = Some s'
       /\ Forall (fun y => retains_comma y = false) s'
       /\ match dtype_of s with
          | object | float64 =>
              Forall2 (fun x y => py_float (metric_text x) = Some y) s s'
              /\ Forall (fun y => is_float y = true) s'
          | int64 | datetime64 => s' = s
          end)
  /\ (forall df_filtered out,
        filter_sort drop_columns_ca file selected_datetime_str exclude_values
        = Ok df_filtered ->
        process_ca_data file selected_datetime_str adjusted_datetime
                        exclude_values = Ok out ->
        (forall c, In c columns_with_comma ->
           exists s s',
             column df_filtered c = Some s /\ column out c = Some s'
             /\ area_column (map placeholder s) = Ok s'
             /\ Forall (fun y => is_numeric y = true) s'
             /\ Forall (fun y => retains_comma y = false) s')
        /\ (forall c, In c columns_with_pct ->
              exists s s',
                column df_filtered c = Some s /\ column out c = Some s'
                /\ Forall2 (fun x y =>
                              astype_float_cell (pct_cell (placeholder x)) = Ok y)
                           s s'
                /\ Forall (fun y => is_float y = true) s'
                /\ Forall (fun y => retains_comma y = false) s')).
Proof.
  split.
  - intros df_filtered out c Hf H Hin.
    unfold process_data in H. apply (bind_ok_eq _ _ _ _ Hf) in H.
    destruct (normalize_metric_cleaned _ _ _ c H Hin) as [s [s' [H1 [H2 H3]]]].
    exists (map placeholder s), s'. subst s. repeat split; auto.
    + now apply (clean_metric_no_comma _ _ H2).
    + now apply clean_metric_spec.
  - intros df_filtered out Hf H.
    unfold process_ca_data in H. apply (bind_ok_eq _ _ _ _ Hf) in H.
    apply normalize_ca_columns in H. destruct H as [Harea [_ Hpct]]. split.
    + intros c Hin. destruct (Harea c Hin) as [s [s' [H1 [H2 H3]]]].
      exists s, s'. repeat split; auto.
      * now apply (area_column_numeric _ _ H3).
      * now apply numeric_no_comma, (area_column_numeric _ _ H3).
    + intros c Hin. destruct (Hpct c Hin) as [s [s' [H1 [H2 H3]]]].
      apply clean_pct_spec in H3. destruct H3 as [H3 H4].
      exists s, s'. repeat split; auto.
      * clear -H3. remember (map placeholder s) as l eqn:El.
        revert s El. induction H3; intros [|x0 s0] El; simpl in El;
          inversion El; subst; constructor; auto.
      * now apply float_no_comma.
Qed.

Lemma numeric_cleanup_witness :
  filter_sort (P := numpy_pandas) drop_columns_metric Sample.metric_file
              Sample.cutoff None = Ok Runs.metric_filtered
  /\ process_data (P := numpy_pandas) Sample.metric_file Sample.cutoff
                  Sample.adjusted None = Ok Runs.metric_out
  /\ In "Brush (%)" columns_with_comma_or_pct
  /\ exists s s',
       s = map placeholder
             match column Runs.metric_filtered "Brush (%)" with
             | Some s0 => s0
             | None => repeat NULL (length (index Runs.metric_filtered))
             end
       /\ column Runs.metric_out "Brush (%)" = Some s'
       /\ Forall (fun y => retains_comma y = false) s'
       /\ match dtype_of s with
          | object | float64 =>
              Forall2 (fun x y =>
                         py_float (Pandas := numpy_pandas)
                                  (metric_text (P := numpy_pandas) x) = Some y)
                      s s'
              /\ Forall (fun y => is_float y = true) s'
          | int64 | datetime64 => s' = s
          end.
Proof.
  assert (Hf : filter_sort (P := numpy_pandas) drop_columns_metric
                 Sample.metric_file Sample.cutoff None
               = Ok Runs.metric_filtered) by (vm_compute; reflexivity).
  assert (Ho : process_data (P := numpy_pandas) Sample.metric_file Sample.cutoff
                 Sample.adjusted None = Ok Runs.metric_out)
    by (vm_compute; reflexivity).
  assert (Hin : In "Brush (%)" columns_with_comma_or_pct) by (simpl; tauto).
  destruct (@numeric_cleanup numpy_pandas Sample.metric_file Sample.cutoff
              Sample.adjusted None) as [Hm _].
  exact (conj Hf (conj Ho (conj Hin (Hm _ _ _ Hf Ho Hin)))).
Defined.

(** ** C1: columns missing from the source *)

Section MissingColumns.

Context {P : Pandas}.

(** [process_ca_data] has no loop that adds the missing columns: it fails
    whenever a column of its column order is not in the filtered frame. *)
Lemma process_ca_data_missing_column (file : BytesIO)
    (selected_datetime_str : string) (adjusted_datetime : cell)
    (exclude_values : option (list string)) (df_filtered : DataFrame)
    (c : string) :
  filter_sort drop_columns_ca file selected_datetime_str exclude_values
  = Ok df_filtered ->
  In c column_order_ca -> ~ In c (columns df_filtered) ->
  is_ok (process_ca_data file selected_datetime_str adjusted_datetime
                         exclude_values) = false.
Proof.
  intros Hf Hin Hnot.
  destruct (process_ca_data file selected_datetime_str adjusted_datetime
              exclude_values) as [out|e] eqn:H; [|reflexivity].
  unfold process_ca_data in H. apply (bind_ok_eq _ _ _ _ Hf) in H.
  unfold normalize_ca in H. apply bind_ok in H. destruct H as [d [Hd _]].
  pose proof (select_missing df_filtered column_order_ca c Hin Hnot) as K.
  rewrite Hd in K. discriminate.
Qed.

(** [process_data] adds them: a column of its column order that is not a
    cleanup column and that the filtered frame lacks is returned as a
    column of "NULL". *)
Lemma process_data_missing_column (file : BytesIO)
    (selected_datetime_str : string) (adjusted_datetime : cell)
    (exclude_values : option (list string)) (df_filtered out : DataFrame)
    (c : string) :
  filter_sort drop_columns_metric file selected_datetime_str exclude_values
  = Ok df_filtered ->
  process_data file selected_datetime_str adjusted_datetime exclude_values
  = Ok out ->
  In c column_order_metric ->
  mem c columns_to_update_metric = false ->
  mem c columns_with_comma_or_pct = false ->
  ~ In c (columns df_filtered) ->
  column out c = Some (repeat NULL (length (index df_filtered))).
Proof.
  intros Hf H Hin Hu Hclean Hnot.
  unfold process_data in H. apply (bind_ok_eq _ _ _ _ Hf) in H.
  rewrite normalize_metric_prepare in H. apply bind_ok in H.
  destruct H as [d [Hd H]].
  apply prepare_spec in Hd; [|now apply incl_by_mem].
  destruct Hd as [_ [_ Hcol]]. destruct (Hcol c Hin) as [s [Hs Hc]].
  destruct (ensure_columns_spec column_order_metric df_filtered c) as [_ E].
  unfold column at 2 in E. rewrite (lookup_none _ _ Hnot) in E.
  apply mem_true_iff in Hin. rewrite Hin in E. rewrite E in Hs.
  inversion Hs; subst s. rewrite Hu in Hc.
  apply update_columns_ok in H. destruct H as [_ [_ [H _]]].
  rewrite H by now apply mem_false_iff. rewrite Hc, map_repeat. reflexivity.
Qed.

End MissingColumns.

(** C1 fails on the code.  An imperial export without its "Download link"
    column makes [process_ca_data] raise [KeyError] at the column
    selection, where [process_data], given the metric export without that
    column, returns it filled with "NULL".  (In [process_data] itself a
    missing cleanup column is filled with "NULL" and then fails the
    coercion to float.) *)
Theorem download_link_missing :
  process_ca_data (P := numpy_pandas) Sample.ca_file_no_link Sample.cutoff
                  Sample.adjusted None
  = Err (KeyError "Download link")
  /\ (d <- process_data (P := numpy_pandas) Sample.metric_file_no_link
                        Sample.cutoff Sample.adjusted None ;;
      getitem d "Download link")
     = Ok [VStr "NULL"; VStr "NULL"; VStr "NULL"]
  /\ process_data (P := numpy_pandas) Sample.metric_file_no_brush
                  Sample.cutoff Sample.adjusted None
     = Err (ValueError "could not convert string to float: NULL").
Proof. repeat split; vm_compute; reflexivity. Qed.

(** ** C7: the errors of the reader *)

(** C7 fails on the code.  The [ValueError] for an unsupported extension
    is raised inside the [try] block and leaves [read_file] re-raised as a
    [RuntimeError], the class a failed parse is re-raised as: every error
    of [read_file] is a [RuntimeError], the two kinds differing in the
    message only. *)
Theorem read_file_errors_are_runtime_errors :
  read_file Sample.text_file
  = Err (RuntimeError
           "An error occurred while reading the file: Unsupported file type: report.txt")
  /\ read_file Sample.broken_csv
     = Err (RuntimeError
              "An error occurred while reading the file: Error tokenizing data. C error: Expected 29 fields")
  /\ forall file : BytesIO,
       match read_file file with
       | Ok _ => True
       | Err e => class_of e = RuntimeErrorC
       end.
Proof.
  split; [reflexivity|]. split; [reflexivity|].
  intros file. unfold read_file, reraise.
  destruct (endswith (name file) ".csv").
  - now destruct (read_csv file).
  - destruct (endswith (name file) ".xls" || endswith (name file) ".xlsx").
    + now destruct (read_excel file).
    + reflexivity.
Qed.

(** ** Runs of the finished pipeline *)

Lemma created_updated_are_adjusted_witness :
  Sample.adjusted <> VStr "-"
  /\ isna Sample.adjusted = false
  /\ process_uploaded_file (P := numpy_pandas) Sample.metric_file Sample.cutoff
                           Sample.adjusted "GS SGV2" None = Ok Runs.sgv2_out
  /\ column Runs.sgv2_out "created_at"
     = Some (repeat Sample.adjusted (length (index Runs.sgv2_out)))
  /\ column Runs.sgv2_out "updated_at"
     = Some (repeat Sample.adjusted (length (index Runs.sgv2_out))).
Proof.
  assert (H1 : Sample.adjusted <> VStr "-") by discriminate.
  assert (H2 : isna Sample.adjusted = false) by reflexivity.
  assert (H3 : process_uploaded_file (P := numpy_pandas) Sample.metric_file
                 Sample.cutoff Sample.adjusted "GS SGV2" None
               = Ok Runs.sgv2_out) by (vm_compute; reflexivity).
  exact (conj H1 (conj H2 (conj H3
           (@created_updated_are_adjusted numpy_pandas _ _ _ _ _ _ H1 H2 H3)))).
Defined.

Lemma pause_time_column_witness :
  process_uploaded_file (P := numpy_pandas) Sample.metric_file Sample.cutoff
                        Sample.adjusted "GS SGV2" None = Ok Runs.sgv2_out
  /\ columns Runs.sgv2_out = schema true true
  /\ column Runs.sgv2_out "pause_time"
     = Some (repeat NULL (length (index Runs.sgv2_out))).
Proof.
  assert (H : process_uploaded_file (P := numpy_pandas) Sample.metric_file
                Sample.cutoff Sample.adjusted "GS SGV2" None
              = Ok Runs.sgv2_out) by (vm_compute; reflexivity).
  destruct (@pause_time_column numpy_pandas _ _ _ _ _ _ H) as [K _].
  destruct (K (or_introl eq_refl)) as [K1 [_ K3]].
  exact (conj H (conj K1 K3)).
Defined.

Lemma addPauseTimeNullCol_without_anchor_witness :
  (~ In "total_time" (columns Sample.metric_export)
   \/ ~ In "water_usage" (columns Sample.metric_export))
  /\ addPauseTimeNullCol Sample.metric_export = Ok Sample.metric_export.
Proof.
  assert (H : ~ In "total_time" (columns Sample.metric_export)
              \/ ~ In "water_usage" (columns Sample.metric_export)).
  { left. apply mem_false_iff. reflexivity. }
  exact (conj H (addPauseTimeNullCol_without_anchor Sample.metric_export H)).
Defined.


(** * Further properties of the module *)

(** ** The reader *)

Lemma list_ascii_of_string_app (p s : string) :
  list_ascii_of_string (p ++ s)
  = (list_ascii_of_string p ++ list_ascii_of_string s)%list.
Proof. induction p as [|a p IH]; simpl; [reflexivity | now rewrite IH]. Qed.

Lemma endswith_rev_prefix (rsuf : list ascii) :
  forall rs, endswith_rev rs rsuf = true <-> exists rest, rs = (rsuf ++ rest)%list.
Proof.
  induction rsuf as [|a rsuf IH]; intros rs.
  - split; [intros _; now exists rs | intros _; now destruct rs].
  - destruct rs as [|b rs]; cbn [endswith_rev app].
    + split; [discriminate | intros [rest H]; discriminate].
    + rewrite andb_true_iff, IH. split.
      * intros [E [rest ->]]. apply Ascii.eqb_eq in E. subst. now exists rest.
      * intros [rest H]. inversion H; subst. split; [apply Ascii.eqb_refl|].
        now exists rest.
Qed.

(** [endswith] is the suffix test of [str.endswith]. *)
Lemma endswith_iff (s suf : string) :
  endswith s suf = true <-> exists p, s = p ++ suf.
Proof.
  unfold endswith. rewrite endswith_rev_prefix. split.
  - intros [rest H]. exists (string_of_list_ascii (rev rest)).
    rewrite <- (string_of_list_ascii_of_string s).
    rewrite <- (string_of_list_ascii_of_string (_ ++ suf)). f_equal.
    rewrite list_ascii_of_string_app, list_ascii_of_string_of_list_ascii.
    rewrite <- (rev_involutive (list_ascii_of_string s)), H, rev_app_distr.
    now rewrite rev_involutive.
  - intros [p ->]. exists (rev (list_ascii_of_string p)).
    now rewrite list_ascii_of_string_app, rev_app_distr.
Qed.

(** X1.  [read_file] returns a frame exactly when the name ends in ".csv"
    and the CSV reader returns it, or the name does not end in ".csv" but
    ends in ".xls" or ".xlsx" and the Excel reader returns it: the frame
    is the reader's, untouched, the suffix test is case-sensitive, and
    ".csv" takes precedence. *)
Theorem read_file_dispatch (file : BytesIO) (df : DataFrame) :
  read_file file = Ok df <->
  ((exists p, name file = p ++ ".csv") /\ read_csv file = Ok df)
  \/ (~ (exists p, name file = p ++ ".csv")
      /\ ((exists p, name file = p ++ ".xls")
          \/ (exists p, name file = p ++ ".xlsx"))
      /\ read_excel file = Ok df).
Proof.
  unfold read_file, reraise.
  rewrite <- !endswith_iff.
  destruct (endswith (name file) ".csv").
  - destruct (read_csv file); split.
    + intros H; inversion H; subst. left. auto.
    + intros [[_ H]|[H _]]; [exact H | now elim H].
    + discriminate.
    + intros [[_ H]|[H _]]; [discriminate | now elim H].
  - destruct (endswith (name file) ".xls"), (endswith (name file) ".xlsx");
      simpl; destruct (read_excel file); split;
      try discriminate;
      try (intros H; inversion H; subst; right;
           repeat split; auto; discriminate);
      intros [[H _]|[_ [[H|H] H']]]; try discriminate; auto.
Qed.

(** ** Errors of the filter and sort stage *)

Lemma columns_mask_rows (df : DataFrame) (m : list bool) :
  columns (mask_rows df m) = columns df.
Proof. unfold columns, mask_rows; simpl. apply names_map_snd. Qed.

Lemma columns_take_rows (df : DataFrame) (ix : list nat) :
  columns (take_rows df ix) = columns df.
Proof. unfold columns, take_rows; simpl. apply names_map_snd. Qed.

Section StageErrors.

Context {P : Pandas}.

Lemma exclude_columns (exclude_values : option (list string)) (df d : DataFrame) :
  exclude exclude_values df = Ok d -> columns d = columns df.
Proof.
  intros H. apply exclude_cases in H.
  destruct H as [[-> _]|[vs [sn [_ [_ [_ ->]]]]]]; [reflexivity|].
  apply columns_mask_rows.
Qed.

Lemma exclude_key_error (exclude_values : option (list string)) (df : DataFrame)
    (e : exn) :
  exclude exclude_values df = Err e -> e = KeyError "S/N".
Proof.
  unfold exclude. destruct exclude_values as [[|v vs]|]; try discriminate.
  unfold getitem. destruct (column df "S/N"); simpl; [discriminate|].
  intros H; now inversion H.
Qed.

Lemma drop_missing (df : DataFrame) (names : list string) (c : string) :
  In c names -> ~ In c (columns df) ->
  exists k, drop df names = Err (KeyError k)
            /\ In k names /\ ~ In k (columns df).
Proof.
  intros Hin Hnot. unfold drop.
  destruct (filter (fun c => negb (mem c (columns df))) names) as [|k l] eqn:E.
  - assert (K : In c (filter (fun c => negb (mem c (columns df))) names)).
    { apply filter_In. split; [exact Hin|].
      apply mem_false_iff in Hnot. now rewrite Hnot. }
    rewrite E in K. destruct K.
  - exists k. split; [reflexivity|].
    assert (K : In k (filter (fun c => negb (mem c (columns df))) names))
      by (rewrite E; now left).
    apply filter_In in K. destruct K as [K1 K2]. split; [exact K1|].
    apply mem_false_iff. now apply negb_true_iff.
Qed.

(** The stage is strict about the administrative columns: when one of
    them is not in the frame read, it raises [KeyError]. *)
Lemma filter_sort_strict (drop_columns : list string) (file : BytesIO)
    (selected_datetime_str : string) (exclude_values : option (list string))
    (raw : DataFrame) (c : string) :
  read_file file = Ok raw -> In c drop_columns -> ~ In c (columns raw) ->
  exists k, filter_sort drop_columns file selected_datetime_str exclude_values
            = Err (KeyError k).
Proof.
  intros Hraw Hin Hnot. unfold filter_sort. rewrite Hraw. cbn [bind].
  destruct (exclude exclude_values raw) as [df1|e] eqn:E1; cbn [bind].
  - apply exclude_columns in E1. rewrite <- E1 in Hnot.
    destruct (drop_missing df1 drop_columns c Hin Hnot) as [k [Hk _]].
    rewrite Hk. cbn [bind]. now exists k.
  - apply exclude_key_error in E1. subst. now exists "S/N".
Qed.

End StageErrors.

(** X2.  The administrative columns are required: when the frame read
    lacks one of the six columns of [drop_columns], [process_data] and
    [process_ca_data] raise [KeyError] and return no table. *)
Theorem drop_columns_are_required {P : Pandas} (file : BytesIO)
    (selected_datetime_str : string) (adjusted_datetime : cell)
    (exclude_values : option (list string)) (raw : DataFrame) :
  read_file file = Ok raw ->
  (forall c, In c drop_columns_metric -> ~ In c (columns raw) ->
     exists k, process_data file selected_datetime_str adjusted_datetime
                            exclude_values = Err (KeyError k))
  /\ (forall c, In c drop_columns_ca -> ~ In c (columns raw) ->
        exists k, process_ca_data file selected_datetime_str adjusted_datetime
                                  exclude_values = Err (KeyError k)).
Proof.
  intros Hraw. split; intros c Hin Hnot.
  - destruct (filter_sort_strict drop_columns_metric file selected_datetime_str
                exclude_values raw c Hraw Hin Hnot) as [k Hk].
    exists k. unfold process_data. now rewrite Hk.
  - destruct (filter_sort_strict drop_columns_ca file selected_datetime_str
                exclude_values raw c Hraw Hin Hnot) as [k Hk].
    exists k. unfold process_ca_data. now rewrite Hk.
Qed.

Lemma drop_columns_are_required_witness :
  read_file Sample.metric_file = Ok Sample.metric_export
  /\ In "Uncleaned area (ft²)" drop_columns_ca
  /\ ~ In "Uncleaned area (ft²)" (columns Sample.metric_export)
  /\ exists k, process_ca_data (P := numpy_pandas) Sample.metric_file
                 Sample.cutoff Sample.adjusted None = Err (KeyError k).
Proof.
  assert (H1 : read_file Sample.metric_file = Ok Sample.metric_export)
    by reflexivity.
  assert (H2 : In "Uncleaned area (ft²)" drop_columns_ca) by (simpl; tauto).
  assert (H3 : ~ In "Uncleaned area (ft²)" (columns Sample.metric_export))
    by (apply mem_false_iff; reflexivity).
  exact (conj H1 (conj H2 (conj H3
    (proj2 (@drop_columns_are_required numpy_pandas Sample.metric_file
              Sample.cutoff Sample.adjusted None Sample.metric_export H1)
           _ H2 H3)))).
Defined.

Section MoreStageErrors.

Context {P : Pandas}.

Lemma columns_drop (df d : DataFrame) (names : list string) (c : string) :
  drop df names = Ok d ->
  (In c (columns d) <-> In c (columns df) /\ ~ In c names).
Proof.
  unfold drop. destruct (filter _ names); [|discriminate].
  intros H. inversion H; subst; clear H. unfold columns; simpl.
  induction (cols df) as [|[n s] l IH]; simpl; [tauto|].
  destruct (mem n names) eqn:E; simpl.
  - apply mem_true_iff in E. rewrite IH. split.
    + intros [H1 H2]. auto.
    + intros [[->|H1] H2]; [contradiction | auto].
  - apply mem_false_iff in E. rewrite IH. split.
    + intros [->|[H1 H2]]; auto.
    + intros [[->|H1] H2]; auto.
Qed.

Lemma columns_insert0 (df d : DataFrame) (c : string) (v : cell) :
  insert0 df c v = Ok d -> columns d = c :: columns df.
Proof.
  unfold insert0. destruct (mem c (columns df)); [discriminate|].
  intros H. now inversion H.
Qed.

Lemma getitem_missing (df : DataFrame) (c : string) :
  ~ In c (columns df) -> getitem df c = Err (KeyError c).
Proof.
  intros H. unfold getitem, column. now rewrite (lookup_none _ _ H).
Qed.

(** A non-empty exclusion list needs the serial-number column: the stage
    raises [KeyError] on "S/N" right after the frame is read. *)
Lemma filter_sort_needs_serial (drop_columns : list string) (file : BytesIO)
    (selected_datetime_str : string) (vs : list string) (raw : DataFrame) :
  vs <> [] -> read_file file = Ok raw -> ~ In "S/N" (columns raw) ->
  filter_sort drop_columns file selected_datetime_str (Some vs)
  = Err (KeyError "S/N").
Proof.
  intros Hne Hraw Hnot. unfold filter_sort. rewrite Hraw. cbn [bind].
  destruct vs as [|v vs]; [congruence|]. unfold exclude.
  now rewrite (getitem_missing _ _ Hnot).
Qed.

(** A cut-off that [strptime] rejects leaves the stage without a result. *)
Lemma filter_sort_bad_cutoff (drop_columns : list string) (file : BytesIO)
    (selected_datetime_str : string) (exclude_values : option (list string)) :
  strptime selected_datetime_str = None ->
  is_ok (filter_sort drop_columns file selected_datetime_str exclude_values)
  = false.
Proof.
  intros H. unfold filter_sort.
  destruct (read_file file); [cbn [bind]|reflexivity].
  destruct (exclude exclude_values a); [cbn [bind]|reflexivity].
  destruct (drop a0 drop_columns); [cbn [bind]|reflexivity].
  destruct (insert0 a1 "Id" NaN); [cbn [bind]|reflexivity].
  rewrite H. reflexivity.
Qed.

(** A source that already has an "Id" column, or has no report-time
    column, leaves the stage without a result. *)
Lemma filter_sort_bad_columns (drop_columns : list string) (file : BytesIO)
    (selected_datetime_str : string) (exclude_values : option (list string))
    (raw : DataFrame) :
  mem "Id" drop_columns = false ->
  read_file file = Ok raw ->
  In "Id" (columns raw) \/ ~ In report_time (columns raw) ->
  is_ok (filter_sort drop_columns file selected_datetime_str exclude_values)
  = false.
Proof.
  intros HId Hraw Hbad. unfold filter_sort. rewrite Hraw. cbn [bind].
  destruct (exclude exclude_values raw) as [df1|] eqn:E1;
    [cbn [bind]|reflexivity].
  apply exclude_columns in E1.
  destruct (drop df1 drop_columns) as [df2|] eqn:E2; [cbn [bind]|reflexivity].
  destruct (insert0 df2 "Id" NaN) as [df3|] eqn:E3; [cbn [bind]|reflexivity].
  destruct (strptime selected_datetime_str); [cbn [bind of_opt]|reflexivity].
  destruct Hbad as [Hbad|Hbad].
  - unfold insert0 in E3.
    assert (K : In "Id" (columns df2)).
    { apply (columns_drop df1 df2 drop_columns "Id" E2). split.
      - now rewrite E1.
      - now apply mem_false_iff. }
    apply mem_true_iff in K. rewrite K in E3. discriminate.
  - assert (K : ~ In report_time (columns df3)).
    { rewrite (columns_insert0 _ _ _ _ E3). simpl. intros [K|K]; [discriminate|].
      apply (columns_drop df1 df2 drop_columns report_time E2) in K.
      rewrite E1 in K. tauto. }
    now rewrite (getitem_missing _ _ K).
Qed.

End MoreStageErrors.

(** X3.  With a non-empty exclusion list, a source without the "S/N"
    column makes both pipelines, and [process_uploaded_file] for every
    server, raise [KeyError] on "S/N". *)
Theorem exclusion_needs_serial_column {P : Pandas} (file : BytesIO)
    (selected_datetime_str : string) (adjusted_datetime : cell)
    (vs : list string) (raw : DataFrame) :
  vs <> [] -> read_file file = Ok raw -> ~ In "S/N" (columns raw) ->
  process_data file selected_datetime_str adjusted_datetime (Some vs)
  = Err (KeyError "S/N")
  /\ process_ca_data file selected_datetime_str adjusted_datetime (Some vs)
     = Err (KeyError "S/N")
  /\ forall selected_server,
       process_uploaded_file file selected_datetime_str adjusted_datetime
                             selected_server (Some vs)
       = Err (KeyError "S/N").
Proof.
  intros Hne Hraw Hnot.
  assert (H1 : process_data file selected_datetime_str adjusted_datetime (Some vs)
               = Err (KeyError "S/N")).
  { unfold process_data.
    now rewrite (filter_sort_needs_serial _ _ _ _ raw Hne Hraw Hnot). }
  assert (H2 : process_ca_data file selected_datetime_str adjusted_datetime
                 (Some vs) = Err (KeyError "S/N")).
  { unfold process_ca_data.
    now rewrite (filter_sort_needs_serial _ _ _ _ raw Hne Hraw Hnot). }
  repeat split; auto.
  intros selected_server. rewrite process_uploaded_file_finalize.
  destruct (String.eqb selected_server "GS CA"); [now rewrite H2 | now rewrite H1].
Qed.

Lemma exclusion_needs_serial_column_witness :
  ["SN1"] <> []
  /\ read_file (mkFile "tasks.csv" (Ok (Sample.without "S/N" Sample.metric_export))
                       Sample.no_excel)
     = Ok (Sample.without "S/N" Sample.metric_export)
  /\ ~ In "S/N" (columns (Sample.without "S/N" Sample.metric_export))
  /\ process_data (P := numpy_pandas)
       (mkFile "tasks.csv" (Ok (Sample.without "S/N" Sample.metric_export))
               Sample.no_excel)
       Sample.cutoff Sample.adjusted (Some ["SN1"])
     = Err (KeyError "S/N").
Proof.
  assert (H1 : ["SN1"] <> []) by discriminate.
  assert (H2 : read_file (mkFile "tasks.csv"
                            (Ok (Sample.without "S/N" Sample.metric_export))
                            Sample.no_excel)
               = Ok (Sample.without "S/N" Sample.metric_export)) by reflexivity.
  assert (H3 : ~ In "S/N" (columns (Sample.without "S/N" Sample.metric_export)))
    by (apply mem_false_iff; reflexivity).
  exact (conj H1 (conj H2 (conj H3
    (proj1 (@exclusion_needs_serial_column numpy_pandas _ Sample.cutoff
              Sample.adjusted ["SN1"] _ H1 H2 H3))))).
Defined.

(** X4.  A cut-off string that [strptime] cannot read in the format
    "%Y-%m-%d %H:%M:%S" is fatal: neither pipeline, nor
    [process_uploaded_file] for any server, returns a table. *)
Theorem bad_cutoff_is_fatal {P : Pandas} (file : BytesIO)
    (selected_datetime_str : string) (adjusted_datetime : cell)
    (exclude_values : option (list string)) :
  strptime selected_datetime_str = None ->
  is_ok (process_data file selected_datetime_str adjusted_datetime
                      exclude_values) = false
  /\ is_ok (process_ca_data file selected_datetime_str adjusted_datetime
                            exclude_values) = false
  /\ forall selected_server,
       is_ok (process_uploaded_file file selected_datetime_str
                adjusted_datetime selected_server exclude_values) = false.
Proof.
  intros H.
  assert (K : forall dc, exists e,
             filter_sort dc file selected_datetime_str exclude_values = Err e).
  { intros dc. pose proof (filter_sort_bad_cutoff dc file _ exclude_values H) as K.
    destruct (filter_sort dc file selected_datetime_str exclude_values);
      [discriminate | eauto]. }
  assert (H1 : is_ok (process_data file selected_datetime_str adjusted_datetime
                        exclude_values) = false).
  { unfold process_data. destruct (K drop_columns_metric) as [e ->]. reflexivity. }
  assert (H2 : is_ok (process_ca_data file selected_datetime_str
                        adjusted_datetime exclude_values) = false).
  { unfold process_ca_data. destruct (K drop_columns_ca) as [e ->]. reflexivity. }
  repeat split; auto.
  intros selected_server. rewrite process_uploaded_file_finalize.
  destruct (String.eqb selected_server "GS CA").
  - destruct (process_ca_data _ _ _ _); [discriminate | reflexivity].
  - destruct (process_data _ _ _ _); [discriminate | reflexivity].
Qed.

Lemma bad_cutoff_is_fatal_witness :
  strptime (Pandas := numpy_pandas) "2024-02-30 00:00:00" = None
  /\ is_ok (process_data (P := numpy_pandas) Sample.metric_file
              "2024-02-30 00:00:00" Sample.adjusted None) = false.
Proof.
  assert (H : strptime (Pandas := numpy_pandas) "2024-02-30 00:00:00" = None)
    by reflexivity.
  exact (conj H (proj1 (@bad_cutoff_is_fatal numpy_pandas Sample.metric_file
                          "2024-02-30 00:00:00" Sample.adjusted None H))).
Defined.

(** X5.  The source must not have an "Id" column and must have the
    "Receive task report time" column: otherwise neither pipeline returns
    a table (the report-time column is not among the columns
    [process_data] fills in). *)
Theorem id_and_report_time_columns {P : Pandas} (file : BytesIO)
    (selected_datetime_str : string) (adjusted_datetime : cell)
    (exclude_values : option (list string)) (raw : DataFrame) :
  read_file file = Ok raw ->
  In "Id" (columns raw) \/ ~ In report_time (columns raw) ->
  is_ok (process_data file selected_datetime_str adjusted_datetime
                      exclude_values) = false
  /\ is_ok (process_ca_data file selected_datetime_str adjusted_datetime
                            exclude_values) = false.
Proof.
  intros Hraw Hbad. split.
  - pose proof (filter_sort_bad_columns drop_columns_metric file
                  selected_datetime_str exclude_values raw eq_refl Hraw Hbad) as K.
    unfold process_data.
    destruct (filter_sort drop_columns_metric file selected_datetime_str
                exclude_values); [discriminate | reflexivity].
  - pose proof (filter_sort_bad_columns drop_columns_ca file
                  selected_datetime_str exclude_values raw eq_refl Hraw Hbad) as K.
    unfold process_ca_data.
    destruct (filter_sort drop_columns_ca file selected_datetime_str
                exclude_values); [discriminate | reflexivity].
Qed.

Lemma id_and_report_time_columns_witness :
  read_file (mkFile "tasks.csv"
               (Ok (Sample.without report_time Sample.metric_export))
               Sample.no_excel)
  = Ok (Sample.without report_time Sample.metric_export)
  /\ (In "Id" (columns (Sample.without report_time Sample.metric_export))
      \/ ~ In report_time (columns (Sample.without report_time Sample.metric_export)))
  /\ is_ok (process_data (P := numpy_pandas)
              (mkFile "tasks.csv"
                 (Ok (Sample.without report_time Sample.metric_export))
                 Sample.no_excel)
              Sample.cutoff Sample.adjusted None) = false.
Proof.
  assert (H1 : read_file (mkFile "tasks.csv"
                            (Ok (Sample.without report_time Sample.metric_export))
                            Sample.no_excel)
               = Ok (Sample.without report_time Sample.metric_export))
    by reflexivity.
  assert (H2 : In "Id" (columns (Sample.without report_time Sample.metric_export))
               \/ ~ In report_time
                       (columns (Sample.without report_time Sample.metric_export))).
  { right. apply mem_false_iff. reflexivity. }
  exact (conj H1 (conj H2
    (proj1 (@id_and_report_time_columns numpy_pandas _ Sample.cutoff
              Sample.adjusted None _ H1 H2)))).
Defined.

(** ** The shape of every returned frame *)

Lemma mapM_length {A B : Type} (f : A -> result B) (l : list A) (l' : list B) :
  mapM f l = Ok l' -> length l' = length l.
Proof.
  intros H. apply mapM_ok_Forall2 in H.
  induction H; simpl; [reflexivity | now f_equal].
Qed.

Lemma upcast_length (s : Series) : length (upcast s) = length s.
Proof. unfold upcast. destruct (forallb is_int s); [reflexivity | apply length_map]. Qed.

Lemma well_formed_take_rows (df : DataFrame) (ix : list nat) :
  well_formed (take_rows df ix).
Proof.
  unfold well_formed, take_rows, take; simpl. rewrite Forall_map.
  apply Forall_forall. intros p _. simpl. now rewrite !length_map.
Qed.

Lemma well_formed_map_cells (f : cell -> cell) (df : DataFrame) :
  well_formed df -> well_formed (map_cells f df).
Proof.
  unfold well_formed, map_cells; simpl. intros H. rewrite Forall_map.
  eapply Forall_impl; [|exact H]. intros p Hp. simpl. now rewrite length_map.
Qed.

Lemma well_formed_setitem_scalar (df : DataFrame) (c : string) (v : cell) :
  well_formed df -> well_formed (setitem_scalar df c v).
Proof.
  intros H. apply well_formed_setitem; [exact H | apply repeat_length].
Qed.

Lemma well_formed_ensure_columns (order : list string) :
  forall df, well_formed df -> well_formed (ensure_columns order df).
Proof.
  unfold ensure_columns. induction order as [|c order IH]; simpl; intros df H.
  - exact H.
  - apply IH. destruct (mem c (columns df)); [exact H|].
    now apply well_formed_setitem_scalar.
Qed.

Lemma well_formed_loc_assign (names : list string) (v : cell) :
  forall df, well_formed df -> well_formed (loc_assign names v df).
Proof.
  unfold loc_assign. induction names as [|c names IH]; simpl; intros df H.
  - exact H.
  - apply IH. now apply well_formed_setitem_scalar.
Qed.

Lemma well_formed_select (df d : DataFrame) (names : list string) :
  select df names = Ok d -> well_formed df -> well_formed d.
Proof.
  unfold select. intros H Hwf. apply bind_ok in H.
  destruct H as [cs [Hcs H]]. inversion H; subst; clear H.
  unfold well_formed; simpl. apply mapM_ok_Forall2 in Hcs.
  induction Hcs as [|c p names cs Hc _ IH]; constructor; [|exact IH].
  apply bind_ok in Hc. destruct Hc as [s [Hs E]]. inversion E; subst. simpl.
  unfold getitem in Hs. destruct (column df c) eqn:Ec; inversion Hs; subst.
  now apply (well_formed_column df c).
Qed.

Section Shapes.

Context {P : Pandas}.

Lemma well_formed_update_columns (f : Series -> result Series)
    (names : list string) :
  (forall s s', f s = Ok s' -> length s' = length s) ->
  forall df d, update_columns f names df = Ok d ->
    well_formed df -> well_formed d.
Proof.
  intros Hf. induction names as [|c names IH]; simpl; intros df d H Hwf.
  - now inversion H; subst.
  - apply bind_ok in H. destruct H as [s [Hs H]].
    apply bind_ok in H. destruct H as [s' [Hs' H]].
    apply (IH _ _ H). apply well_formed_setitem; [exact Hwf|].
    rewrite (Hf _ _ Hs').
    unfold getitem in Hs. destruct (column df c) eqn:Ec; inversion Hs; subst.
    now apply (well_formed_column df c).
Qed.

Lemma astype_float_length (s s' : Series) :
  astype_float s = Ok s' -> length s' = length s.
Proof. apply mapM_length. Qed.

Lemma clean_metric_length (s s' : Series) :
  clean_metric s = Ok s' -> length s' = length s.
Proof.
  unfold clean_metric.
  destruct (dtype_of s); try (intros H; now inversion H);
    intros H; apply astype_float_length in H;
    unfold astype_str in H; now rewrite H, !length_map.
Qed.

Lemma to_numeric_series_length (s s' : Series) :
  to_numeric_series s = Ok s' -> length s' = length s.
Proof.
  unfold to_numeric_series. intros H. apply bind_ok in H.
  destruct H as [l [Hl H]]. inversion H; subst.
  rewrite upcast_length. now apply mapM_length in Hl.
Qed.

Lemma strip_commas_length (s s' : Series) :
  strip_commas s = Ok s' -> length s' = length s.
Proof. unfold strip_commas, astype_str. intros H; inversion H. now rewrite !length_map. Qed.

Lemma convert_volume_length (s s' : Series) :
  convert_volume s = Ok s' -> length s' = length s.
Proof.
  unfold convert_volume. intros H. invert_bind H. inversion H; subst.
  apply mapM_length in E, E0. rewrite length_map. congruence.
Qed.

Lemma convert_area_length (s s' : Series) :
  convert_area s = Ok s' -> length s' = length s.
Proof.
  unfold convert_area. intros H. apply bind_ok in H. destruct H as [l [Hl H]].
  apply to_numeric_series_length in Hl. apply mapM_length in H. congruence.
Qed.

Lemma area_to_str_length (s s' : Series) :
  area_to_str s = Ok s' -> length s' = length s.
Proof. unfold area_to_str, astype_str. intros H; inversion H. now rewrite !length_map. Qed.

Lemma round_area_length (s s' : Series) :
  round_area s = Ok s' -> length s' = length s.
Proof.
  unfold round_area. intros H. apply bind_ok in H. destruct H as [l [Hl H]].
  inversion H; subst. rewrite length_map. now apply to_numeric_series_length.
Qed.

Lemma clean_pct_length (s s' : Series) :
  clean_pct s = Ok s' -> length s' = length s.
Proof.
  unfold clean_pct. intros H. apply astype_float_length in H.
  now rewrite H, !length_map.
Qed.

(** The frame that leaves the filter and sort stage has columns as long
    as its index, and the index is 0, 1, ... *)
Lemma filter_sort_well_formed (drop_columns : list string) (file : BytesIO)
    (selected_datetime_str : string) (exclude_values : option (list string))
    (d : DataFrame) :
  filter_sort drop_columns file selected_datetime_str exclude_values = Ok d ->
  well_formed d /\ index d = seq 0 (length (index d)).
Proof.
  unfold filter_sort. intros H. invert_bind H. inversion H; subst; clear H.
  unfold sort_values_desc in E8. apply bind_ok in E8.
  destruct E8 as [k [_ E8]]. inversion E8; subst; clear E8.
  split.
  - pose proof (well_formed_take_rows x7 (nargsort_desc k)) as K.
    unfold well_formed, reset_index in *; simpl in *.
    rewrite length_seq. exact K.
  - unfold reset_index; simpl. now rewrite length_seq.
Qed.

Lemma prepare_well_formed (order upd : list string) (adjusted_datetime : cell)
    (df d : DataFrame) :
  prepare order upd adjusted_datetime df = Ok d ->
  well_formed df -> well_formed d.
Proof.
  unfold prepare. intros H Hwf. apply bind_ok in H.
  destruct H as [df_reorder [Hsel H]]. inversion H; subst; clear H.
  apply well_formed_map_cells, well_formed_map_cells, well_formed_loc_assign.
  exact (well_formed_select _ _ _ Hsel Hwf).
Qed.

Lemma normalize_metric_well_formed (adjusted_datetime : cell)
    (df_filtered out : DataFrame) :
  normalize_metric adjusted_datetime df_filtered = Ok out ->
  well_formed df_filtered ->
  well_formed out /\ index out = index df_filtered.
Proof.
  rewrite normalize_metric_prepare. intros H Hwf.
  apply bind_ok in H. destruct H as [d [Hd H]].
  pose proof (update_columns_ok _ _ _ _ H) as [_ [Hi _]].
  pose proof (prepare_well_formed _ _ _ _ _ Hd
                (well_formed_ensure_columns _ _ Hwf)) as Hwd.
  apply prepare_spec in Hd; [|now apply incl_by_mem].
  destruct Hd as [_ [Hid _]].
  destruct (ensure_columns_spec column_order_metric df_filtered EmptyString)
    as [Hie _].
  split.
  - exact (well_formed_update_columns _ _ clean_metric_length _ _ H Hwd).
  - now rewrite Hi, Hid, Hie.
Qed.

Lemma normalize_ca_well_formed (adjusted_datetime : cell)
    (df_filtered out : DataFrame) :
  normalize_ca adjusted_datetime df_filtered = Ok out ->
  well_formed df_filtered ->
  well_formed out /\ index out = index df_filtered.
Proof.
  rewrite normalize_ca_prepare. intros H Hwf.
  apply bind_ok in H. destruct H as [d [Hd H]].
  pose proof (prepare_well_formed _ _ _ _ _ Hd Hwf) as Hwd.
  apply prepare_spec in Hd; [|now apply incl_by_mem].
  destruct Hd as [_ [Hid _]].
  apply bind_ok in H. destruct H as [d1 [E1 H]].
  apply bind_ok in H. destruct H as [d2 [E2 H]].
  apply bind_ok in H. destruct H as [d3 [E3 H]].
  apply bind_ok in H. destruct H as [d4 [E4 H]].
  apply bind_ok in H. destruct H as [d5 [E5 H]].
  pose proof (update_columns_ok _ _ _ _ E1) as [_ [I1 _]].
  pose proof (update_columns_ok _ _ _ _ E2) as [_ [I2 _]].
  pose proof (update_columns_ok _ _ _ _ E3) as [_ [I3 _]].
  pose proof (update_columns_ok _ _ _ _ E4) as [_ [I4 _]].
  pose proof (update_columns_ok _ _ _ _ E5) as [_ [I5 _]].
  pose proof (update_columns_ok _ _ _ _ H) as [_ [I6 _]].
  split.
  - apply (well_formed_update_columns _ _ clean_pct_length _ _ H).
    apply (well_formed_update_columns _ _ round_area_length _ _ E5).
    apply (well_formed_update_columns _ _ area_to_str_length _ _ E4).
    apply (well_formed_update_columns _ _ convert_area_length _ _ E3).
    apply (well_formed_update_columns _ _ convert_volume_length _ _ E2).
    exact (well_formed_update_columns _ _ strip_commas_length _ _ E1 Hwd).
  - now rewrite I6, I5, I4, I3, I2, I1, Hid.
Qed.

Lemma process_well_formed (file : BytesIO) (selected_datetime_str : string)
    (adjusted_datetime : cell) (exclude_values : option (list string))
    (out : DataFrame) :
  process_data file selected_datetime_str adjusted_datetime exclude_values = Ok out
  \/ process_ca_data file selected_datetime_str adjusted_datetime exclude_values
     = Ok out ->
  well_formed out /\ index out = seq 0 (length (index out)).
Proof.
  intros [H|H].
  - unfold process_data in H. apply bind_ok in H.
    destruct H as [df_filtered [Hf Hn]].
    apply filter_sort_well_formed in Hf. destruct Hf as [Hwf Hi].
    destruct (normalize_metric_well_formed _ _ _ Hn Hwf) as [K1 K2].
    split; [exact K1 | now rewrite K2].
  - unfold process_ca_data in H. apply bind_ok in H.
    destruct H as [df_filtered [Hf Hn]].
    apply filter_sort_well_formed in Hf. destruct Hf as [Hwf Hi].
    destruct (normalize_ca_well_formed _ _ _ Hn Hwf) as [K1 K2].
    split; [exact K1 | now rewrite K2].
Qed.

End Shapes.

(** X6.  Every frame returned by [process_data] or [process_ca_data] is
    renumbered: whatever rows of the source were kept and however they
    were ordered, its index is 0, 1, ..., n - 1, and each of its columns
    has n cells. *)
Theorem output_index_is_reset {P : Pandas} (file : BytesIO)
    (selected_datetime_str : string) (adjusted_datetime : cell)
    (exclude_values : option (list string)) (out : DataFrame) :
  process_data file selected_datetime_str adjusted_datetime exclude_values = Ok out
  \/ process_ca_data file selected_datetime_str adjusted_datetime exclude_values
     = Ok out ->
  index out = seq 0 (length (index out))
  /\ Forall (fun p => length (snd p) = length (index out)) (cols out).
Proof.
  intros H. destruct (process_well_formed _ _ _ _ _ H) as [Hwf Hi].
  split; [exact Hi | exact Hwf].
Qed.

Lemma output_index_is_reset_witness :
  process_data (P := numpy_pandas) Sample.metric_file Sample.cutoff
               Sample.adjusted None = Ok Runs.metric_out
  /\ index Sample.metric_export = [0; 1; 2; 3]%nat
  /\ index Runs.metric_out = seq 0 (length (index Runs.metric_out))
  /\ Forall (fun p => length (snd p) = length (index Runs.metric_out))
            (cols Runs.metric_out).
Proof.
  assert (H : process_data (P := numpy_pandas) Sample.metric_file Sample.cutoff
                Sample.adjusted None = Ok Runs.metric_out)
    by (vm_compute; reflexivity).
  exact (conj H (conj eq_refl
    (@output_index_is_reset numpy_pandas Sample.metric_file Sample.cutoff
       Sample.adjusted None Runs.metric_out (or_introl H)))).
Defined.
